(** * Neuroscope: conversion of PyTorch models to the Neuroscope graph format

    A shallow embedding of the four converters of the repository:

    - [PyConverter]      : src/python/pytorch_converter.py
                           (descriptor-driven, [convert_pytorch_model])
    - [ServiceMain]      : python_service/main.py
                           (descriptor-driven, body of [import_pytorch_model])
    - [ServiceConverter] : python_service/pytorch_converter.py
                           (live-model traversal, [process_layer])
    - [Bridge]           : src/lib/bridge/pytorch_service.py
                           (live-model traversal, [process_container])

    Conventions of the embedding.  Python floats are exact rationals
    ([FRat]), the square root of a rational ([FSqrt], used for standard
    deviations) or NaN; rounding and overflow are not modelled.  A tensor is
    its shape and its flattened elements, which are finite numbers; its dtype
    is not modelled.  Python exceptions are values of [error], and a function
    that can raise returns a [result]. *)

From Stdlib Require Import ZArith QArith Qminmax Qabs Lia.
From stdpp Require Import base option gmap strings list pretty.

Set Warnings "-register-all".

(** ** Python values, exceptions *)

Inductive pyfloat : Type :=
  | FRat (q : Q)        (* a finite float, as the reduced rational it denotes *)
  | FSqrt (q : Q)       (* the square root of the rational [q] *)
  | FNaN.

Record tensor : Type := mkTensor {
  t_shape : list Z;     (* tensor.shape *)
  t_data : list Q       (* the elements, flattened *)
}.

Inductive value : Type :=
  | VNone
  | VBool (b : bool)
  | VInt (z : Z)
  | VFloat (f : pyfloat)
  | VStr (s : string)
  | VList (vs : list value)       (* lists and tuples *)
  | VTensor (t : tensor).

Inductive error : Type :=
  | KeyError (key : string)
  | ValueError (msg : string)
  | TypeError (msg : string)
  | RuntimeError (msg : string)
  | AttributeError (msg : string)
  | ValidationError (field : string).

Inductive result (A : Type) : Type :=
  | Ok (a : A)
  | Err (e : error).
Arguments Ok {A} a.
Arguments Err {A} e.

Definition rbind {A B : Type} (r : result A) (k : A -> result B) : result B :=
  match r with
  | Ok a => k a
  | Err e => Err e
  end.

Declare Scope result_scope.
Delimit Scope result_scope with result.
Notation "x <- r ;; k" := (rbind r (fun x => k))
  (at level 100, r at next level, right associativity) : result_scope.
Local Open Scope result_scope.

Definition is_ok {A : Type} (r : result A) : bool :=
  match r with Ok _ => true | Err _ => false end.

Definition is_VNone (v : value) : bool :=
  match v with VNone => true | _ => false end.

(** Python truthiness of a value (only used on flags). *)
Definition truthy (v : value) : bool :=
  match v with
  | VNone => false
  | VBool b => b
  | VInt z => negb (z =? 0)%Z
  | VFloat (FRat q) => negb (Qeq_bool q 0)
  | VFloat _ => true
  | VStr s => negb (String.eqb s "")
  | VList vs => match vs with [] => false | _ => true end
  | VTensor _ => true
  end.

(** ** The output schema (models.py) *)

Record NetworkNode : Type := mkNode {
  node_id : string;
  node_type : string;
  node_properties : gmap string value
}.

Record NetworkConnection : Type := mkConnection {
  conn_source : string;
  conn_target : string;
  conn_weight : pyfloat;
  conn_properties : gmap string value
}.

Record NeuroscopeNetwork : Type := mkNetwork {
  net_type : string;
  net_nodes : list NetworkNode;
  net_connections : list NetworkConnection
}.

(** The pattern ["^(ANN|SNN|Connectome)$"] that src/python/models.py puts on
    [NeuroscopeNetwork.type]. *)
Definition type_pattern (s : string) : bool :=
  String.eqb s "ANN" || String.eqb s "SNN" || String.eqb s "Connectome".

(** The ordered (source, target) pair of a connection. *)
Definition endpoints (c : NetworkConnection) : string * string :=
  (conn_source c, conn_target c).

(** ** Weight statistics (numpy / torch reductions over all elements) *)

Definition Qsum (xs : list Q) : Q := fold_right Qplus 0%Q xs.

Definition Qlen (xs : list Q) : Q := inject_Z (Z.of_nat (length xs)).

Definition np_abs (xs : list Q) : list Q := map Qabs xs.

(** [np.mean]: NaN on an empty array. *)
Definition np_mean (xs : list Q) : pyfloat :=
  match xs with
  | [] => FNaN
  | _ :: _ => FRat (Qred (Qsum xs / Qlen xs))
  end.

(** [np.max] and [np.min] raise [ValueError] on an empty array. *)
Definition np_max (xs : list Q) : result pyfloat :=
  match xs with
  | [] => Err (ValueError
            "zero-size array to reduction operation maximum which has no identity")
  | x :: r => Ok (FRat (Qred (fold_left Qmax r x)))
  end.

Definition np_min (xs : list Q) : result pyfloat :=
  match xs with
  | [] => Err (ValueError
            "zero-size array to reduction operation minimum which has no identity")
  | x :: r => Ok (FRat (Qred (fold_left Qmin r x)))
  end.

(** The variance with [ddof = 0], which is numpy's default: the squared
    deviations are divided by the number of elements. *)
Definition np_var (xs : list Q) : Q :=
  let mu := (Qsum xs / Qlen xs)%Q in
  (Qsum (map (fun x => (x - mu) * (x - mu))%Q xs) / Qlen xs)%Q.

(** [np.std]: the square root of [np_var]; NaN on an empty array. *)
Definition np_std (xs : list Q) : pyfloat :=
  match xs with
  | [] => FNaN
  | _ :: _ => FSqrt (Qred (np_var xs))
  end.

Definition shape_value (t : tensor) : value := VList (map VInt (t_shape t)).

(** ** Layer classes of torch.nn the converters dispatch on *)

Inductive nn_class : Type :=
  | Linear | Conv1d | Conv2d | Conv3d
  | BatchNorm1d | BatchNorm2d | BatchNorm3d | LayerNorm
  | MaxPool1d | MaxPool2d | MaxPool3d | AvgPool1d | AvgPool2d | AvgPool3d
  | AdaptiveAvgPool1d | AdaptiveAvgPool2d | AdaptiveAvgPool3d
  | RNN | LSTM | GRU
  | Dropout | Dropout2d | Dropout3d
  | ReLU | LeakyReLU | PReLU | RReLU | SELU | CELU | GELU
  | Sigmoid | Tanh
  | Embedding | TransformerEncoderLayer | TransformerDecoderLayer
  | Sequential | ModuleList | ModuleDict
  | Custom (name : string)      (* a class of its own, by its [__name__] *)
  | Derived (name : string) (base : nn_class).
                                (* a class [name] that subclasses [base] *)

(** [layer.__class__.__name__] *)
Definition class_name (c : nn_class) : string :=
  match c with
  | Linear => "Linear" | Conv1d => "Conv1d" | Conv2d => "Conv2d"
  | Conv3d => "Conv3d"
  | BatchNorm1d => "BatchNorm1d" | BatchNorm2d => "BatchNorm2d"
  | BatchNorm3d => "BatchNorm3d" | LayerNorm => "LayerNorm"
  | MaxPool1d => "MaxPool1d" | MaxPool2d => "MaxPool2d"
  | MaxPool3d => "MaxPool3d"
  | AvgPool1d => "AvgPool1d" | AvgPool2d => "AvgPool2d"
  | AvgPool3d => "AvgPool3d"
  | AdaptiveAvgPool1d => "AdaptiveAvgPool1d"
  | AdaptiveAvgPool2d => "AdaptiveAvgPool2d"
  | AdaptiveAvgPool3d => "AdaptiveAvgPool3d"
  | RNN => "RNN" | LSTM => "LSTM" | GRU => "GRU"
  | Dropout => "Dropout" | Dropout2d => "Dropout2d" | Dropout3d => "Dropout3d"
  | ReLU => "ReLU" | LeakyReLU => "LeakyReLU" | PReLU => "PReLU"
  | RReLU => "RReLU" | SELU => "SELU" | CELU => "CELU" | GELU => "GELU"
  | Sigmoid => "Sigmoid" | Tanh => "Tanh"
  | Embedding => "Embedding"
  | TransformerEncoderLayer => "TransformerEncoderLayer"
  | TransformerDecoderLayer => "TransformerDecoderLayer"
  | Sequential => "Sequential" | ModuleList => "ModuleList"
  | ModuleDict => "ModuleDict"
  | Custom name => name
  | Derived name _ => name
  end.

#[global] Instance nn_class_eq_dec : EqDecision nn_class.
Proof. solve_decision. Defined.

(** [issubclass(c, target)]: a class is a subclass of itself and of the
    classes its base is a subclass of.  None of the classes of torch listed
    above derives from another one of them. *)
Fixpoint issubclass (c target : nn_class) : bool :=
  bool_decide (c = target) ||
  match c with
  | Derived _ base => issubclass base target
  | _ => false
  end.

(** ** Structure descriptors *)

(** One entry of the ['layers'] list of a structure descriptor: a dictionary
    whose ['type'] and ['name'] entries, when present, are strings. *)
Record layer_info : Type := mkLayerInfo {
  li_type : option string;
  li_name : option string;
  li_fields : gmap string value
}.

(** [layer_info['type']], [layer_info['name']], [layer_info[k]] *)
Definition li_type_item (li : layer_info) : result string :=
  match li_type li with Some s => Ok s | None => Err (KeyError "type") end.

Definition li_name_item (li : layer_info) : result string :=
  match li_name li with Some s => Ok s | None => Err (KeyError "name") end.

Definition li_item (li : layer_info) (k : string) : result value :=
  match li_fields li !! k with Some v => Ok v | None => Err (KeyError k) end.

(** [layer_info.get(k, default)] *)
Definition li_get (li : layer_info) (k : string) (default : value) : value :=
  match li_fields li !! k with Some v => v | None => default end.

(** The entry as a plain dictionary. *)
Definition li_dict (li : layer_info) : gmap string value :=
  let d := li_fields li in
  let d := match li_name li with Some s => <["name" := VStr s]> d | None => d end in
  match li_type li with Some s => <["type" := VStr s]> d | None => d end.

(** A loaded structure descriptor, with its ['layers'] list. *)
Record model_structure : Type := mkStructure {
  layers : list layer_info
}.

(** [f"layer_{i}"] *)
Definition layer_id_of (i : nat) : string := "layer_" +:+ pretty i.

(** ** src/python/pytorch_converter.py: descriptor-driven conversion *)

Module PyConverter.

(** The temporary layer that [create_layer_from_info] builds, reduced to
    what [get_layer_properties] reads from it: its class, the number of
    elements of its trainable parameters, whether [layer.bias] (for
    recurrent layers [layer.bias_hh_l0]) is not [None], and the attributes
    [eps], [momentum], [affine] and [inplace]. *)
Record layer : Type := mkLayer {
  l_class : nn_class;
  l_trainable : Z;
  l_bias : bool;
  l_eps : pyfloat;
  l_momentum : pyfloat;
  l_affine : bool;
  l_inplace : bool
}.

Definition plain_layer (c : nn_class) (n : Z) (bias : bool) : layer :=
  mkLayer c n bias (FRat (1 # 100000)) (FRat (1 # 10)) true false.

(** *** The torch.nn constructors

    A size argument has to be a non-negative integer, the sizes of a
    recurrent layer positive ones, and a dropout probability a number
    between 0 and 1; torch raises otherwise. *)

Definition as_size (v : value) : result Z :=
  match v with
  | VInt z =>
      if (z <? 0)%Z then Err (RuntimeError "negative dimension") else Ok z
  | _ => Err (TypeError "an integer is required")
  end.

Definition as_positive (v : value) : result Z :=
  match v with
  | VInt z =>
      if (z <=? 0)%Z then Err (ValueError "must be greater than zero")
      else Ok z
  | _ => Err (TypeError "an integer is required")
  end.

Definition as_probability (v : value) : result unit :=
  let bad := Err (ValueError "dropout probability has to be between 0 and 1") in
  match v with
  | VInt z => if ((0 <=? z) && (z <=? 1))%Z then Ok tt else bad
  | VFloat (FRat q) =>
      if Qle_bool 0 q && Qle_bool q 1 then Ok tt else bad
  | _ => bad
  end.

Definition nn_Conv2d (in_channels out_channels : value) (kernel_size : Z)
    : result layer :=
  i <- as_size in_channels ;;
  o <- as_size out_channels ;;
  Ok (plain_layer Conv2d (o * i * kernel_size * kernel_size + o) true).

Definition nn_Conv1d (in_channels out_channels kernel_size : value)
    : result layer :=
  i <- as_size in_channels ;;
  o <- as_size out_channels ;;
  k <- match kernel_size with
       | VList [k] => as_size k
       | k => as_size k
       end ;;
  Ok (plain_layer Conv1d (o * i * k + o) true).

Definition nn_Linear (in_features out_features : value) : result layer :=
  i <- as_size in_features ;;
  o <- as_size out_features ;;
  Ok (plain_layer Linear (o * i + o) true).

Definition nn_BatchNorm (c : nn_class) (num_features : value) : result layer :=
  n <- as_size num_features ;;
  Ok (plain_layer c (2 * n) true).

Definition nn_Dropout (p : value) : result layer :=
  _ <- as_probability p ;;
  Ok (plain_layer Dropout 0 false).

(** LSTM ([gates = 4]) and GRU ([gates = 3]): per layer and direction the
    matrices [weight_ih], [weight_hh] and the two bias vectors. *)
Definition nn_recurrent (c : nn_class) (gates : Z)
    (input_size hidden_size num_layers bidirectional : value) : result layer :=
  i <- as_size input_size ;;
  h <- as_positive hidden_size ;;
  n <- as_positive num_layers ;;
  let dirs := (if truthy bidirectional then 2 else 1)%Z in
  let first := (gates * h * (i + h + 2))%Z in
  let next := (gates * h * (h * dirs + h + 2))%Z in
  Ok (plain_layer c (dirs * (first + (n - 1) * next)) true).

(** *** create_layer_from_info *)

Definition create_layer_from_info (layer_info : layer_info) : result layer :=
  layer_type <- li_type_item layer_info ;;
  if String.eqb layer_type "Conv2d" then
    i <- li_item layer_info "in_channels" ;;
    o <- li_item layer_info "out_channels" ;;
    nn_Conv2d i o 3
  else if String.eqb layer_type "Conv1d" then
    i <- li_item layer_info "in_channels" ;;
    o <- li_item layer_info "out_channels" ;;
    nn_Conv1d i o (li_get layer_info "kernel_size" (VInt 3))
  else if String.eqb layer_type "Linear" then
    i <- li_item layer_info "in_features" ;;
    o <- li_item layer_info "out_features" ;;
    nn_Linear i o
  else if String.eqb layer_type "BatchNorm2d" then
    n <- li_item layer_info "num_features" ;;
    nn_BatchNorm BatchNorm2d n
  else if String.eqb layer_type "BatchNorm1d" then
    n <- li_item layer_info "num_features" ;;
    nn_BatchNorm BatchNorm1d n
  else if String.eqb layer_type "ReLU" then
    Ok (plain_layer ReLU 0 false)
  else if String.eqb layer_type "MaxPool2d" then
    Ok (plain_layer MaxPool2d 0 false)
  else if String.eqb layer_type "MaxPool1d" then
    Ok (plain_layer MaxPool1d 0 false)
  else if String.eqb layer_type "Dropout" then
    nn_Dropout (li_get layer_info "p" (VFloat (FRat (1 # 2))))
  else if String.eqb layer_type "LSTM" then
    i <- li_item layer_info "input_size" ;;
    h <- li_item layer_info "hidden_size" ;;
    nn_recurrent LSTM 4 i h (li_get layer_info "num_layers" (VInt 1))
                 (li_get layer_info "bidirectional" (VBool false))
  else if String.eqb layer_type "GRU" then
    i <- li_item layer_info "input_size" ;;
    h <- li_item layer_info "hidden_size" ;;
    nn_recurrent GRU 3 i h (li_get layer_info "num_layers" (VInt 1))
                 (li_get layer_info "bidirectional" (VBool false))
  else if String.eqb layer_type "LeakyReLU" then
    Ok (plain_layer LeakyReLU 0 false)
  else if String.eqb layer_type "Sigmoid" then
    Ok (plain_layer Sigmoid 0 false)
  else if String.eqb layer_type "Tanh" then
    Ok (plain_layer Tanh 0 false)
  else
    Err (ValueError ("Unsupported layer type: " +:+ layer_type)).

(** The tags [create_layer_from_info] has a branch for. *)
Definition supported_types : list string :=
  ["Conv2d"; "Conv1d"; "Linear"; "BatchNorm2d"; "BatchNorm1d"; "ReLU";
   "MaxPool2d"; "MaxPool1d"; "Dropout"; "LSTM"; "GRU"; "LeakyReLU";
   "Sigmoid"; "Tanh"].

Definition supported (layer_type : string) : bool :=
  existsb (String.eqb layer_type) supported_types.

(** *** LayerProperties (models.py)

    The schema is checked field by field; [dict(exclude_none=True)] then
    drops the entries whose value is [None]. *)

Definition is_int (v : value) : bool :=
  match v with VInt _ => true | _ => false end.
Definition is_float (v : value) : bool :=
  match v with VFloat _ | VInt _ => true | _ => false end.
Definition is_bool (v : value) : bool :=
  match v with VBool _ => true | _ => false end.
Definition is_str (v : value) : bool :=
  match v with VStr _ => true | _ => false end.
Definition is_int_or_pair (v : value) : bool :=
  match v with
  | VInt _ => true
  | VList [VInt _; VInt _] => true
  | _ => false
  end.

Definition schema : list (string * (value -> bool)) :=
  [("type", is_str); ("trainable_parameters", is_int);
   ("has_bias", is_bool);
   ("in_features", is_int); ("out_features", is_int);
   ("in_channels", is_int); ("out_channels", is_int);
   ("kernel_size", is_int_or_pair); ("stride", is_int_or_pair);
   ("padding", is_int_or_pair);
   ("num_features", is_int); ("eps", is_float); ("momentum", is_float);
   ("affine", is_bool);
   ("input_size", is_int); ("hidden_size", is_int); ("num_layers", is_int);
   ("bidirectional", is_bool);
   ("activation_type", is_str); ("inplace", is_bool);
   ("negative_slope", is_float);
   ("output_size", is_int_or_pair);
   ("p", is_float)].

Definition optional (ok : value -> bool) (v : value) : bool :=
  is_VNone v || ok v.

(** The first field of the schema whose value has the wrong type. *)
Fixpoint first_invalid (fields : list (string * (value -> bool)))
    (props : gmap string value) : option string :=
  match fields with
  | [] => None
  | (k, ok) :: rest =>
      match props !! k with
      | Some v => if optional ok v then first_invalid rest props else Some k
      | None => first_invalid rest props
      end
  end.

Definition exclude_none (props : gmap string value) : gmap string value :=
  filter (fun kv => is_VNone kv.2 = false) props.

Definition LayerProperties_dict (props : gmap string value)
    : result (gmap string value) :=
  match first_invalid schema props with
  | Some k => Err (ValidationError k)
  | None => Ok (exclude_none props)
  end.

(** *** get_layer_properties *)

Definition update (new : list (string * value)) (props : gmap string value)
    : gmap string value :=
  fold_left (fun d kv => <[kv.1 := kv.2]> d) new props.

Definition get_layer_properties (layer : layer) (layer_info : layer_info)
    : result (gmap string value) :=
  ty <- li_type_item layer_info ;;
  let props : gmap string value :=
    update [("type", VStr ty);
            ("trainable_parameters", VInt (l_trainable layer))] ∅ in
  props <-
    match l_class layer with
    | Linear =>
        i <- li_item layer_info "in_features" ;;
        o <- li_item layer_info "out_features" ;;
        Ok (update [("in_features", i); ("out_features", o);
                    ("has_bias", VBool (l_bias layer))] props)
    | Conv1d | Conv2d =>
        i <- li_item layer_info "in_channels" ;;
        o <- li_item layer_info "out_channels" ;;
        Ok (update [("in_channels", i); ("out_channels", o);
                    ("kernel_size", li_get layer_info "kernel_size" (VInt 3));
                    ("stride", li_get layer_info "stride" (VInt 1));
                    ("padding", li_get layer_info "padding" (VInt 0));
                    ("has_bias", VBool (l_bias layer))] props)
    | BatchNorm1d | BatchNorm2d =>
        n <- li_item layer_info "num_features" ;;
        Ok (update [("num_features", n);
                    ("eps", VFloat (l_eps layer));
                    ("momentum", VFloat (l_momentum layer));
                    ("affine", VBool (l_affine layer))] props)
    | LSTM | GRU =>
        i <- li_item layer_info "input_size" ;;
        h <- li_item layer_info "hidden_size" ;;
        Ok (update [("input_size", i); ("hidden_size", h);
                    ("num_layers", li_get layer_info "num_layers" (VInt 1));
                    ("bidirectional",
                       li_get layer_info "bidirectional" (VBool false));
                    ("has_bias", VBool (l_bias layer))] props)
    | MaxPool1d | MaxPool2d | AvgPool1d | AvgPool2d =>
        Ok (update [("kernel_size", li_get layer_info "kernel_size" (VInt 2));
                    ("stride", li_get layer_info "stride" VNone);
                    ("padding", li_get layer_info "padding" (VInt 0))] props)
    | Dropout =>
        Ok (update [("p", li_get layer_info "p" (VFloat (FRat (1 # 2))))] props)
    | ReLU =>
        Ok (update [("activation_type", VStr "ReLU");
                    ("inplace", VBool (l_inplace layer))] props)
    | LeakyReLU =>
        Ok (update [("activation_type", VStr "LeakyReLU");
                    ("negative_slope",
                       li_get layer_info "negative_slope"
                              (VFloat (FRat (1 # 100))));
                    ("inplace", VBool (l_inplace layer))] props)
    | Sigmoid | Tanh =>
        Ok (update [("activation_type", VStr (class_name (l_class layer)))]
                   props)
    | _ => Ok props
    end ;;
  LayerProperties_dict props.

(** *** convert_pytorch_model *)

Record model_data : Type := mkModelData {
  structure : model_structure;           (* model_data['model_structure'] *)
  state_dict : gmap string tensor        (* model_data['state_dict'] *)
}.

(** The statistics block of a connection, from the raw weight data. *)
Definition weight_props (weight_data : tensor) : result (gmap string value) :=
  max_weight <- np_max (t_data weight_data) ;;
  min_weight <- np_min (t_data weight_data) ;;
  Ok (update [("max_weight", VFloat max_weight);
              ("min_weight", VFloat min_weight);
              ("std_weight", VFloat (np_std (t_data weight_data)));
              ("shape", shape_value weight_data)] ∅).

(** The body of the loop over [enumerate(structure['layers'])], from entry
    number [i] on; [prev_layer_id] is the id of the entry before. *)
Fixpoint process_layers (state_dict : gmap string tensor) (i : nat)
    (entries : list layer_info) (prev_layer_id : option string)
    (nodes : list NetworkNode) (connections : list NetworkConnection)
    : result (list NetworkNode * list NetworkConnection) :=
  match entries with
  | [] => Ok (nodes, connections)
  | layer_info :: rest =>
      let layer_id := layer_id_of i in
      layer <- create_layer_from_info layer_info ;;
      properties <- get_layer_properties layer layer_info ;;
      ty <- li_type_item layer_info ;;
      let nodes := nodes ++ [mkNode layer_id ty properties] in
      connections <-
        match prev_layer_id with
        | Some prev =>
            name <- li_name_item layer_info ;;
            let weight_key := name +:+ ".weight" in
            props <- match state_dict !! weight_key with
                     | Some weight_data => weight_props weight_data
                     | None => Ok ∅
                     end ;;
            Ok (connections ++ [mkConnection prev layer_id (FRat 1) props])
        | None => Ok connections
        end ;;
      process_layers state_dict (S i) rest (Some layer_id) nodes connections
  end.

Definition convert_pytorch_model (model_data : model_data)
    : result NeuroscopeNetwork :=
  r <- process_layers (state_dict model_data) 0
         (layers (structure model_data)) None [] [] ;;
  Ok (mkNetwork "ANN" r.1 r.2).

End PyConverter.

(** ** python_service/main.py: the conversion in import_pytorch_model *)

Module ServiceMain.

(** [float(torch.mean(torch.abs(weight_tensor)).item())] *)
Definition mean_abs (weight_tensor : tensor) : pyfloat :=
  np_mean (np_abs (t_data weight_tensor)).

(** The loop over [enumerate(model_info['layers'])], from entry number [i]
    on; [prev_node] is the node of the entry before. *)
Fixpoint process_layers (weights : gmap string tensor) (i : nat)
    (entries : list layer_info) (prev_node : option NetworkNode)
    (nodes : list NetworkNode) (connections : list NetworkConnection)
    : result (list NetworkNode * list NetworkConnection) :=
  match entries with
  | [] => Ok (nodes, connections)
  | layer :: rest =>
      ty <- li_type_item layer ;;
      let node := mkNode (layer_id_of i) ty (li_dict layer) in
      let nodes := nodes ++ [node] in
      connections <-
        match prev_node with
        | Some prev =>
            name <- li_name_item layer ;;
            let weight_key := name +:+ ".weight" in
            let weight :=
              match weights !! weight_key with
              | Some weight_tensor => mean_abs weight_tensor
              | None => FRat 1
              end in
            Ok (connections ++
                  [mkConnection (node_id prev) (node_id node) weight ∅])
        | None => Ok connections
        end ;;
      process_layers weights (S i) rest (Some node) nodes connections
  end.

(** The part of [import_pytorch_model] between the loading of the two files
    and the response: [model_info] is the loaded descriptor with its
    ['layers'] list, [weights] the loaded state dictionary. *)
Definition import_pytorch_model (model_info : model_structure)
    (weights : gmap string tensor) : result NeuroscopeNetwork :=
  r <- process_layers weights 0 (layers model_info) None [] [] ;;
  Ok (mkNetwork "ANN" r.1 r.2).

End ServiceMain.

(** ** Live torch modules *)

Record parameter : Type := mkParameter {
  p_data : tensor;
  p_requires_grad : bool
}.

(** The forward hooks this repository registers: the closure [hook] of
    [register_activation_hooks]. *)
Inductive forward_hook : Type :=
  | activation_hook.

(** A module of a live model: its class, its registered parameters (a
    parameter registered as [None] is kept, as torch does), its other
    attributes, its forward hooks and its named children, in registration
    order.  [m_name] is the name under which the parent registered it. *)
Inductive nn_module : Type := mkModule {
  m_name : string;
  m_class : nn_class;
  m_parameters : list (string * option parameter);
  m_attrs : gmap string value;
  m_forward_hooks : list forward_hook;
  m_children : list nn_module
}.

(** [isinstance(m, (c1, ..., cn))] *)
Definition isinstance (m : nn_module) (classes : list nn_class) : bool :=
  existsb (issubclass (m_class m)) classes.

(** [len(list(m.children())) > 0] *)
Definition has_children (m : nn_module) : bool :=
  match m_children m with [] => false | _ :: _ => true end.

Fixpoint assoc {A : Type} (k : string) (l : list (string * A)) : option A :=
  match l with
  | [] => None
  | (k', a) :: rest => if String.eqb k k' then Some a else assoc k rest
  end.

(** Attribute lookup: registered parameters first, then the other
    attributes.  [None] is Python's [AttributeError]. *)
Definition getattr (m : nn_module) (name : string) : option value :=
  match assoc name (m_parameters m) with
  | Some (Some p) => Some (VTensor (p_data p))
  | Some None => Some VNone
  | None => m_attrs m !! name
  end.

Definition hasattr (m : nn_module) (name : string) : bool :=
  match getattr m name with Some _ => true | None => false end.

(** An attribute that the class of the module always defines. *)
Definition attr (m : nn_module) (name : string) : value :=
  match getattr m name with Some v => v | None => VNone end.

(** [module.name = v] for a plain attribute. *)
Definition setattr (m : nn_module) (name : string) (v : value) : nn_module :=
  mkModule (m_name m) (m_class m) (m_parameters m) (<[name := v]> (m_attrs m))
           (m_forward_hooks m) (m_children m).

Definition numel (t : tensor) : Z := Z.of_nat (length (t_data t)).

Definition own_trainable (ps : list (string * option parameter)) : Z :=
  fold_right
    (fun np acc =>
       match np.2 with
       | Some p => if p_requires_grad p then (numel (p_data p) + acc)%Z else acc
       | None => acc
       end) 0%Z ps.

(** [sum(p.numel() for p in layer.parameters() if p.requires_grad)], over the
    module and all its descendants. *)
Fixpoint trainable_parameters (m : nn_module) : Z :=
  (own_trainable (m_parameters m) +
   fold_right (fun c acc => trainable_parameters c + acc) 0 (m_children m))%Z.

(** [model.modules()]: the module, then the modules of each child. *)
Fixpoint modules (m : nn_module) : list nn_module :=
  m :: flat_map modules (m_children m).

(** [{k: getattr(layer, k) for k in names}] added to [d]. *)
Definition with_attrs (m : nn_module) (names : list string)
    (d : gmap string value) : gmap string value :=
  fold_left (fun d k => <[k := attr m k]> d) names d.

(** [layer.bias is not None] *)
Definition bias_is_not_None (m : nn_module) : bool :=
  negb (is_VNone (attr m "bias")).

(** ** python_service/pytorch_converter.py: live-model traversal *)

Module ServiceConverter.

Definition get_layer_properties (layer : nn_module) : gmap string value :=
  let properties : gmap string value :=
    <["has_bias" := VBool (hasattr layer "bias" && bias_is_not_None layer)]>
      (<["trainable_parameters" := VInt (trainable_parameters layer)]>
         (<["type" := VStr (class_name (m_class layer))]> ∅)) in
  if isinstance layer [Linear] then
    with_attrs layer ["in_features"; "out_features"] properties
  else if isinstance layer [Conv2d] then
    with_attrs layer
      ["in_channels"; "out_channels"; "kernel_size"; "stride"; "padding"]
      properties
  else if isinstance layer [MaxPool2d; AvgPool2d] then
    with_attrs layer ["kernel_size"; "stride"; "padding"] properties
  else if isinstance layer [ReLU; LeakyReLU] then
    let properties := with_attrs layer ["inplace"] properties in
    if isinstance layer [LeakyReLU] then
      with_attrs layer ["negative_slope"] properties
    else properties
  else if isinstance layer [Dropout] then
    with_attrs layer ["p"; "inplace"] properties
  else if isinstance layer [BatchNorm2d] then
    with_attrs layer ["num_features"; "eps"; "momentum"; "affine"] properties
  else properties.

(** [module.name = t] for a tensor [t] that is not a [Parameter]: torch
    refuses it when [name] is a registered parameter or a child module of
    [module], and sets the attribute otherwise. *)
Definition assign_tensor (module : nn_module) (name : string) (t : tensor)
    : result nn_module :=
  match assoc name (m_parameters module) with
  | Some _ =>
      Err (TypeError
             "cannot assign as parameter (Parameter or None expected)")
  | None =>
      if existsb (fun c => String.eqb (m_name c) name) (m_children module)
      then Err (TypeError
                  "cannot assign as child module (Module or None expected)")
      else Ok (setattr module name (VTensor t))
  end.

(** The closure [hook] of [register_activation_hooks]:
    [module.output = output.detach()].  [output] is whatever [forward]
    returned: a tensor has [detach]; any other value, such as the tuple an
    LSTM, a GRU or an RNN returns, has not, and the hook raises. *)
Definition hook (module : nn_module) (input output : value)
    : result nn_module :=
  match output with
  | VTensor t => assign_tensor module "output" t
  | _ => Err (AttributeError "object has no attribute 'detach'")
  end.

Definition run_forward_hook (h : forward_hook) (module : nn_module)
    (input output : value) : result nn_module :=
  match h with
  | activation_hook => hook module input output
  end.

(** What torch does with the forward hooks of a module once its [forward]
    has returned [output]: they run in registration order, and an exception
    of a hook ends the call. *)
Definition call_forward_hooks (module : nn_module) (input output : value)
    : result nn_module :=
  fold_left (fun r h => m <- r ;; run_forward_hook h m input output)
            (m_forward_hooks module) (Ok module).

(** [module.register_forward_hook(h)] *)
Definition register_forward_hook (h : forward_hook) (m : nn_module)
    : nn_module :=
  mkModule (m_name m) (m_class m) (m_parameters m) (m_attrs m)
           (m_forward_hooks m ++ [h]) (m_children m).

(** The loop over [model.modules()] mutates the modules in place; here it
    returns the model after the loop. *)
Fixpoint register_activation_hooks (model : nn_module) : nn_module :=
  match m_children model with
  | [] => register_forward_hook activation_hook model
  | _ :: _ =>
      mkModule (m_name model) (m_class model) (m_parameters model)
               (m_attrs model) (m_forward_hooks model)
               (map register_activation_hooks (m_children model))
  end.

(** The variables [nodes], [connections] and [node_id_counter] that
    [process_layer] closes over. *)
Record state : Type := mkState {
  nodes : list NetworkNode;
  connections : list NetworkConnection;
  node_id_counter : nat
}.

(** [layer.weight.detach().cpu().numpy()] *)
Definition weight_matrix_of (layer : nn_module) : result tensor :=
  match getattr layer "weight" with
  | Some (VTensor t) => Ok t
  | _ => Err (AttributeError "object has no attribute 'detach'")
  end.

(** The connection [process_layer] adds for a layer that has weights. *)
Definition weight_connection (parent_id layer_id : string)
    (weight_matrix : tensor) : result NetworkConnection :=
  let avg_weight := np_mean (np_abs (t_data weight_matrix)) in
  max_weight <- np_max (np_abs (t_data weight_matrix)) ;;
  min_weight <- np_min (np_abs (t_data weight_matrix)) ;;
  let std_weight := np_std (t_data weight_matrix) in
  Ok (mkConnection parent_id layer_id avg_weight
        (<["shape" := shape_value weight_matrix]>
           (<["std_weight" := VFloat std_weight]>
              (<["min_weight" := VFloat min_weight]>
                 (<["max_weight" := VFloat max_weight]> ∅))))).

(** [if parent_id and ...]: a string is true when it is not empty. *)
Definition parent_given (parent_id : option string) : option string :=
  match parent_id with
  | Some p => if String.eqb p "" then None else Some p
  | None => None
  end.

(** [process_layer] up to its loop over the children: the node of the layer
    and the connection from its parent.  Returns the id given to the layer. *)
Definition visit_layer (layer : nn_module) (parent_id : option string)
    (st : state) : result (string * state) :=
  let layer_id := layer_id_of (node_id_counter st) in
  let properties := get_layer_properties layer in
  let nodes' :=
    nodes st ++ [mkNode layer_id (class_name (m_class layer)) properties] in
  connections' <-
    match parent_given parent_id with
    | Some parent =>
        if hasattr layer "weight" then
          weight_matrix <- weight_matrix_of layer ;;
          c <- weight_connection parent layer_id weight_matrix ;;
          Ok (connections st ++ [c])
        else Ok (connections st)
    | None => Ok (connections st)
    end ;;
  Ok (layer_id, mkState nodes' connections' (S (node_id_counter st))).

(** The loop [for name, child in layer.named_children()] of a function
    [process_layer]. *)
Definition process_children
    (process_layer : nn_module -> option string -> state -> result state)
    (layer_id : string) : list nn_module -> state -> result state :=
  fix loop (children : list nn_module) (st : state) : result state :=
    match children with
    | [] => Ok st
    | child :: rest =>
        st <- process_layer child (Some layer_id) st ;;
        loop rest st
    end.

Fixpoint process_layer (layer : nn_module) (parent_id : option string)
    (st : state) {struct layer} : result state :=
  r <- visit_layer layer parent_id st ;;
  process_children (fun c p s => process_layer c p s) r.1
                   (m_children layer) r.2.

(** The conversion returns the network, or raises; either way the caller's
    model is left with the hooks registered on it. *)
Definition convert_pytorch_model (model : nn_module)
    : nn_module * result NeuroscopeNetwork :=
  let model := register_activation_hooks model in
  (model,
   st <- process_layer model None (mkState [] [] 0) ;;
   Ok (mkNetwork "ANN" (nodes st) (connections st))).

End ServiceConverter.

(** ** src/lib/bridge/pytorch_service.py: live-model traversal *)

Module Bridge.

(** The dictionaries [analyze_model] builds. *)
Record node : Type := mkNode {
  id : string;
  type : string;
  name : string;
  properties : gmap string value
}.

Record connection : Type := mkConnection {
  source : string;
  target : string;
  weight : pyfloat
}.

Record network : Type := mkNetwork {
  net_type : string;
  net_nodes : list node;
  net_connections : list connection
}.

Definition endpoints (c : connection) : string * string :=
  (source c, target c).

(** [v.__class__.__name__] *)
Definition value_class_name (v : value) : string :=
  match v with
  | VNone => "NoneType"
  | VBool _ => "bool"
  | VInt _ => "int"
  | VFloat _ => "float"
  | VStr _ => "str"
  | VList _ => "list"
  | VTensor _ => "Tensor"
  end.

(** [layer.inplace if hasattr(layer, 'inplace') else False] *)
Definition inplace_or_False (layer : nn_module) : value :=
  match getattr layer "inplace" with Some v => v | None => VBool false end.

Definition extract_layer_info (layer : nn_module) : gmap string value :=
  let info : gmap string value :=
    match getattr layer "training" with
    | Some v => <["training" := v]> ∅
    | None => ∅
    end in
  if isinstance layer [Conv1d; Conv2d; Conv3d] then
    <["bias" := VBool (bias_is_not_None layer)]>
      (with_attrs layer
         ["in_channels"; "out_channels"; "kernel_size"; "stride"; "padding";
          "dilation"; "groups"] info)
  else if isinstance layer [BatchNorm1d; BatchNorm2d; BatchNorm3d] then
    with_attrs layer
      ["num_features"; "eps"; "momentum"; "affine"; "track_running_stats"] info
  else if isinstance layer [LayerNorm] then
    with_attrs layer ["normalized_shape"; "eps"; "elementwise_affine"] info
  else if isinstance layer
            [MaxPool1d; MaxPool2d; MaxPool3d; AvgPool1d; AvgPool2d; AvgPool3d]
  then
    with_attrs layer ["kernel_size"; "stride"; "padding"] info
  else if isinstance layer
            [AdaptiveAvgPool1d; AdaptiveAvgPool2d; AdaptiveAvgPool3d] then
    with_attrs layer ["output_size"] info
  else if isinstance layer [RNN; LSTM; GRU] then
    with_attrs layer
      ["input_size"; "hidden_size"; "num_layers"; "bias"; "batch_first";
       "dropout"; "bidirectional"] info
  else if isinstance layer [Linear] then
    <["bias" := VBool (bias_is_not_None layer)]>
      (with_attrs layer ["in_features"; "out_features"] info)
  else if isinstance layer [Dropout; Dropout2d; Dropout3d] then
    <["inplace" := inplace_or_False layer]> (with_attrs layer ["p"] info)
  else if isinstance layer [ReLU; LeakyReLU; PReLU; RReLU; SELU; CELU; GELU]
  then
    let info := <["inplace" := inplace_or_False layer]> info in
    if isinstance layer [LeakyReLU] then
      with_attrs layer ["negative_slope"] info
    else info
  else if isinstance layer [Embedding] then
    with_attrs layer
      ["num_embeddings"; "embedding_dim"; "padding_idx"; "max_norm";
       "norm_type"; "scale_grad_by_freq"; "sparse"] info
  else if isinstance layer [TransformerEncoderLayer; TransformerDecoderLayer]
  then
    let activation :=
      if truthy (attr layer "activation")
      then VStr (value_class_name (attr layer "activation")) else VNone in
    with_attrs layer ["layer_norm_eps"; "batch_first"; "norm_first"]
      (<["activation" := activation]>
         (with_attrs layer ["d_model"; "nhead"; "dim_feedforward"; "dropout"]
            info))
  else info.

(** The variables [nodes], [connections] and [node_count] that [add_node]
    and [process_container] close over. *)
Record state : Type := mkState {
  nodes : list node;
  connections : list connection;
  node_count : nat
}.

Definition add_node (layer : nn_module) (name : string) (st : state)
    : nat * state :=
  let node_id := node_count st in
  let layer_type := class_name (m_class layer) in
  let layer_info := extract_layer_info layer in
  (node_id,
   mkState (nodes st ++ [mkNode (pretty node_id) layer_type name layer_info])
           (connections st) (S (node_count st))).

(** [{'source': str(a), 'target': str(b), 'weight': 1.0}] *)
Definition edge (a b : nat) : connection :=
  mkConnection (pretty a) (pretty b) (FRat 1).

(** The connections of
    [for i in range(len(ids) - 1): ... ids[i] ... ids[i + 1]]. *)
Fixpoint chain (ids : list nat) : list connection :=
  match ids with
  | a :: (b :: _) as rest => edge a b :: chain rest
  | _ => []
  end.

Definition append_connections (cs : list connection) (st : state) : state :=
  mkState (nodes st) (connections st ++ cs) (node_count st).

(** [f'{prefix}.{name}' if prefix else name] *)
Definition full_name_of (prefix name : string) : string :=
  if String.eqb prefix "" then name else prefix +:+ "." +:+ name.

(** The loop [for name, child in container.named_children()] of a function
    [process_container]; [container_nodes] is the list built so far. *)
Definition process_children
    (process_container : nn_module -> string -> state -> list nat * state)
    (prefix : string)
    : list nn_module -> list nat -> state -> list nat * state :=
  fix loop (children : list nn_module) (container_nodes : list nat)
      (st : state) : list nat * state :=
    match children with
    | [] => (container_nodes, st)
    | child :: rest =>
        let full_name := full_name_of prefix (m_name child) in
        if isinstance child [Sequential; ModuleList; ModuleDict] then
          let r := process_container child full_name st in
          loop rest (container_nodes ++ r.1) r.2
        else
          let r := add_node child full_name st in
          let node_id := r.1 in
          let container_nodes := container_nodes ++ [node_id] in
          if has_children child then
            let r := process_container child full_name r.2 in
            let child_nodes := r.1 in
            match child_nodes with
            | first :: _ =>
                loop rest container_nodes
                  (append_connections
                     (edge node_id first :: chain child_nodes) r.2)
            | [] => loop rest container_nodes r.2
            end
          else loop rest container_nodes r.2
    end.

Fixpoint process_container (container : nn_module) (prefix : string)
    (st : state) {struct container} : list nat * state :=
  let r := process_children (fun c p s => process_container c p s) prefix
             (m_children container) [] st in
  let container_nodes := r.1 in
  if isinstance container [Sequential] then
    (container_nodes, append_connections (chain container_nodes) r.2)
  else (container_nodes, r.2).

Definition analyze_model (model : nn_module) : network :=
  let r := process_container model "" (mkState [] [] 0) in
  mkNetwork "PyTorch" (nodes r.2) (connections r.2).

End Bridge.

(** * Notions used to state the properties *)

(** The classes [ServiceConverter.get_layer_properties] has a branch for. *)
Definition live_recognised (layer : nn_module) : bool :=
  isinstance layer
    [Linear; Conv2d; MaxPool2d; AvgPool2d; ReLU; LeakyReLU; Dropout;
     BatchNorm2d].

(** The fields every node of the live traversal carries. *)
Definition common_fields (layer : nn_module) : gmap string value :=
  list_to_map
    [("type", VStr (class_name (m_class layer)));
     ("trainable_parameters", VInt (trainable_parameters layer));
     ("has_bias", VBool (hasattr layer "bias" && bias_is_not_None layer))].

(** The same hierarchy with every class [c] replaced by [f c]. *)
Fixpoint relabel (f : nn_class -> nn_class) (m : nn_module) : nn_module :=
  mkModule (m_name m) (f (m_class m)) (m_parameters m) (m_attrs m)
           (m_forward_hooks m) (map (relabel f) (m_children m)).

(** [m] is the greatest (least) element of [xs]. *)
Definition is_maximum (m : Q) (xs : list Q) : Prop :=
  m ∈ xs /\ forall x, x ∈ xs -> (x <= m)%Q.

Definition is_minimum (m : Q) (xs : list Q) : Prop :=
  m ∈ xs /\ forall x, x ∈ xs -> (m <= x)%Q.

(** The population variance, as the mean of the squares minus the square of
    the mean: both sums are divided by the number of elements. *)
Definition population_variance (xs : list Q) : Q :=
  (Qsum (map (fun x => x * x) xs) / Qlen xs
   - (Qsum xs / Qlen xs) * (Qsum xs / Qlen xs))%Q.

(** [m'] is the module [m] after [register_activation_hooks]: a leaf has the
    activation hook appended to its forward hooks, and nothing else differs
    (the children of [m'] are the children of [m] after the registration). *)
Definition hook_registered (m m' : nn_module) : Prop :=
  m_name m' = m_name m /\ m_class m' = m_class m /\
  m_parameters m' = m_parameters m /\ m_attrs m' = m_attrs m /\
  trainable_parameters m' = trainable_parameters m /\
  has_children m' = has_children m /\
  m_forward_hooks m' =
    if has_children m then m_forward_hooks m
    else m_forward_hooks m ++ [activation_hook].

(** *** The live traversal, without its state

    The modules of a hierarchy are numbered in pre-order from [base] on (see
    [modules]).  [live_edges base parent m] lists, as pairs of numbers, the
    connections of the hierarchy [m] whose root has the number [base] and
    whose parent, if any, has the number [parent]: one connection from its
    parent into every module that has an attribute "weight". *)
Definition live_edges_children (rec : nat -> nat -> nn_module -> list (nat * nat))
    (parent : nat) : list nn_module -> nat -> list (nat * nat) :=
  fix go (children : list nn_module) (base : nat) : list (nat * nat) :=
    match children with
    | [] => []
    | child :: rest =>
        rec base parent child ++ go rest (base + length (modules child))
    end.

Fixpoint live_edges (base : nat) (parent : option nat) (m : nn_module)
    : list (nat * nat) :=
  match parent with
  | Some p => if hasattr m "weight" then [(p, base)] else []
  | None => []
  end ++
  live_edges_children (fun b p c => live_edges b (Some p) c) base
                      (m_children m) (S base).

(** The nodes of the modules [ms], numbered from [base] on. *)
Definition live_nodes (base : nat) (ms : list nn_module) : list NetworkNode :=
  imap (fun i m =>
          mkNode (layer_id_of (base + i)) (class_name (m_class m))
                 (ServiceConverter.get_layer_properties m)) ms.

Definition layer_pair (e : nat * nat) : string * string :=
  (layer_id_of e.1, layer_id_of e.2).

(** *** The bridge traversal, without its state

    [process_container] makes no node for a Sequential, ModuleList or
    ModuleDict child: it looks through it. *)
Definition transparent (m : nn_module) : bool :=
  isinstance m [Sequential; ModuleList; ModuleDict].

(** The modules below [container] that get a node, in pre-order. *)
Fixpoint visible (container : nn_module) : list nn_module :=
  flat_map (fun child =>
              if transparent child then visible child
              else child :: visible child)
           (m_children container).

(** The modules that get a node while one child is processed. *)
Definition block (child : nn_module) : list nn_module :=
  if transparent child then visible child else child :: visible child.

(** The list [process_container] returns when the next free node number is
    [base]: the numbers of the nodes of the children, looking through the
    transparent ones. *)
Definition top_ids_children (rec : nat -> nn_module -> list nat)
    : list nn_module -> nat -> list nat :=
  fix go (children : list nn_module) (base : nat) : list nat :=
    match children with
    | [] => []
    | child :: rest =>
        (if transparent child then rec base child else [base])
        ++ go rest (base + length (block child))
    end.

Fixpoint top_ids (base : nat) (container : nn_module) : list nat :=
  top_ids_children (fun b c => top_ids b c) (m_children container) base.

(** The pairs of consecutive elements of a list. *)
Fixpoint chain_pairs (ids : list nat) : list (nat * nat) :=
  match ids with
  | a :: (b :: _) as rest => (a, b) :: chain_pairs rest
  | _ => []
  end.

(** The connections added for a child that got the node [node_id] and whose
    own children returned [child_nodes]. *)
Definition first_and_chain (node_id : nat) (child_nodes : list nat)
    : list (nat * nat) :=
  match child_nodes with
  | first :: _ => (node_id, first) :: chain_pairs child_nodes
  | [] => []
  end.

(** The connections [process_container] adds, as pairs of node numbers, when
    the next free node number is [base]. *)
Definition container_edges_children (rec : nat -> nn_module -> list (nat * nat))
    : list nn_module -> nat -> list (nat * nat) :=
  fix go (children : list nn_module) (base : nat) : list (nat * nat) :=
    match children with
    | [] => []
    | child :: rest =>
        (if transparent child then rec base child
         else rec (S base) child
              ++ first_and_chain base (top_ids (S base) child))
        ++ go rest (base + length (block child))
    end.

Fixpoint container_edges (base : nat) (container : nn_module)
    : list (nat * nat) :=
  container_edges_children (fun b c => container_edges b c)
                           (m_children container) base
  ++ (if isinstance container [Sequential]
      then chain_pairs (top_ids base container) else []).

Definition pair_edge (e : nat * nat) : Bridge.connection :=
  Bridge.edge e.1 e.2.

(** A node of the bridge without its name. *)
Definition node_core (n : Bridge.node) : string * string * gmap string value :=
  (Bridge.id n, Bridge.type n, Bridge.properties n).

Definition bridge_nodes (base : nat) (ms : list nn_module)
    : list (string * string * gmap string value) :=
  imap (fun i m => (pretty (base + i), class_name (m_class m),
                    Bridge.extract_layer_info m)) ms.

(** No Sequential container in the hierarchy [m], its root included. *)
Fixpoint sequential_free (m : nn_module) : bool :=
  negb (isinstance m [Sequential])
  && forallb sequential_free (m_children m).

(** Every pair of [E] leads forward, between numbers from [b] to
    [b + n - 1]. *)
Definition edges_within (b n : nat) (E : list (nat * nat)) : Prop :=
  forall x y, (x, y) ∈ E -> b <= x /\ x < y /\ y < b + n.

(** Node ids and connection endpoints are well formed for the numbering
    [fmt]: the i-th node has the id [fmt i], no id occurs twice, and every
    endpoint is the id of a node. *)
Definition well_formed_ids (fmt : nat -> string) (ids : list string)
    (edges : list (string * string)) : Prop :=
  ids = map fmt (seq 0 (length ids)) /\
  NoDup ids /\
  forall s t, (s, t) ∈ edges -> s ∈ ids /\ t ∈ ids.

(** *** Descriptors *)

Definition has_type (li : layer_info) : bool :=
  match li_type li with Some _ => true | None => false end.

Definition has_name (li : layer_info) : bool :=
  match li_name li with Some _ => true | None => false end.

(** What python_service/main.py reads of a descriptor: the type of every
    entry, and the name of every entry but the first. *)
Definition main_well_formed (entries : list layer_info) : bool :=
  forallb has_type entries && forallb has_name (tail entries).

(** The state dictionary has no weight for the entry: no key
    "<name>.weight". *)
Definition without_weight (weights : gmap string tensor) (li : layer_info)
    : bool :=
  match li_name li with
  | Some name => bool_decide (weights !! (name +:+ ".weight") = None)
  | None => true
  end.

(** An entry of an activation that [create_layer_from_info] builds without
    arguments and whose properties do not come from the entry. *)
Definition plain_activation (li : layer_info) : bool :=
  match li_type li with
  | Some ty =>
      String.eqb ty "ReLU" || String.eqb ty "Sigmoid" || String.eqb ty "Tanh"
  | None => false
  end.

(** The network has [n] nodes with the ids layer_0, ..., layer_(n-1) in this
    order and [n - 1] connections, the i-th from layer_i to layer_(i+1). *)
Definition linear_chain (n : nat) (net : NeuroscopeNetwork) : Prop :=
  length (net_nodes net) = n /\
  map node_id (net_nodes net) = map layer_id_of (seq 0 n) /\
  length (net_connections net) = n - 1 /\
  map endpoints (net_connections net) =
    map (fun i => (layer_id_of i, layer_id_of (S i))) (seq 0 (n - 1)).

(** * Further notions: live models *)

(** The weight of a module can be read by [process_layer]: the module has no
    attribute "weight", or the attribute is a tensor with at least one
    element. *)
Definition weight_usable (m : nn_module) : bool :=
  if hasattr m "weight" then
    match ServiceConverter.weight_matrix_of m with
    | Ok t => match t_data t with [] => false | _ :: _ => true end
    | Err _ => false
    end
  else true.

(** The modules below the root of a model, in pre-order. *)
Definition modules_below (model : nn_module) : list nn_module :=
  flat_map modules (m_children model).


(** A child that gets a node of the bridge and has no children of its
    own. *)
Definition plain_leaf (m : nn_module) : bool :=
  negb (transparent m) && negb (has_children m).

(** The keys that [create_layer_from_info] reads with [layer_info[...]] for
    an entry of the given type. *)
Definition required_fields (layer_type : string) : list string :=
  if String.eqb layer_type "Conv2d" || String.eqb layer_type "Conv1d" then
    ["in_channels"; "out_channels"]
  else if String.eqb layer_type "Linear" then
    ["in_features"; "out_features"]
  else if String.eqb layer_type "BatchNorm2d"
          || String.eqb layer_type "BatchNorm1d" then
    ["num_features"]
  else if String.eqb layer_type "LSTM" || String.eqb layer_type "GRU" then
    ["input_size"; "hidden_size"]
  else [].
(** * Example inputs *)

(** The descriptor that src/python/test_model.py saves, three of its entries:
    a convolution, an activation and a linear layer. *)
Definition entry (ty name : string) (fields : list (string * value))
    : layer_info :=
  mkLayerInfo (Some ty) (Some name) (list_to_map fields).

Definition test_entries : list layer_info :=
  [entry "Conv2d" "conv1" [("in_channels", VInt 3); ("out_channels", VInt 16)];
   entry "ReLU" "relu" [];
   entry "Linear" "fc3" [("in_features", VInt 4); ("out_features", VInt 2)]].

(** A state dictionary with the weight of the linear layer. *)
Definition test_weights : gmap string tensor :=
  {[ "fc3.weight" := mkTensor [2; 4]%Z [1; -2; 3; -4; 5; -6; 7; -8]%Q ]}.

Definition unwrap (r : result NeuroscopeNetwork) : NeuroscopeNetwork :=
  match r with Ok net => net | Err _ => mkNetwork "" [] [] end.

Definition test_network_py : NeuroscopeNetwork :=
  unwrap (PyConverter.convert_pytorch_model
            (PyConverter.mkModelData (mkStructure test_entries) test_weights)).

Definition test_network_main : NeuroscopeNetwork :=
  unwrap (ServiceMain.import_pytorch_model (mkStructure test_entries)
                                           test_weights).

(** An entry whose tag no converter knows, and a live layer of such a
    class. *)
Definition foo_entry : layer_info := entry "FooLayer" "foo" [].

Definition foo_layer : nn_module :=
  mkModule "foo" (Custom "FooLayer") [] ∅ [] [].

(** A weight whose greatest element is not its greatest absolute value. *)
Definition signed_tensor : tensor := mkTensor [2]%Z [-3; 1]%Q.

(** Small live models. *)
Definition leaf_module (name : string) (c : nn_class) : nn_module :=
  mkModule name c [] ∅ [] [].

Definition linear_module (name : string) : nn_module :=
  mkModule name Linear
    [("weight", Some (mkParameter (mkTensor [1; 2]%Z [1; -3]%Q) true));
     ("bias", None)]
    ∅ [] [].

Definition container_module (name : string) (c : nn_class)
    (children : list nn_module) : nn_module :=
  mkModule name c [] ∅ [] children.

(** A user-defined network with an activation and a linear layer. *)
Definition small_net : nn_module :=
  container_module "" (Custom "Net")
    [leaf_module "relu" ReLU; linear_module "fc"].

(** A Sequential of three user-defined blocks of leaf layers. *)
Definition sequential_of_blocks : nn_module :=
  container_module "" Sequential
    [container_module "0" (Custom "Block")
       [linear_module "fc"; leaf_module "act" ReLU];
     container_module "1" (Custom "Block")
       [linear_module "fc"; leaf_module "act" ReLU];
     container_module "2" (Custom "Block") [linear_module "fc"]].

(** A Sequential whose only child is a block that holds a Sequential. *)
Definition sequential_nested : nn_module :=
  container_module "" Sequential
    [container_module "0" (Custom "Block")
       [container_module "body" Sequential
          [linear_module "0"; leaf_module "1" ReLU]]].

(** A Sequential whose only child is a Sequential of two layers. *)
Definition sequential_of_sequential : nn_module :=
  container_module "" Sequential
    [container_module "0" Sequential
       [linear_module "0"; leaf_module "1" ReLU]].

(** A descriptor entry of a linear layer, and one of a convolution that
    declares a kernel of size 5. *)
Definition linear_entry : layer_info :=
  entry "Linear" "fc" [("in_features", VInt 128); ("out_features", VInt 10)].

Definition conv_entry : layer_info :=
  entry "Conv2d" "conv"
    [("in_channels", VInt 3); ("out_channels", VInt 16);
     ("kernel_size", VInt 5)].

(** A Sequential of three leaf layers. *)
Definition flat_sequential : nn_module :=
  container_module "" Sequential
    [linear_module "0"; leaf_module "1" ReLU; linear_module "2"].

(** A descriptor of two activations. *)
Definition activation_entries : list layer_info :=
  [entry "ReLU" "act1" []; entry "Sigmoid" "act2" []].

(** A batch normalisation built with [affine=False]: torch registers its
    weight and its bias as [None]. python_service has no branch for this
    class of one-dimensional normalisation. *)
Definition norm_without_affine : nn_module :=
  mkModule "norm" BatchNorm1d [("weight", None); ("bias", None)]
    (list_to_map [("num_features", VInt 4); ("affine", VBool false)]) [] [].

(** A user-defined network that holds it after a linear layer. *)
Definition net_with_norm : nn_module :=
  container_module "" (Custom "Net") [linear_module "fc"; norm_without_affine].

(** A layer of a user-defined class with three trainable elements and a
    frozen bias of two. *)
Definition scaled_layer : nn_module :=
  mkModule "scale" (Custom "Scale")
    [("gain", Some (mkParameter (mkTensor [3]%Z [1; 1; 1]%Q) true));
     ("bias", Some (mkParameter (mkTensor [2]%Z [0; 0]%Q) false))]
    ∅ [] [].

(** An LSTM layer with one input and one hidden unit, and a user-defined
    network that holds it. *)
Definition lstm_module : nn_module :=
  mkModule "lstm" LSTM
    [("weight_ih_l0",
      Some (mkParameter (mkTensor [4; 1]%Z [1; 1; 1; 1]%Q) true));
     ("weight_hh_l0",
      Some (mkParameter (mkTensor [4; 1]%Z [1; 1; 1; 1]%Q) true));
     ("bias_ih_l0", Some (mkParameter (mkTensor [4]%Z [0; 0; 0; 0]%Q) true));
     ("bias_hh_l0", Some (mkParameter (mkTensor [4]%Z [0; 0; 0; 0]%Q) true))]
    (list_to_map [("input_size", VInt 1); ("hidden_size", VInt 1)]) [] [].

Definition recurrent_net : nn_module :=
  container_module "" (Custom "Net") [lstm_module].

(** The arguments of a call of [forward] on one step of one sequence, and
    the form of what the [forward] of an LSTM returns: the pair of the output
    and of the pair of the last hidden and cell states. *)
Definition lstm_input : value := VList [VTensor (mkTensor [1; 1; 1]%Z [1]%Q)].

Definition lstm_output : value :=
  VList [VTensor (mkTensor [1; 1; 1]%Z [1 # 2]%Q);
         VList [VTensor (mkTensor [1; 1; 1]%Z [1 # 2]%Q);
                VTensor (mkTensor [1; 1; 1]%Z [1]%Q)]].

(** * Properties *)

(** ** Descriptor-driven conversion *)

Lemma rbind_Ok {A B : Type} (r : result A) (k : A -> result B) (b : B) :
  rbind r k = Ok b -> exists a, r = Ok a /\ k a = Ok b.
Proof. destruct r as [a|e]; simpl; [eauto | discriminate]. Qed.

Ltac inv_bind H :=
  let a := fresh "a" in
  let Ha := fresh "Ha" in
  apply rbind_Ok in H; destruct H as (a & Ha & H).

(** What [PyConverter.process_layers] puts on the connection into the entry
    [li]. *)
Definition py_annotation (sd : gmap string tensor) (li : layer_info)
    (c : NetworkConnection) : Prop :=
  conn_weight c = FRat 1 /\
  exists name, li_name li = Some name /\
    match sd !! (name +:+ ".weight") with
    | Some t => PyConverter.weight_props t = Ok (conn_properties c)
    | None => conn_properties c = ∅
    end.

(** What [ServiceMain.process_layers] puts on the connection into the entry
    [li]. *)
Definition main_annotation (w : gmap string tensor) (li : layer_info)
    (c : NetworkConnection) : Prop :=
  conn_properties c = ∅ /\
  exists name, li_name li = Some name /\
    conn_weight c = match w !! (name +:+ ".weight") with
                    | Some t => ServiceMain.mean_abs t
                    | None => FRat 1
                    end.

(** The nodes and connections a loop adds after the entry number [j]: one
    node per entry, ids in sequence, and a connection into each entry from
    the one before. *)
Definition extends_chain (annot : layer_info -> NetworkConnection -> Prop)
    (j : nat) (rest : list layer_info)
    (nodes nodes' : list NetworkNode)
    (conns conns' : list NetworkConnection) : Prop :=
  map node_id nodes' =
    map node_id nodes ++ map layer_id_of (seq (S j) (length rest)) /\
  exists new, conns' = conns ++ new /\ length new = length rest /\
    forall k li, rest !! k = Some li ->
      exists c, new !! k = Some c /\
        conn_source c = layer_id_of (j + k) /\
        conn_target c = layer_id_of (S (j + k)) /\
        annot li c.

Lemma extends_chain_nil annot j nodes conns :
  extends_chain annot j [] nodes nodes conns conns.
Proof.
  split; [simpl; by rewrite app_nil_r |].
  exists []. split; [by rewrite app_nil_r |]. split; [done |].
  intros k li Hk. by rewrite lookup_nil in Hk.
Qed.

Lemma extends_chain_cons annot j li rest nodes conns n c nodes' conns' :
  node_id n = layer_id_of (S j) ->
  conn_source c = layer_id_of j ->
  conn_target c = layer_id_of (S j) ->
  annot li c ->
  extends_chain annot (S j) rest (nodes ++ [n]) nodes' (conns ++ [c]) conns' ->
  extends_chain annot j (li :: rest) nodes nodes' conns conns'.
Proof.
  intros Hn Hs Ht Ha [Hnodes (new & Hc & Hlen & Hnew)]. split.
  - rewrite Hnodes, map_app. simpl. rewrite Hn, <- app_assoc. done.
  - exists (c :: new). split; [by rewrite Hc, <- app_assoc |].
    split; [simpl; by rewrite Hlen |].
    intros [|k] li' Hk; simpl in Hk.
    + injection Hk as <-. exists c. rewrite Nat.add_0_r. done.
    + destruct (Hnew k li' Hk) as (c' & Hc' & Hs' & Ht' & Ha').
      exists c'. replace (j + S k) with (S j + k) by lia. done.
Qed.

Lemma py_process_layers_chain sd rest :
  forall j nodes conns nodes' conns',
    PyConverter.process_layers sd (S j) rest (Some (layer_id_of j)) nodes conns
      = Ok (nodes', conns') ->
    extends_chain (py_annotation sd) j rest nodes nodes' conns conns'.
Proof.
  induction rest as [|li rest IH]; intros j nodes conns nodes' conns' H.
  - simpl in H. injection H as <- <-. apply extends_chain_nil.
  - simpl in H.
    inv_bind H. inv_bind H. inv_bind H. inv_bind H. inv_bind Ha2. inv_bind Ha2.
    injection Ha2 as <-. apply IH in H.
    eapply extends_chain_cons; [| | | | exact H]; try done.
    split; [done |].
    unfold li_name_item in Ha3. destruct (li_name li) as [name|]; [|done].
    injection Ha3 as <-. exists name. split; [done |]. simpl.
    destruct (sd !! (name +:+ ".weight")); [done | by injection Ha4 as <-].
Qed.

Lemma main_process_layers_chain w rest :
  forall j prev nodes conns nodes' conns',
    node_id prev = layer_id_of j ->
    ServiceMain.process_layers w (S j) rest (Some prev) nodes conns
      = Ok (nodes', conns') ->
    extends_chain (main_annotation w) j rest nodes nodes' conns conns'.
Proof.
  induction rest as [|li rest IH]; intros j prev nodes conns nodes' conns' Hp H.
  - simpl in H. injection H as <- <-. apply extends_chain_nil.
  - simpl in H.
    inv_bind H. inv_bind H. inv_bind Ha0. injection Ha0 as <-.
    apply IH in H; [|done].
    eapply extends_chain_cons; [| | | | exact H]; try done.
    split; [done |].
    unfold li_name_item in Ha1. destruct (li_name li) as [name|]; [|done].
    injection Ha1 as <-. exists name. done.
Qed.

Lemma extends_chain_endpoints annot j rest nodes nodes' conns' :
  extends_chain annot j rest nodes nodes' [] conns' ->
  length conns' = length rest /\
  map endpoints conns' =
    map (fun i => (layer_id_of i, layer_id_of (S i))) (seq j (length rest)).
Proof.
  intros [_ (new & -> & Hlen & Hnew)]. simpl. split; [done |].
  apply list_eq. intros k. rewrite !list_lookup_fmap.
  destruct (rest !! k) as [li|] eqn:Hk.
  - destruct (Hnew k li Hk) as (c & -> & Hs & Ht & _).
    apply lookup_lt_Some in Hk.
    rewrite lookup_seq_lt by done. simpl. unfold endpoints.
    by rewrite Hs, Ht.
  - apply lookup_ge_None in Hk.
    rewrite (proj2 (lookup_ge_None new k)) by lia.
    rewrite lookup_seq_ge by done. done.
Qed.

(** The two descriptor-driven conversions, seen from their result. *)
Lemma py_convert_inv entries sd net :
  PyConverter.convert_pytorch_model
    (PyConverter.mkModelData (mkStructure entries) sd) = Ok net ->
  net_type net = "ANN" /\
  match entries with
  | [] => net_nodes net = [] /\ net_connections net = []
  | li :: rest =>
      exists n, node_id n = layer_id_of 0 /\
        extends_chain (py_annotation sd) 0 rest [n] (net_nodes net)
                      [] (net_connections net)
  end.
Proof.
  unfold PyConverter.convert_pytorch_model. simpl. intros H.
  inv_bind H. injection H as <-. simpl. split; [done |].
  destruct a as [nodes' conns']. simpl.
  destruct entries as [|li rest]; simpl in Ha.
  - by injection Ha as <- <-.
  - inv_bind Ha. inv_bind Ha. inv_bind Ha. 
    eexists. split; [| eapply py_process_layers_chain; exact Ha]. done.
Qed.

Lemma main_convert_inv entries w net :
  ServiceMain.import_pytorch_model (mkStructure entries) w = Ok net ->
  net_type net = "ANN" /\
  match entries with
  | [] => net_nodes net = [] /\ net_connections net = []
  | li :: rest =>
      exists n, node_id n = layer_id_of 0 /\
        extends_chain (main_annotation w) 0 rest [n] (net_nodes net)
                      [] (net_connections net)
  end.
Proof.
  unfold ServiceMain.import_pytorch_model. simpl. intros H.
  inv_bind H. injection H as <-. simpl. split; [done |].
  destruct a as [nodes' conns']. simpl.
  destruct entries as [|li rest]; simpl in Ha.
  - by injection Ha as <- <-.
  - inv_bind Ha.
    eexists. split; [| eapply main_process_layers_chain; [|exact Ha]]; done.
Qed.

Lemma chain_shape annot rest n nodes' conns' :
  node_id n = layer_id_of 0 ->
  extends_chain annot 0 rest [n] nodes' [] conns' ->
  map node_id nodes' = map layer_id_of (seq 0 (S (length rest))) /\
  length conns' = length rest /\
  map endpoints conns' =
    map (fun i => (layer_id_of i, layer_id_of (S i))) (seq 0 (length rest)).
Proof.
  intros Hn H. split.
  - destruct H as [-> _]. simpl. by rewrite Hn.
  - by apply extends_chain_endpoints in H.
Qed.

(** The ids and the connections of a descriptor-driven conversion. *)
Lemma descriptor_shape
    (entries : list layer_info) (weights : gmap string tensor)
    (net : NeuroscopeNetwork) :
  PyConverter.convert_pytorch_model
    (PyConverter.mkModelData (mkStructure entries) weights) = Ok net \/
  ServiceMain.import_pytorch_model (mkStructure entries) weights = Ok net ->
  map node_id (net_nodes net) = map layer_id_of (seq 0 (length entries)) /\
  length (net_connections net) = length entries - 1 /\
  map endpoints (net_connections net) =
    map (fun i => (layer_id_of i, layer_id_of (S i)))
        (seq 0 (length entries - 1)).
Proof.
  intros H.
  assert (match entries with
          | [] => net_nodes net = [] /\ net_connections net = []
          | li :: rest =>
              exists annot n, node_id n = layer_id_of 0 /\
                extends_chain annot 0 rest [n] (net_nodes net)
                              [] (net_connections net)
          end) as Hinv.
  { destruct H as [H|H];
      [apply py_convert_inv in H | apply main_convert_inv in H];
      destruct H as [_ H]; destruct entries; try done;
      destruct H as (n & Hn & H); eauto. }
  destruct entries as [|li rest].
  - destruct Hinv as [-> ->]. done.
  - destruct Hinv as (annot & n & Hn & Hc).
    destruct (chain_shape _ _ _ _ _ Hn Hc) as (Hids & Hlen & Hends).
    simpl length. rewrite Nat.sub_succ, Nat.sub_0_r. done.
Qed.

(** Whether the loop of python_service/main.py raises is decided by the
    keys 'type' and 'name' of the entries. *)
Lemma main_process_layers_is_ok w entries :
  forall i prev nodes conns,
    match ServiceMain.process_layers w i entries prev nodes conns with
    | Ok _ =>
        forallb has_type entries = true /\
        forallb has_name (match prev with
                          | Some _ => entries
                          | None => tail entries
                          end) = true
    | Err e =>
        (forallb has_type entries
         && forallb has_name (match prev with
                              | Some _ => entries
                              | None => tail entries
                              end) = false) /\
        (e = KeyError "type" \/ e = KeyError "name")
    end.
Proof.
  induction entries as [|li rest IH]; intros i prev nodes conns.
  - simpl. by destruct prev.
  - simpl. unfold li_type_item, li_name_item, has_type at 1 3.
    destruct (li_type li) as [ty|]; simpl; [| by eauto].
    destruct prev as [p|]; simpl.
    + unfold has_name at 1 3.
      destruct (li_name li) as [name|]; simpl.
      * apply IH.
      * split; [apply andb_false_r | by right].
    + specialize (IH (S i)
                     (Some (mkNode (layer_id_of i) ty (li_dict li)))
                     (nodes ++ [mkNode (layer_id_of i) ty (li_dict li)])
                     conns).
      exact IH.
Qed.

Lemma main_conversion_returns entries w :
  main_well_formed entries = true ->
  is_ok (ServiceMain.import_pytorch_model (mkStructure entries) w) = true.
Proof.
  unfold main_well_formed, ServiceMain.import_pytorch_model. simpl.
  intros Hwf.
  pose proof (main_process_layers_is_ok w entries 0 None [] []) as H.
  destruct (ServiceMain.process_layers w 0 entries None [] []) as [r|e];
    [done |].
  destruct H as [H _]. congruence.
Qed.

(** An entry of a plain activation converts on its own. *)
Lemma plain_activation_converts li :
  plain_activation li = true ->
  exists ty layer,
    li_type li = Some ty /\
    PyConverter.create_layer_from_info li = Ok layer /\
    is_ok (PyConverter.get_layer_properties layer li) = true.
Proof.
  unfold plain_activation. destruct (li_type li) as [ty|] eqn:Hty; [| done].
  intros H.
  assert (ty = "ReLU" \/ ty = "Sigmoid" \/ ty = "Tanh") as Hcases.
  { apply orb_prop in H. destruct H as [H | H].
    - apply orb_prop in H. destruct H as [H | H];
        apply String.eqb_eq in H; auto.
    - apply String.eqb_eq in H. auto. }
  exists ty.
  unfold PyConverter.create_layer_from_info, PyConverter.get_layer_properties,
    li_type_item. rewrite Hty.
  destruct Hcases as [-> | [-> | ->]].
  - exists (PyConverter.plain_layer ReLU 0 false).
    split; [done |]. split; vm_compute; reflexivity.
  - exists (PyConverter.plain_layer Sigmoid 0 false).
    split; [done |]. split; vm_compute; reflexivity.
  - exists (PyConverter.plain_layer Tanh 0 false).
    split; [done |]. split; vm_compute; reflexivity.
Qed.

Lemma py_process_layers_plain sd entries :
  forallb plain_activation entries = true ->
  forall i prev nodes conns,
    forallb has_name (match prev with
                      | Some _ => entries
                      | None => tail entries
                      end) = true ->
    forallb (without_weight sd) (match prev with
                                 | Some _ => entries
                                 | None => tail entries
                                 end) = true ->
    is_ok (PyConverter.process_layers sd i entries prev nodes conns) = true.
Proof.
  induction entries as [|li rest IH]; intros Hplain i prev nodes conns Hn Hw;
    [done |].
  simpl in Hplain. apply andb_prop in Hplain. destruct Hplain as [Hli Hrest].
  destruct (plain_activation_converts li Hli)
    as (ty & layer & Hty & Hlayer & Hprops).
  cbn [PyConverter.process_layers]. rewrite Hlayer. cbn [rbind].
  destruct (PyConverter.get_layer_properties layer li) as [props|]; [| done].
  cbn [rbind]. unfold li_type_item. rewrite Hty. cbn [rbind].
  destruct prev as [p|].
  - simpl in Hn, Hw. apply andb_prop in Hn, Hw.
    destruct Hn as [Hname Hn], Hw as [Hkey Hw].
    unfold has_name in Hname. unfold without_weight in Hkey.
    unfold li_name_item. destruct (li_name li) as [name|]; [| done].
    cbn [rbind]. apply bool_decide_eq_true in Hkey. rewrite Hkey. cbn [rbind].
    by apply IH.
  - cbn [rbind]. by apply IH.
Qed.

Lemma py_plain_conversion_returns entries sd :
  forallb plain_activation entries = true ->
  forallb has_name (tail entries) = true ->
  forallb (without_weight sd) (tail entries) = true ->
  is_ok (PyConverter.convert_pytorch_model
           (PyConverter.mkModelData (mkStructure entries) sd)) = true.
Proof.
  intros Hplain Hn Hw. unfold PyConverter.convert_pytorch_model. simpl.
  pose proof (py_process_layers_plain sd entries Hplain 0 None [] [] Hn Hw)
    as H.
  by destruct (PyConverter.process_layers sd 0 entries None [] []).
Qed.

Lemma descriptor_linear_chain entries weights net :
  PyConverter.convert_pytorch_model
    (PyConverter.mkModelData (mkStructure entries) weights) = Ok net \/
  ServiceMain.import_pytorch_model (mkStructure entries) weights = Ok net ->
  linear_chain (length entries) net.
Proof.
  intros H. destruct (descriptor_shape _ _ _ H) as (Hids & Hlen & Hends).
  split; [| done].
  rewrite <- (length_map node_id), Hids, length_map, length_seq. done.
Qed.

(** C5. Descriptor-driven conversion of a descriptor with N entries returns,
    whenever it returns a network, N nodes, one per entry, with the ids
    layer_0, ..., layer_(N-1) in list order, and N-1 connections, the i-th
    from layer_i to layer_(i+1). And it does return one: python_service/main.py
    for every descriptor whose entries have a type and, after the first, a
    name, and src/python/pytorch_converter.py for every such descriptor of
    plain activations (ReLU, Sigmoid, Tanh), in both cases when the state
    dictionary has no weight for the entries (where it has one, the
    reductions of torch and numpy can raise on the tensor). *)
Theorem descriptor_conversion_linear_chain
    (entries : list layer_info) (weights : gmap string tensor) :
  (forall net,
     PyConverter.convert_pytorch_model
       (PyConverter.mkModelData (mkStructure entries) weights) = Ok net \/
     ServiceMain.import_pytorch_model (mkStructure entries) weights = Ok net ->
     linear_chain (length entries) net) /\
  (main_well_formed entries = true ->
   forallb (without_weight weights) (tail entries) = true ->
   exists net,
     ServiceMain.import_pytorch_model (mkStructure entries) weights = Ok net /\
     linear_chain (length entries) net) /\
  (forallb plain_activation entries = true ->
   forallb has_name (tail entries) = true ->
   forallb (without_weight weights) (tail entries) = true ->
   exists net,
     PyConverter.convert_pytorch_model
       (PyConverter.mkModelData (mkStructure entries) weights) = Ok net /\
     linear_chain (length entries) net).
Proof.
  split; [| split].
  - intros net H. by apply descriptor_linear_chain with weights.
  - intros Hwf _.
    pose proof (main_conversion_returns entries weights Hwf) as Hok.
    destruct (ServiceMain.import_pytorch_model (mkStructure entries) weights)
      as [net|] eqn:Hnet; [| done].
    exists net. split; [done |].
    apply descriptor_linear_chain with weights. by right.
  - intros Hplain Hn Hw.
    pose proof (py_plain_conversion_returns entries weights Hplain Hn Hw)
      as Hok.
    destruct (PyConverter.convert_pytorch_model
                (PyConverter.mkModelData (mkStructure entries) weights))
      as [net|] eqn:Hnet; [| done].
    exists net. split; [done |].
    apply descriptor_linear_chain with weights. by left.
Qed.

Lemma descriptor_conversion_linear_chain_witness :
  (linear_chain 3 test_network_py /\
   map node_id (net_nodes test_network_py) = ["layer_0"; "layer_1"; "layer_2"] /\
   map endpoints (net_connections test_network_py) =
     [("layer_0", "layer_1"); ("layer_1", "layer_2")]) /\
  (linear_chain 3 test_network_main /\
   map node_id (net_nodes test_network_main)
     = ["layer_0"; "layer_1"; "layer_2"] /\
   map endpoints (net_connections test_network_main) =
     [("layer_0", "layer_1"); ("layer_1", "layer_2")]) /\
  (exists net,
     ServiceMain.import_pytorch_model (mkStructure test_entries) ∅ = Ok net /\
     linear_chain 3 net) /\
  (exists net,
     PyConverter.convert_pytorch_model
       (PyConverter.mkModelData (mkStructure activation_entries) ∅) = Ok net /\
     linear_chain 2 net).
Proof.
  destruct (descriptor_conversion_linear_chain test_entries test_weights)
    as (Hshape & _ & _).
  destruct (descriptor_conversion_linear_chain test_entries ∅)
    as (_ & Hmain & _).
  destruct (descriptor_conversion_linear_chain activation_entries ∅)
    as (_ & _ & Hpy).
  split; [| split; [| split]].
  - pose proof (Hshape test_network_py (or_introl eq_refl)) as H.
    split; [exact H |]. destruct H as (_ & Hids & _ & Hends).
    split; [exact Hids | exact Hends].
  - pose proof (Hshape test_network_main (or_intror eq_refl)) as H.
    split; [exact H |]. destruct H as (_ & Hids & _ & Hends).
    split; [exact Hids | exact Hends].
  - apply Hmain; reflexivity.
  - apply Hpy; reflexivity.
Defined.

Lemma weight_props_inv t props :
  PyConverter.weight_props t = Ok props ->
  exists mx mn,
    np_max (t_data t) = Ok mx /\ np_min (t_data t) = Ok mn /\
    props = list_to_map [("max_weight", VFloat mx); ("min_weight", VFloat mn);
                         ("std_weight", VFloat (np_std (t_data t)));
                         ("shape", shape_value t)].
Proof.
  unfold PyConverter.weight_props. intros H.
  apply rbind_Ok in H. destruct H as (mx & Hmx & H).
  apply rbind_Ok in H. destruct H as (mn & Hmn & H).
  injection H as <-. exists mx, mn. split; [done |]. split; [done |].
  apply map_eq. intros key. unfold PyConverter.update. simpl.
  rewrite !lookup_insert. repeat case_decide; simplify_eq; done.
Qed.

(** C1, as the code has it. For the connection into the entry number k+1 of
    a descriptor: src/python/pytorch_converter.py always gives it the weight
    1.0, and when the state dictionary has the key "<name>.weight" its
    properties are the raw maximum, the raw minimum, the standard deviation
    and the shape of that tensor, and are empty otherwise;
    python_service/main.py always gives it empty properties, and its weight
    is the mean absolute value of the tensor when the key is present, and
    1.0 otherwise. *)
Theorem descriptor_edge_annotation
    (entries : list layer_info) (weights : gmap string tensor)
    (k : nat) (li : layer_info) :
  entries !! S k = Some li ->
  (forall net,
     PyConverter.convert_pytorch_model
       (PyConverter.mkModelData (mkStructure entries) weights) = Ok net ->
     exists name c,
       li_name li = Some name /\ net_connections net !! k = Some c /\
       endpoints c = (layer_id_of k, layer_id_of (S k)) /\
       conn_weight c = FRat 1 /\
       match weights !! (name +:+ ".weight") with
       | Some t =>
           exists mx mn,
             np_max (t_data t) = Ok mx /\ np_min (t_data t) = Ok mn /\
             conn_properties c =
               list_to_map [("max_weight", VFloat mx);
                            ("min_weight", VFloat mn);
                            ("std_weight", VFloat (np_std (t_data t)));
                            ("shape", shape_value t)]
       | None => conn_properties c = ∅
       end) /\
  (forall net,
     ServiceMain.import_pytorch_model (mkStructure entries) weights = Ok net ->
     exists name c,
       li_name li = Some name /\ net_connections net !! k = Some c /\
       endpoints c = (layer_id_of k, layer_id_of (S k)) /\
       conn_properties c = ∅ /\
       conn_weight c =
         match weights !! (name +:+ ".weight") with
         | Some t => np_mean (np_abs (t_data t))
         | None => FRat 1
         end).
Proof.
  intros Hk. destruct entries as [|li0 rest]; [done |]. simpl in Hk.
  split; intros net H.
  - apply py_convert_inv in H.
    destruct H as (_ & n & _ & _ & new & Hnew & _ & Hall).
    simpl in Hnew. subst new.
    destruct (Hall k li Hk) as (c & Hc & Hs & Ht & Hw & name & Hname & Hp).
    exists name, c. unfold endpoints. rewrite Hs, Ht.
    repeat (split; [done |]).
    destruct (weights !! (name +:+ ".weight")) as [t|]; [|done].
    by apply weight_props_inv.
  - apply main_convert_inv in H.
    destruct H as (_ & n & _ & _ & new & Hnew & _ & Hall).
    simpl in Hnew. subst new.
    destruct (Hall k li Hk) as (c & Hc & Hs & Ht & Hp & name & Hname & Hw).
    exists name, c. unfold endpoints. rewrite Hs, Ht. done.
Qed.

Lemma descriptor_edge_annotation_witness :
  (exists name c,
     Some "fc3" = Some name /\
     net_connections test_network_py !! 1 = Some c /\
     endpoints c = ("layer_1", "layer_2") /\
     conn_weight c = FRat 1 /\
     match test_weights !! (name +:+ ".weight") with
     | Some t =>
         exists mx mn,
           np_max (t_data t) = Ok mx /\ np_min (t_data t) = Ok mn /\
           conn_properties c =
             list_to_map [("max_weight", VFloat mx);
                          ("min_weight", VFloat mn);
                          ("std_weight", VFloat (np_std (t_data t)));
                          ("shape", shape_value t)]
     | None => conn_properties c = ∅
     end) /\
  (exists name c,
     Some "fc3" = Some name /\
     net_connections test_network_main !! 1 = Some c /\
     endpoints c = ("layer_1", "layer_2") /\
     conn_properties c = ∅ /\
     conn_weight c =
       match test_weights !! (name +:+ ".weight") with
       | Some t => np_mean (np_abs (t_data t))
       | None => FRat 1
       end).
Proof.
  pose proof (descriptor_edge_annotation test_entries test_weights 1
                (entry "Linear" "fc3"
                   [("in_features", VInt 4); ("out_features", VInt 2)])
                eq_refl) as [Hpy Hmain].
  split.
  - apply (Hpy test_network_py). vm_compute. reflexivity.
  - apply (Hmain test_network_main). vm_compute. reflexivity.
Defined.

(** C1 as stated fails in both conversions. The state dictionary has the key
    "fc3.weight", with mean absolute value 9/2: src/python/pytorch_converter.py
    gives the connection into fc3 the weight 1.0, and python_service/main.py
    gives it no statistics. *)
Lemma descriptor_edge_annotation_counterexample :
  exists t c_py c_main,
    test_entries !! 2 =
      Some (entry "Linear" "fc3"
              [("in_features", VInt 4); ("out_features", VInt 2)]) /\
    test_weights !! "fc3.weight" = Some t /\
    np_mean (np_abs (t_data t)) = FRat (9 # 2) /\
    PyConverter.convert_pytorch_model
      (PyConverter.mkModelData (mkStructure test_entries) test_weights)
      = Ok test_network_py /\
    net_connections test_network_py !! 1 = Some c_py /\
    conn_weight c_py = FRat 1 /\
    conn_weight c_py <> np_mean (np_abs (t_data t)) /\
    ServiceMain.import_pytorch_model (mkStructure test_entries) test_weights
      = Ok test_network_main /\
    net_connections test_network_main !! 1 = Some c_main /\
    conn_weight c_main = np_mean (np_abs (t_data t)) /\
    conn_properties c_main = ∅.
Proof.
  eexists _, _, _.
  repeat (split; [vm_compute; reflexivity |]).
  split; [vm_compute; discriminate |].
  repeat (split; [vm_compute; reflexivity |]).
  vm_compute; reflexivity.
Qed.

(** C10. An empty layer list converts to a network without nodes and without
    connections, whatever the state dictionary holds. *)
Theorem empty_descriptor_converts (weights : gmap string tensor) :
  PyConverter.convert_pytorch_model
    (PyConverter.mkModelData (mkStructure []) weights)
    = Ok (mkNetwork "ANN" [] []) /\
  ServiceMain.import_pytorch_model (mkStructure []) weights
    = Ok (mkNetwork "ANN" [] []).
Proof. split; reflexivity. Qed.

(** ** Unsupported and unrecognised layer kinds *)

Lemma create_layer_unsupported li ty :
  li_type li = Some ty -> PyConverter.supported ty = false ->
  PyConverter.create_layer_from_info li
    = Err (ValueError ("Unsupported layer type: " +:+ ty)).
Proof.
  intros Hty Hs. unfold PyConverter.create_layer_from_info, li_type_item.
  rewrite Hty. simpl.
  unfold PyConverter.supported, PyConverter.supported_types in Hs.
  simpl in Hs.
  repeat (apply orb_false_elim in Hs; destruct Hs as [-> Hs]).
  reflexivity.
Qed.

Ltac step_bind :=
  match goal with
  | |- context [rbind ?r _] => destruct r; simpl in *; try discriminate
  | H : context [rbind ?r _] |- _ => destruct r; simpl in *; try discriminate
  end.

Lemma process_layers_unsupported_fails sd li ty post :
  li_type li = Some ty -> PyConverter.supported ty = false ->
  forall pre i prev nodes conns,
    is_ok (PyConverter.process_layers sd i (pre ++ li :: post) prev nodes conns)
      = false.
Proof.
  intros Hty Hs. induction pre as [|e pre IH]; intros i prev nodes conns.
  - simpl. by rewrite (create_layer_unsupported li ty).
  - simpl. repeat step_bind; try done; apply IH.
Qed.

Lemma process_layers_unsupported_error sd li ty post :
  li_type li = Some ty -> PyConverter.supported ty = false ->
  forall pre i prev nodes conns,
    is_ok (PyConverter.process_layers sd i pre prev nodes conns) = true ->
    PyConverter.process_layers sd i (pre ++ li :: post) prev nodes conns
      = Err (ValueError ("Unsupported layer type: " +:+ ty)).
Proof.
  intros Hty Hs. induction pre as [|e pre IH]; intros i prev nodes conns Hok.
  - simpl. by rewrite (create_layer_unsupported li ty).
  - simpl in *. repeat step_bind; try done; by apply IH.
Qed.

Lemma is_ok_rbind {A B : Type} (r : result A) (k : A -> result B) :
  is_ok (rbind r k) = match r with Ok a => is_ok (k a) | Err _ => false end.
Proof. by destruct r. Qed.

Lemma isinstance_cons m c cs :
  isinstance m (c :: cs) = issubclass (m_class m) c || isinstance m cs.
Proof. reflexivity. Qed.

Lemma live_unrecognised_properties layer :
  live_recognised layer = false ->
  ServiceConverter.get_layer_properties layer = common_fields layer.
Proof.
  unfold live_recognised. rewrite !isinstance_cons. intros H.
  repeat (apply orb_false_elim in H;
          let Hc := fresh "Hc" in destruct H as [Hc H]).
  unfold ServiceConverter.get_layer_properties.
  rewrite !isinstance_cons, Hc, Hc0, Hc1, Hc2, Hc3, Hc4, Hc5, Hc6.
  cbn [isinstance existsb orb]. unfold common_fields.
  apply map_eq. intros key. simpl.
  rewrite !lookup_insert. repeat case_decide; simplify_eq; done.
Qed.

(** Induction on a module hierarchy: the children of a module satisfy the
    property before the module does. *)
Lemma nn_module_forall_ind (P : nn_module -> Prop) :
  (forall m, Forall P (m_children m) -> P m) -> forall m, P m.
Proof.
  intros step. fix IH 1. intros m. apply step.
  destruct m as [n c ps attrs hooks cs]. simpl.
  induction cs as [|child cs IHcs]; constructor; [apply IH | apply IHcs].
Qed.

Lemma process_layer_unfold layer parent_id st :
  ServiceConverter.process_layer layer parent_id st =
    rbind (ServiceConverter.visit_layer layer parent_id st)
      (fun r => ServiceConverter.process_children
                  ServiceConverter.process_layer r.1 (m_children layer) r.2).
Proof. destruct layer; reflexivity. Qed.

Lemma layer_id_of_nonempty i : String.eqb (layer_id_of i) "" = false.
Proof. reflexivity. Qed.

Lemma visit_layer_id layer p st id st' :
  ServiceConverter.visit_layer layer p st = Ok (id, st') ->
  id = layer_id_of (ServiceConverter.node_id_counter st).
Proof.
  unfold ServiceConverter.visit_layer. intros H.
  apply rbind_Ok in H. destruct H as (c & _ & H). by injection H as <- <-.
Qed.

(** Whether [visit_layer] raises depends on the weight attribute of the layer
    and on whether a parent is given, and on nothing else. *)
Definition visit_outcome (layer : nn_module) (parent_id : option string)
    : bool :=
  match ServiceConverter.parent_given parent_id with
  | Some _ =>
      if hasattr layer "weight" then
        match ServiceConverter.weight_matrix_of layer with
        | Ok t => is_ok (np_max (np_abs (t_data t)))
        | Err _ => false
        end
      else true
  | None => true
  end.

Lemma visit_layer_is_ok layer p st :
  is_ok (ServiceConverter.visit_layer layer p st) = visit_outcome layer p.
Proof.
  unfold ServiceConverter.visit_layer, visit_outcome.
  destruct (ServiceConverter.parent_given p) as [parent|]; [|done].
  destruct (hasattr layer "weight"); [|done].
  destruct (ServiceConverter.weight_matrix_of layer) as [t|]; [|done].
  simpl. unfold ServiceConverter.weight_connection, np_max, np_min.
  destruct (np_abs (t_data t)); done.
Qed.

Lemma visit_outcome_relabel f layer p p' :
  ServiceConverter.parent_given p = None <->
    ServiceConverter.parent_given p' = None ->
  visit_outcome (relabel f layer) p = visit_outcome layer p'.
Proof.
  intros Hp. unfold visit_outcome.
  replace (hasattr (relabel f layer) "weight") with (hasattr layer "weight")
    by (by destruct layer).
  replace (ServiceConverter.weight_matrix_of (relabel f layer))
    with (ServiceConverter.weight_matrix_of layer) by (by destruct layer).
  destruct (ServiceConverter.parent_given p),
           (ServiceConverter.parent_given p'); try done.
  - destruct Hp as [_ Hp]. by specialize (Hp eq_refl).
  - destruct Hp as [Hp _]. by specialize (Hp eq_refl).
Qed.

Lemma process_layer_kind_independent f :
  forall m p p' st st',
    (ServiceConverter.parent_given p = None <->
       ServiceConverter.parent_given p' = None) ->
    is_ok (ServiceConverter.process_layer (relabel f m) p st)
      = is_ok (ServiceConverter.process_layer m p' st').
Proof.
  intros m. induction m as [m IH] using nn_module_forall_ind.
  intros p p' st st' Hp. rewrite !process_layer_unfold, !is_ok_rbind.
  pose proof (visit_layer_is_ok (relabel f m) p st) as H1.
  pose proof (visit_layer_is_ok m p' st') as H2.
  rewrite (visit_outcome_relabel f m p p' Hp) in H1.
  destruct (ServiceConverter.visit_layer (relabel f m) p st) as [[id1 s1]|] eqn:E1,
           (ServiceConverter.visit_layer m p' st') as [[id2 s2]|] eqn:E2;
    simpl in *; try congruence.
  apply visit_layer_id in E1, E2. 
  replace (m_children (relabel f m)) with (map (relabel f) (m_children m))
    by (by destruct m).
  clear H1 H2. revert s1 s2.
  induction IH as [|child cs Hchild _ IHcs]; intros s1 s2; [done |].
  simpl. rewrite !is_ok_rbind.
  specialize (Hchild (Some id1) (Some id2) s1 s2).
  destruct (ServiceConverter.process_layer (relabel f child) (Some id1) s1),
           (ServiceConverter.process_layer child (Some id2) s2);
    simpl in Hchild.
  - apply IHcs.
  - exfalso. enough (true = false) by done. apply Hchild.
    subst. simpl. done.
  - exfalso. enough (false = true) by done. apply Hchild.
    subst. simpl. done.
  - done.
Qed.

(** ** The type tag of the returned network *)

(** C8, evaluated on the code. The three conversions that build a
    [NeuroscopeNetwork] tag it "ANN", which the schema accepts; the bridge's
    [analyze_model] tags every result "PyTorch", which the pattern of the
    schema rejects. *)
Theorem network_type_tags
    (entries : list layer_info) (weights : gmap string tensor)
    (model : nn_module) :
  (forall net,
     PyConverter.convert_pytorch_model
       (PyConverter.mkModelData (mkStructure entries) weights) = Ok net ->
     net_type net = "ANN") /\
  (forall net,
     ServiceMain.import_pytorch_model (mkStructure entries) weights = Ok net ->
     net_type net = "ANN") /\
  (forall net,
     (ServiceConverter.convert_pytorch_model model).2 = Ok net ->
     net_type net = "ANN") /\
  type_pattern "ANN" = true /\
  Bridge.net_type (Bridge.analyze_model model) = "PyTorch" /\
  type_pattern (Bridge.net_type (Bridge.analyze_model model)) = false.
Proof.
  split; [| split; [| split]].
  - intros net H. by apply py_convert_inv in H as [H _].
  - intros net H. by apply main_convert_inv in H as [H _].
  - unfold ServiceConverter.convert_pytorch_model. simpl. intros net H.
    apply rbind_Ok in H. destruct H as (st & _ & H). by injection H as <-.
  - done.
Qed.

(** ** Weight statistics *)

Lemma Qmax_cases (x y : Q) : Qmax x y = x \/ Qmax x y = y.
Proof.
  unfold Qmax, GenericMinMax.gmax. destruct (x ?= y)%Q; auto.
Qed.

Lemma Qmin_cases (x y : Q) : Qmin x y = x \/ Qmin x y = y.
Proof.
  unfold Qmin, GenericMinMax.gmin. destruct (x ?= y)%Q; auto.
Qed.

Lemma fold_Qmax_maximum (r : list Q) :
  forall x, is_maximum (fold_left Qmax r x) (x :: r).
Proof.
  induction r as [|a r IH]; intros x; simpl.
  - split; [by left |]. intros y Hy. apply list_elem_of_singleton in Hy.
    subst. apply Qle_refl.
  - destruct (IH (Qmax x a)) as [Hin Hle]. split.
    + apply elem_of_cons in Hin. destruct Hin as [-> | Hin].
      * destruct (Qmax_cases x a) as [-> | ->]; set_solver.
      * set_solver.
    + intros y Hy. apply elem_of_cons in Hy. destruct Hy as [-> | Hy].
      * eapply Qle_trans; [apply Q.le_max_l | apply Hle; by left].
      * apply elem_of_cons in Hy. destruct Hy as [-> | Hy].
        -- eapply Qle_trans; [apply Q.le_max_r | apply Hle; by left].
        -- apply Hle. by right.
Qed.

Lemma fold_Qmin_minimum (r : list Q) :
  forall x, is_minimum (fold_left Qmin r x) (x :: r).
Proof.
  induction r as [|a r IH]; intros x; simpl.
  - split; [by left |]. intros y Hy. apply list_elem_of_singleton in Hy.
    subst. apply Qle_refl.
  - destruct (IH (Qmin x a)) as [Hin Hle]. split.
    + apply elem_of_cons in Hin. destruct Hin as [-> | Hin].
      * destruct (Qmin_cases x a) as [-> | ->]; set_solver.
      * set_solver.
    + intros y Hy. apply elem_of_cons in Hy. destruct Hy as [-> | Hy].
      * eapply Qle_trans; [apply Hle; by left | apply Q.le_min_l].
      * apply elem_of_cons in Hy. destruct Hy as [-> | Hy].
        -- eapply Qle_trans; [apply Hle; by left | apply Q.le_min_r].
        -- apply Hle. by right.
Qed.

Lemma np_max_maximum xs :
  xs <> [] ->
  exists m, is_maximum m xs /\ np_max xs = Ok (FRat (Qred m)).
Proof.
  destruct xs as [|x r]; [done |]. intros _.
  exists (fold_left Qmax r x). split; [apply fold_Qmax_maximum | done].
Qed.

Lemma np_min_minimum xs :
  xs <> [] ->
  exists m, is_minimum m xs /\ np_min xs = Ok (FRat (Qred m)).
Proof.
  destruct xs as [|x r]; [done |]. intros _.
  exists (fold_left Qmin r x). split; [apply fold_Qmin_minimum | done].
Qed.

Lemma Qlen_cons x xs : (Qlen (x :: xs) == 1 + Qlen xs)%Q.
Proof.
  unfold Qlen. simpl length. rewrite Nat2Z.inj_succ, <- Z.add_1_l.
  by rewrite inject_Z_plus.
Qed.

Lemma Qlen_nonzero xs : xs <> [] -> ~ (Qlen xs == 0)%Q.
Proof.
  destruct xs as [|x r]; [done |]. intros _. unfold Qlen, Qeq. simpl. lia.
Qed.

Lemma sum_squared_deviations (m : Q) (xs : list Q) :
  (Qsum (map (fun x => (x - m) * (x - m)) xs)
   == Qsum (map (fun x => x * x) xs) - 2 * m * Qsum xs + Qlen xs * (m * m))%Q.
Proof.
  induction xs as [|a xs IH].
  - simpl. unfold Qlen. simpl. ring.
  - rewrite Qlen_cons. simpl. rewrite IH. ring.
Qed.

(** [np.var] with its default [ddof = 0] is the population variance. *)
Lemma np_var_population xs :
  xs <> [] -> (np_var xs == population_variance xs)%Q.
Proof.
  intros Hne. apply Qlen_nonzero in Hne.
  unfold np_var, population_variance. rewrite sum_squared_deviations.
  field. exact Hne.
Qed.

Lemma np_std_population xs :
  xs <> [] -> np_std xs = FSqrt (Qred (population_variance xs)).
Proof.
  intros Hne. destruct xs as [|x r]; [done |]. unfold np_std.
  f_equal. apply Qred_complete. by apply np_var_population.
Qed.

(** C7, as the code has it. For a weight tensor with at least one element:
    the live traversal ([process_layer]) puts the mean absolute value on the
    connection as its weight, and the greatest absolute value, the least
    absolute value, the population standard deviation of the raw elements
    and the shape in its properties; src/python/pytorch_converter.py puts
    the greatest and the least raw (signed) element, the same standard
    deviation and the shape in the properties and computes no mean;
    python_service/main.py computes the mean absolute value only. *)
Theorem weight_statistics_by_call_site
    (t : tensor) (parent_id layer_id : string) :
  t_data t <> [] ->
  (exists amax amin,
     is_maximum amax (np_abs (t_data t)) /\
     is_minimum amin (np_abs (t_data t)) /\
     ServiceConverter.weight_connection parent_id layer_id t
       = Ok (mkConnection parent_id layer_id
               (FRat (Qred (Qsum (map Qabs (t_data t)) / Qlen (t_data t))))
               (list_to_map
                  [("max_weight", VFloat (FRat (Qred amax)));
                   ("min_weight", VFloat (FRat (Qred amin)));
                   ("std_weight",
                      VFloat (FSqrt (Qred (population_variance (t_data t)))));
                   ("shape", VList (map VInt (t_shape t)))]))) /\
  (exists rmax rmin,
     is_maximum rmax (t_data t) /\
     is_minimum rmin (t_data t) /\
     PyConverter.weight_props t
       = Ok (list_to_map
               [("max_weight", VFloat (FRat (Qred rmax)));
                ("min_weight", VFloat (FRat (Qred rmin)));
                ("std_weight",
                   VFloat (FSqrt (Qred (population_variance (t_data t)))));
                ("shape", VList (map VInt (t_shape t)))])) /\
  ServiceMain.mean_abs t
    = FRat (Qred (Qsum (map Qabs (t_data t)) / Qlen (t_data t))).
Proof.
  intros Hne.
  assert (np_abs (t_data t) <> []) as Habs.
  { unfold np_abs. by destruct (t_data t). }
  assert (np_mean (np_abs (t_data t))
          = FRat (Qred (Qsum (map Qabs (t_data t)) / Qlen (t_data t))))
    as Hmean.
  { unfold np_mean, np_abs, Qlen in *. rewrite length_map.
    by destruct (map Qabs (t_data t)). }
  split; [| split].
  - destruct (np_max_maximum _ Habs) as (amax & Hmax & Emax).
    destruct (np_min_minimum _ Habs) as (amin & Hmin & Emin).
    exists amax, amin. split; [done |]. split; [done |].
    unfold ServiceConverter.weight_connection. rewrite Emax, Emin. simpl.
    rewrite Hmean, (np_std_population _ Hne). do 2 f_equal;
      apply map_eq; intros key; unfold shape_value;
      rewrite !lookup_insert; repeat case_decide; simplify_eq; done.
  - destruct (np_max_maximum _ Hne) as (rmax & Hmax & Emax).
    destruct (np_min_minimum _ Hne) as (rmin & Hmin & Emin).
    exists rmax, rmin. split; [done |]. split; [done |].
    unfold PyConverter.weight_props, PyConverter.update.
    rewrite Emax, Emin. simpl. rewrite (np_std_population _ Hne).
    f_equal; apply map_eq; intros key; unfold shape_value;
      rewrite !lookup_insert; repeat case_decide; simplify_eq; done.
  - exact Hmean.
Qed.

Lemma weight_statistics_by_call_site_witness :
  (exists amax amin,
     is_maximum amax (np_abs (t_data signed_tensor)) /\
     is_minimum amin (np_abs (t_data signed_tensor)) /\
     ServiceConverter.weight_connection "layer_0" "layer_1" signed_tensor
       = Ok (mkConnection "layer_0" "layer_1"
               (FRat (Qred (Qsum (map Qabs (t_data signed_tensor))
                            / Qlen (t_data signed_tensor))))
               (list_to_map
                  [("max_weight", VFloat (FRat (Qred amax)));
                   ("min_weight", VFloat (FRat (Qred amin)));
                   ("std_weight",
                      VFloat (FSqrt (Qred (population_variance
                                             (t_data signed_tensor)))));
                   ("shape", VList (map VInt (t_shape signed_tensor)))]))) /\
  (exists rmax rmin,
     is_maximum rmax (t_data signed_tensor) /\
     is_minimum rmin (t_data signed_tensor) /\
     PyConverter.weight_props signed_tensor
       = Ok (list_to_map
               [("max_weight", VFloat (FRat (Qred rmax)));
                ("min_weight", VFloat (FRat (Qred rmin)));
                ("std_weight",
                   VFloat (FSqrt (Qred (population_variance
                                          (t_data signed_tensor)))));
                ("shape", VList (map VInt (t_shape signed_tensor)))])) /\
  ServiceMain.mean_abs signed_tensor
    = FRat (Qred (Qsum (map Qabs (t_data signed_tensor))
                  / Qlen (t_data signed_tensor))).
Proof.
  apply (weight_statistics_by_call_site signed_tensor "layer_0" "layer_1").
  discriminate.
Defined.

(** C7 as stated fails at the descriptor-driven call site: for the tensor
    [-3, 1] it reports the maximum 1, and the greatest absolute value is 3
    (the live traversal reports 3). *)
Lemma weight_statistics_counterexample :
  exists props c,
    PyConverter.weight_props signed_tensor = Ok props /\
    props !! "max_weight" = Some (VFloat (FRat 1)) /\
    is_maximum 3 (np_abs (t_data signed_tensor)) /\
    ServiceConverter.weight_connection "layer_0" "layer_1" signed_tensor
      = Ok c /\
    conn_properties c !! "max_weight" = Some (VFloat (FRat 3)) /\
    FRat 1 <> FRat 3.
Proof.
  eexists _, _.
  split; [vm_compute; reflexivity |].
  split; [vm_compute; reflexivity |].
  split.
  { split; [vm_compute; set_solver |].
    intros x Hx. vm_compute in Hx.
    apply elem_of_cons in Hx. destruct Hx as [-> | Hx]; [apply Qle_refl |].
    apply list_elem_of_singleton in Hx. subst. by vm_compute. }
  split; [vm_compute; reflexivity |].
  split; [vm_compute; reflexivity |].
  discriminate.
Qed.

(** ** The hooks the live conversion leaves on the model *)

Lemma modules_unfold m : modules m = m :: flat_map modules (m_children m).
Proof. by destruct m. Qed.

Lemma register_trainable m :
  trainable_parameters (ServiceConverter.register_activation_hooks m)
    = trainable_parameters m.
Proof.
  induction m as [m IH] using nn_module_forall_ind.
  destruct m as [n c ps attrs hooks cs]. simpl in IH.
  destruct cs as [|child cs]; [done |].
  change (ServiceConverter.register_activation_hooks
            (mkModule n c ps attrs hooks (child :: cs)))
    with (mkModule n c ps attrs hooks
            (map ServiceConverter.register_activation_hooks (child :: cs))).
  cbn [trainable_parameters m_parameters m_children]. f_equal.
  induction IH as [|x l Hx _ IHl]; [done |].
  cbn [map fold_right]. by rewrite Hx, IHl.
Qed.

Lemma register_modules m :
  Forall2 hook_registered
          (modules m) (modules (ServiceConverter.register_activation_hooks m)).
Proof.
  induction m as [m IH] using nn_module_forall_ind.
  destruct m as [n c ps attrs hooks cs]. simpl in IH.
  destruct cs as [|child cs].
  - simpl. constructor; [| constructor]. by repeat split.
  - pose proof (register_trainable (mkModule n c ps attrs hooks (child :: cs)))
      as Htrain.
    rewrite (modules_unfold (ServiceConverter.register_activation_hooks _)).
    rewrite modules_unfold. 
    change (ServiceConverter.register_activation_hooks
              (mkModule n c ps attrs hooks (child :: cs)))
      with (mkModule n c ps attrs hooks
              (map ServiceConverter.register_activation_hooks (child :: cs))).
    constructor; [by repeat split |].
    cbn [m_children]. clear -IH.
    induction IH as [|x l Hx _ IHl]; [constructor |].
    cbn [map flat_map]. apply Forall2_app; [exact Hx | exact IHl].
Qed.

Lemma modules_have_a_leaf m :
  exists leaf, leaf ∈ modules m /\ has_children leaf = false.
Proof.
  induction m as [m IH] using nn_module_forall_ind.
  destruct (m_children m) as [|child cs] eqn:Hcs.
  - exists m. rewrite modules_unfold. split; [by left |].
    unfold has_children. by rewrite Hcs.
  - inversion IH as [|? ? (leaf & Hin & Hleaf) _]; subst.
    exists leaf. split; [| done].
    rewrite modules_unfold, Hcs. simpl. set_solver.
Qed.

Lemma hook_stores_tensor m input t :
  assoc "output" (m_parameters m) = None -> m_children m = [] ->
  ServiceConverter.hook m input (VTensor t)
    = Ok (setattr m "output" (VTensor t)).
Proof.
  intros Hp Hc. unfold ServiceConverter.hook, ServiceConverter.assign_tensor.
  by rewrite Hp, Hc.
Qed.

Lemma setattr_twice m k v : setattr (setattr m k v) k v = setattr m k v.
Proof. unfold setattr. simpl. by rewrite insert_insert_eq. Qed.

Lemma hooks_keep_tensor input t hooks :
  forall m,
    assoc "output" (m_parameters m) = None -> m_children m = [] ->
    fold_left (fun r h => rbind r (fun m =>
                 ServiceConverter.run_forward_hook h m input (VTensor t)))
              hooks (Ok (setattr m "output" (VTensor t)))
      = Ok (setattr m "output" (VTensor t)).
Proof.
  induction hooks as [|h rest IH]; intros m Hp Hc; [done |].
  destruct h. cbn [fold_left rbind ServiceConverter.run_forward_hook].
  rewrite hook_stores_tensor by done. rewrite setattr_twice. by apply IH.
Qed.

Lemma hooks_after_error input output hooks e :
  fold_left (fun r h => rbind r (fun m =>
               ServiceConverter.run_forward_hook h m input output))
            hooks (Err e)
    = Err e.
Proof. induction hooks as [|h rest IH]; [done | exact IH]. Qed.

Lemma registered_leaf_hooks model leaf :
  leaf ∈ modules (ServiceConverter.register_activation_hooks model) ->
  has_children leaf = false ->
  exists rest, m_forward_hooks leaf = activation_hook :: rest.
Proof.
  intros Hin Hleaf. apply list_elem_of_lookup in Hin. destruct Hin as [i Hi].
  destruct (Forall2_lookup_r _ _ _ _ _ (register_modules model) Hi)
    as (m & _ & _ & _ & _ & _ & _ & Hch & Hhooks).
  rewrite <- Hch, Hleaf in Hhooks. rewrite Hhooks.
  destruct (m_forward_hooks m) as [|[] hooks]; simpl; eauto.
Qed.

(** C9, evaluated on the code. The live conversion hands the model back
    changed: every leaf module has the activation hook appended to its
    forward hooks (nothing else differs, and a module with children keeps its
    hooks), so the model is not the one that was passed in. When the forward
    hooks of such a leaf run on an output that is a tensor, the leaf holds
    that tensor as its attribute "output" afterwards; when "output" names
    one of its parameters, torch refuses the assignment with a [TypeError].
    When they run on an output that is not a tensor, the hook raises an
    [AttributeError] and nothing is stored: this is what happens to the LSTM
    leaf of [recurrent_net], whose [forward] returns a tuple. *)
Theorem conversion_registers_hooks (model : nn_module) :
  let model' := (ServiceConverter.convert_pytorch_model model).1 in
  Forall2 hook_registered (modules model) (modules model') /\
  model' <> model /\
  (forall leaf input t,
     leaf ∈ modules model' -> has_children leaf = false ->
     assoc "output" (m_parameters leaf) = None ->
     ServiceConverter.call_forward_hooks leaf input (VTensor t)
       = Ok (setattr leaf "output" (VTensor t))) /\
  (forall leaf input t,
     leaf ∈ modules model' -> has_children leaf = false ->
     assoc "output" (m_parameters leaf) <> None ->
     ServiceConverter.call_forward_hooks leaf input (VTensor t)
       = Err (TypeError
                "cannot assign as parameter (Parameter or None expected)")) /\
  (forall leaf input output,
     leaf ∈ modules model' -> has_children leaf = false ->
     (forall t, output <> VTensor t) ->
     ServiceConverter.call_forward_hooks leaf input output
       = Err (AttributeError "object has no attribute 'detach'")) /\
  (exists leaf,
     modules (ServiceConverter.convert_pytorch_model recurrent_net).1 !! 1
       = Some leaf /\
     m_class leaf = LSTM /\ has_children leaf = false /\
     ServiceConverter.call_forward_hooks leaf lstm_input lstm_output
       = Err (AttributeError "object has no attribute 'detach'")).
Proof.
  simpl. pose proof (register_modules model) as Hreg.
  split; [exact Hreg |]. split; [| split; [| split; [| split]]].
  - intros Heq. rewrite Heq in Hreg.
    destruct (modules_have_a_leaf model) as (leaf & Hin & Hleaf).
    apply list_elem_of_lookup in Hin. destruct Hin as [i Hi].
    pose proof (Forall2_lookup_lr _ _ _ _ _ _ Hreg Hi Hi)
      as (_ & _ & _ & _ & _ & _ & Hhooks).
    rewrite Hleaf in Hhooks.
    apply (f_equal length) in Hhooks. rewrite length_app in Hhooks.
    simpl in Hhooks. lia.
  - intros leaf input t Hin Hleaf Hp.
    destruct (registered_leaf_hooks model leaf Hin Hleaf) as [rest Hhooks].
    assert (m_children leaf = []) as Hc
      by (unfold has_children in Hleaf; by destruct (m_children leaf)).
    unfold ServiceConverter.call_forward_hooks. rewrite Hhooks.
    cbn [fold_left rbind ServiceConverter.run_forward_hook].
    rewrite hook_stores_tensor by done. by apply hooks_keep_tensor.
  - intros leaf input t Hin Hleaf Hp.
    destruct (registered_leaf_hooks model leaf Hin Hleaf) as [rest Hhooks].
    unfold ServiceConverter.call_forward_hooks. rewrite Hhooks.
    cbn [fold_left rbind ServiceConverter.run_forward_hook].
    unfold ServiceConverter.hook, ServiceConverter.assign_tensor.
    destruct (assoc "output" (m_parameters leaf)); [| done].
    apply hooks_after_error.
  - intros leaf input output Hin Hleaf Hout.
    destruct (registered_leaf_hooks model leaf Hin Hleaf) as [rest Hhooks].
    unfold ServiceConverter.call_forward_hooks. rewrite Hhooks.
    cbn [fold_left rbind ServiceConverter.run_forward_hook].
    assert (ServiceConverter.hook leaf input output
            = Err (AttributeError "object has no attribute 'detach'")) as ->.
    { destruct output; try done. by destruct (Hout t). }
    apply hooks_after_error.
  - eexists. split; [reflexivity |]. split; [reflexivity |].
    split; reflexivity.
Qed.

(** On a leaf with a tensor output, such as the linear layer of [small_net],
    the hook stores the output. *)
Lemma conversion_registers_hooks_witness :
  exists leaf,
    modules (ServiceConverter.convert_pytorch_model small_net).1 !! 2
      = Some leaf /\
    m_class leaf = Linear /\
    ServiceConverter.call_forward_hooks leaf lstm_input
                                        (VTensor signed_tensor)
      = Ok (setattr leaf "output" (VTensor signed_tensor)).
Proof.
  destruct (conversion_registers_hooks small_net) as (_ & _ & Hstore & _).
  eexists. split; [reflexivity |]. split; [reflexivity |].
  apply Hstore; [| reflexivity | reflexivity].
  apply list_elem_of_lookup. exists 2. reflexivity.
Defined.

(** ** The live traversal of python_service/pytorch_converter.py *)

Lemma live_edges_unfold base parent m :
  live_edges base parent m =
    match parent with
    | Some p => if hasattr m "weight" then [(p, base)] else []
    | None => []
    end ++
    live_edges_children (fun b p c => live_edges b (Some p) c) base
                        (m_children m) (S base).
Proof. by destruct m. Qed.

Lemma live_nodes_app base l1 l2 :
  live_nodes base (l1 ++ l2) =
    live_nodes base l1 ++ live_nodes (base + length l1) l2.
Proof.
  unfold live_nodes. rewrite imap_app. f_equal.
  apply imap_ext. intros i m _. simpl. by rewrite Nat.add_assoc.
Qed.

Lemma weight_connection_endpoints parent layer_id t c :
  ServiceConverter.weight_connection parent layer_id t = Ok c ->
  endpoints c = (parent, layer_id).
Proof.
  unfold ServiceConverter.weight_connection. intros H.
  apply rbind_Ok in H. destruct H as (mx & _ & H).
  apply rbind_Ok in H. destruct H as (mn & _ & H).
  by injection H as <-.
Qed.

Lemma visit_layer_spec layer pidx p st id st1 :
  ServiceConverter.parent_given p = option_map layer_id_of pidx ->
  ServiceConverter.visit_layer layer p st = Ok (id, st1) ->
  id = layer_id_of (ServiceConverter.node_id_counter st) /\
  ServiceConverter.node_id_counter st1
    = S (ServiceConverter.node_id_counter st) /\
  ServiceConverter.nodes st1
    = ServiceConverter.nodes st
      ++ live_nodes (ServiceConverter.node_id_counter st) [layer] /\
  map endpoints (ServiceConverter.connections st1)
    = map endpoints (ServiceConverter.connections st)
      ++ map layer_pair
           match pidx with
           | Some i =>
               if hasattr layer "weight"
               then [(i, ServiceConverter.node_id_counter st)] else []
           | None => []
           end.
Proof.
  unfold ServiceConverter.visit_layer. intros Hp H.
  apply rbind_Ok in H. destruct H as (conns & Hconns & H).
  injection H as <- <-. simpl.
  split; [done |]. split; [done |].
  split; [unfold live_nodes; simpl; by rewrite Nat.add_0_r |].
  rewrite Hp in Hconns. destruct pidx as [i|]; simpl in Hconns.
  - destruct (hasattr layer "weight").
    + apply rbind_Ok in Hconns. destruct Hconns as (t & _ & Hconns).
      apply rbind_Ok in Hconns. destruct Hconns as (c & Hc & Hconns).
      injection Hconns as <-. rewrite map_app. simpl.
      by rewrite (weight_connection_endpoints _ _ _ _ Hc).
    + injection Hconns as <-. simpl. by rewrite app_nil_r.
  - injection Hconns as <-. simpl. by rewrite app_nil_r.
Qed.

(** What [process_layer] adds to the state for the hierarchy [m]. *)
Definition live_step (m : nn_module) : Prop :=
  forall pidx p st st',
    ServiceConverter.parent_given p = option_map layer_id_of pidx ->
    ServiceConverter.process_layer m p st = Ok st' ->
    ServiceConverter.node_id_counter st'
      = ServiceConverter.node_id_counter st + length (modules m) /\
    ServiceConverter.nodes st'
      = ServiceConverter.nodes st
        ++ live_nodes (ServiceConverter.node_id_counter st) (modules m) /\
    map endpoints (ServiceConverter.connections st')
      = map endpoints (ServiceConverter.connections st)
        ++ map layer_pair
             (live_edges (ServiceConverter.node_id_counter st) pidx m).

Lemma process_children_spec parent cs :
  Forall live_step cs ->
  forall s s',
    ServiceConverter.process_children
      ServiceConverter.process_layer (layer_id_of parent) cs s = Ok s' ->
    ServiceConverter.node_id_counter s'
      = ServiceConverter.node_id_counter s + length (flat_map modules cs) /\
    ServiceConverter.nodes s'
      = ServiceConverter.nodes s
        ++ live_nodes (ServiceConverter.node_id_counter s)
                      (flat_map modules cs) /\
    map endpoints (ServiceConverter.connections s')
      = map endpoints (ServiceConverter.connections s)
        ++ map layer_pair
             (live_edges_children (fun b p c => live_edges b (Some p) c)
                                  parent cs
                                  (ServiceConverter.node_id_counter s)).
Proof.
  intros Hcs. induction Hcs as [|child cs Hchild _ IHcs]; intros s s' H.
  - simpl in H. injection H as <-. simpl.
    rewrite Nat.add_0_r, !app_nil_r. done.
  - simpl in H. apply rbind_Ok in H. destruct H as (s1 & Hs1 & H).
    apply (Hchild (Some parent)) in Hs1; [| done].
    destruct Hs1 as (Hc1 & Hn1 & He1).
    apply IHcs in H. destruct H as (Hc2 & Hn2 & He2).
    simpl. rewrite length_app, live_nodes_app, map_app.
    rewrite Hc2, Hn2, He2, Hc1, Hn1, He1, !app_assoc.
    split; [lia |]. done.
Qed.

Lemma process_layer_spec m : live_step m.
Proof.
  induction m as [m IH] using nn_module_forall_ind.
  intros pidx p st st' Hp H.
  rewrite process_layer_unfold in H.
  apply rbind_Ok in H. destruct H as ([id st1] & Hvisit & H). simpl in H.
  destruct (visit_layer_spec _ _ _ _ _ _ Hp Hvisit)
    as (-> & Hcount & Hnodes & Hedges).
  rewrite modules_unfold, live_edges_unfold.
  destruct (process_children_spec _ _ IH _ _ H) as (Hc2 & Hn2 & He2).
  rewrite Hc2, Hn2, He2, Hcount, Hnodes, Hedges.
  simpl length. split; [lia |]. split.
  - change (m :: flat_map modules (m_children m))
      with ([m] ++ flat_map modules (m_children m)).
    rewrite live_nodes_app, app_assoc. simpl length.
    by rewrite Nat.add_1_r.
  - rewrite map_app, app_assoc. done.
Qed.

Lemma hook_registered_properties m m' :
  hook_registered m m' ->
  class_name (m_class m') = class_name (m_class m) /\
  ServiceConverter.get_layer_properties m'
    = ServiceConverter.get_layer_properties m /\
  hasattr m' "weight" = hasattr m "weight".
Proof.
  intros (_ & Hc & Hp & Ha & Ht & _ & _).
  unfold ServiceConverter.get_layer_properties, isinstance, with_attrs,
    hasattr, bias_is_not_None, attr, getattr.
  rewrite Hc, Hp, Ha, Ht. done.
Qed.

Lemma live_nodes_registered ms ms' :
  Forall2 hook_registered ms ms' ->
  forall base, live_nodes base ms' = live_nodes base ms.
Proof.
  unfold live_nodes. induction 1 as [|m m' ms ms' Hm _ IH]; intros base.
  - done.
  - rewrite !imap_cons.
    destruct (hook_registered_properties _ _ Hm) as (-> & -> & _). f_equal.
    rewrite (imap_ext _ (fun i m => mkNode (layer_id_of (S base + i))
               (class_name (m_class m))
               (ServiceConverter.get_layer_properties m)) ms')
      by (intros; simpl; f_equal; f_equal; lia).
    rewrite IH. apply imap_ext. intros. simpl. f_equal; f_equal; lia.
Qed.

Lemma register_children m :
  m_children (ServiceConverter.register_activation_hooks m)
    = map ServiceConverter.register_activation_hooks (m_children m).
Proof. destruct m as [n c ps attrs hooks [|child cs]]; reflexivity. Qed.

Lemma live_edges_registered m :
  forall base parent,
    live_edges base parent (ServiceConverter.register_activation_hooks m)
      = live_edges base parent m.
Proof.
  induction m as [m IH] using nn_module_forall_ind. intros base parent.
  rewrite !live_edges_unfold.
  pose proof (register_modules m) as Hreg.
  rewrite (modules_unfold m),
    (modules_unfold (ServiceConverter.register_activation_hooks m)) in Hreg.
  apply Forall2_cons_1 in Hreg. destruct Hreg as [Hm _].
  destruct (hook_registered_properties _ _ Hm) as (_ & _ & ->). f_equal.
  rewrite register_children. clear Hm. generalize (S base) as b.
  induction IH as [|x l Hx _ IHl]; intros b; [done |].
  cbn [map live_edges_children]. rewrite Hx, IHl.
  by rewrite (Forall2_length _ _ _ (register_modules x)).
Qed.

(** The live conversion, seen from its result: the nodes are the modules of
    the model in pre-order, and the connections are [live_edges]. *)
Lemma live_convert_inv model net :
  (ServiceConverter.convert_pytorch_model model).2 = Ok net ->
  net_type net = "ANN" /\
  net_nodes net = live_nodes 0 (modules model) /\
  map endpoints (net_connections net)
    = map layer_pair (live_edges 0 None model).
Proof.
  unfold ServiceConverter.convert_pytorch_model. simpl. intros H.
  apply rbind_Ok in H. destruct H as (st & Hst & H). injection H as <-.
  apply (process_layer_spec _ None) in Hst; [| done].
  destruct Hst as (_ & Hnodes & Hedges). simpl in *.
  rewrite Hnodes, Hedges, live_edges_registered.
  by rewrite (live_nodes_registered _ _ (register_modules model)).
Qed.

Lemma live_nodes_ids base ms :
  map node_id (live_nodes base ms)
    = map layer_id_of (seq base (length ms)).
Proof.
  revert base. induction ms as [|m ms IH]; intros base; [done |].
  change (m :: ms) with ([m] ++ ms). rewrite live_nodes_app, map_app.
  simpl length. rewrite IH. unfold live_nodes. simpl.
  by rewrite Nat.add_0_r, Nat.add_1_r.
Qed.

(** Every pair of [live_edges] leads from the parent or from a module of the
    hierarchy into a module of the hierarchy. *)
Definition live_bounded (m : nn_module) : Prop :=
  forall base parent a b,
    (a, b) ∈ live_edges base parent m ->
    (parent = Some a \/ base <= a < base + length (modules m)) /\
    base <= b < base + length (modules m).

Lemma live_edges_children_bounds cs :
  Forall live_bounded cs ->
  forall base parent a b,
    (a, b) ∈ live_edges_children (fun b p c => live_edges b (Some p) c)
                                 parent cs base ->
    (a = parent \/ base <= a < base + length (flat_map modules cs)) /\
    base <= b < base + length (flat_map modules cs).
Proof.
  induction 1 as [|child cs Hchild _ IH]; intros base parent a b Hin;
    simpl in Hin.
  - by apply elem_of_nil in Hin.
  - simpl. rewrite length_app. apply elem_of_app in Hin.
    destruct Hin as [Hin | Hin].
    + apply Hchild in Hin. destruct Hin as [[Ha | Ha] Hb].
      * injection Ha as ->. split; [by left | lia].
      * split; [right |]; lia.
    + apply IH in Hin. destruct Hin as [[Ha | Ha] Hb].
      * split; [by left | lia].
      * split; [right |]; lia.
Qed.

Lemma live_edges_bounds m : live_bounded m.
Proof.
  induction m as [m IH] using nn_module_forall_ind.
  intros base parent a b Hin.
  rewrite live_edges_unfold in Hin. rewrite modules_unfold. simpl length.
  apply elem_of_app in Hin. destruct Hin as [Hin | Hin].
  - destruct parent as [p|]; [| by apply elem_of_nil in Hin].
    destruct (hasattr m "weight"); [| by apply elem_of_nil in Hin].
    apply list_elem_of_singleton in Hin. injection Hin as -> ->.
    split; [by left | lia].
  - apply (live_edges_children_bounds _ IH) in Hin.
    destruct Hin as [[Ha | Ha] Hb]; (split; [right |]; lia).
Qed.

(** ** Unsupported tags and unrecognised classes *)

Lemma register_relabel f model :
  ServiceConverter.register_activation_hooks (relabel f model)
    = relabel f (ServiceConverter.register_activation_hooks model).
Proof.
  induction model as [m IH] using nn_module_forall_ind.
  destruct m as [n c ps attrs hooks cs]. simpl in *.
  destruct cs as [|child cs]; [done |]. simpl.
  inversion IH as [|? ? Hc Hcs]; subst. f_equal. f_equal; [done |].
  rewrite !map_map. apply map_ext_Forall. exact Hcs.
Qed.

(** C4, evaluated on the code. A descriptor entry with a tag outside the
    catalogue of [create_layer_from_info] makes the descriptor-driven
    conversion raise: no network is returned, and when the entries before it
    convert, the error is the [ValueError] that names the tag. In the live
    traversal [get_layer_properties] gives a layer of a class it has no
    branch for the common fields (type, trainable_parameters, has_bias) and
    nothing else; in every network the traversal returns the node of such a
    layer carries exactly these; such a layer alone converts; and whether a
    conversion raises does not depend on the classes of the layers. But the
    traversal does raise on a layer of an unrecognised class: a
    [BatchNorm1d] built with [affine=False], whose weight is registered as
    [None], converts alone and makes the conversion of a model that holds it
    raise an [AttributeError]. *)
Theorem unsupported_kind_policy
    (pre post : list layer_info) (li : layer_info) (ty : string)
    (weights : gmap string tensor) (model : nn_module) :
  li_type li = Some ty ->
  PyConverter.supported ty = false ->
  is_ok (PyConverter.convert_pytorch_model
           (PyConverter.mkModelData (mkStructure (pre ++ li :: post)) weights))
    = false /\
  (is_ok (PyConverter.convert_pytorch_model
            (PyConverter.mkModelData (mkStructure pre) weights)) = true ->
   PyConverter.convert_pytorch_model
     (PyConverter.mkModelData (mkStructure (pre ++ li :: post)) weights)
     = Err (ValueError ("Unsupported layer type: " +:+ ty))) /\
  (forall layer,
     live_recognised layer = false ->
     ServiceConverter.get_layer_properties layer = common_fields layer) /\
  (forall net i layer,
     (ServiceConverter.convert_pytorch_model model).2 = Ok net ->
     modules model !! i = Some layer ->
     live_recognised layer = false ->
     net_nodes net !! i
       = Some (mkNode (layer_id_of i) (class_name (m_class layer))
                      (common_fields layer))) /\
  (forall layer,
     live_recognised layer = false -> m_children layer = [] ->
     (ServiceConverter.convert_pytorch_model layer).2
       = Ok (mkNetwork "ANN"
               [mkNode "layer_0" (class_name (m_class layer))
                       (common_fields layer)] [])) /\
  (forall f : nn_class -> nn_class,
     is_ok (ServiceConverter.convert_pytorch_model (relabel f model)).2
       = is_ok (ServiceConverter.convert_pytorch_model model).2) /\
  (live_recognised norm_without_affine = false /\
   m_children net_with_norm = [linear_module "fc"; norm_without_affine] /\
   (ServiceConverter.convert_pytorch_model net_with_norm).2
     = Err (AttributeError "object has no attribute 'detach'")).
Proof.
  intros Hty Hs.
  split; [| split; [| split; [| split; [| split; [| split]]]]].
  - unfold PyConverter.convert_pytorch_model. simpl. rewrite is_ok_rbind.
    pose proof (process_layers_unsupported_fails weights li ty post Hty Hs
                  pre 0 None [] []) as H.
    by destruct (PyConverter.process_layers _ _ _ _ _ _).
  - unfold PyConverter.convert_pytorch_model. simpl. rewrite is_ok_rbind.
    intros Hok.
    rewrite (process_layers_unsupported_error weights li ty post Hty Hs
               pre 0 None [] []); [done |].
    by destruct (PyConverter.process_layers _ _ _ _ _ _).
  - apply live_unrecognised_properties.
  - intros net i layer Hnet Hi Hlive.
    apply live_convert_inv in Hnet. destruct Hnet as (_ & -> & _).
    unfold live_nodes. rewrite list_lookup_imap, Hi. simpl.
    by rewrite (live_unrecognised_properties layer Hlive).
  - intros layer Hlive Hleaf. destruct layer as [n c ps attrs hooks cs].
    simpl in Hleaf. subst cs.
    unfold ServiceConverter.convert_pytorch_model. simpl.
    rewrite (live_unrecognised_properties
               (mkModule n c ps attrs (hooks ++ [activation_hook]) []))
      by exact Hlive.
    reflexivity.
  - intros f. unfold ServiceConverter.convert_pytorch_model. simpl.
    rewrite !is_ok_rbind, register_relabel.
    pose proof (process_layer_kind_independent f
                  (ServiceConverter.register_activation_hooks model)
                  None None (ServiceConverter.mkState [] [] 0)
                  (ServiceConverter.mkState [] [] 0)) as H.
    destruct (ServiceConverter.process_layer (relabel f _) _ _),
             (ServiceConverter.process_layer
                (ServiceConverter.register_activation_hooks model) _ _);
      simpl in *; try done; apply H; done.
  - split; [reflexivity |]. split; [reflexivity |]. vm_compute. reflexivity.
Qed.

Lemma unsupported_kind_policy_witness :
  PyConverter.convert_pytorch_model
    (PyConverter.mkModelData
       (mkStructure ([entry "ReLU" "relu" []] ++ foo_entry :: [])) ∅)
    = Err (ValueError "Unsupported layer type: FooLayer") /\
  ServiceConverter.get_layer_properties scaled_layer
    = list_to_map [("type", VStr "Scale");
                   ("trainable_parameters", VInt 3);
                   ("has_bias", VBool true)] /\
  ServiceConverter.get_layer_properties small_net
    = list_to_map [("type", VStr "Net");
                   ("trainable_parameters", VInt 2);
                   ("has_bias", VBool false)] /\
  (ServiceConverter.convert_pytorch_model foo_layer).2
    = Ok (mkNetwork "ANN"
            [mkNode "layer_0" "FooLayer"
                    (list_to_map [("type", VStr "FooLayer");
                                  ("trainable_parameters", VInt 0);
                                  ("has_bias", VBool false)])] []) /\
  (ServiceConverter.convert_pytorch_model norm_without_affine).2
    = Ok (mkNetwork "ANN"
            [mkNode "layer_0" "BatchNorm1d"
                    (list_to_map [("type", VStr "BatchNorm1d");
                                  ("trainable_parameters", VInt 0);
                                  ("has_bias", VBool false)])] []).
Proof.
  destruct (unsupported_kind_policy [entry "ReLU" "relu" []] [] foo_entry
              "FooLayer" ∅ foo_layer eq_refl eq_refl)
    as (_ & Herr & Hprops & _ & Hleaf & _).
  split; [| split; [| split; [| split]]].
  - apply Herr. vm_compute. reflexivity.
  - rewrite (Hprops scaled_layer eq_refl). vm_compute. reflexivity.
  - rewrite (Hprops small_net eq_refl). vm_compute. reflexivity.
  - rewrite (Hleaf foo_layer eq_refl eq_refl). vm_compute. reflexivity.
  - rewrite (Hleaf norm_without_affine eq_refl eq_refl). vm_compute.
    reflexivity.
Defined.

(** ** The bridge traversal of src/lib/bridge/pytorch_service.py *)

Lemma process_container_unfold container prefix st :
  Bridge.process_container container prefix st =
    let r := Bridge.process_children Bridge.process_container prefix
               (m_children container) [] st in
    if isinstance container [Sequential] then
      (r.1, Bridge.append_connections (Bridge.chain r.1) r.2)
    else (r.1, r.2).
Proof. by destruct container. Qed.

Lemma visible_unfold container :
  visible container = flat_map block (m_children container).
Proof. by destruct container. Qed.

Lemma top_ids_unfold base container :
  top_ids base container
    = top_ids_children top_ids (m_children container) base.
Proof. by destruct container. Qed.

Lemma container_edges_unfold base container :
  container_edges base container =
    container_edges_children container_edges (m_children container) base
    ++ (if isinstance container [Sequential]
        then chain_pairs (top_ids base container) else []).
Proof. by destruct container. Qed.

Lemma chain_pairs_edges ids :
  Bridge.chain ids = map pair_edge (chain_pairs ids).
Proof.
  induction ids as [|a ids IH]; [done |].
  destruct ids as [|b rest]; [done |].
  change (Bridge.chain (a :: b :: rest))
    with (Bridge.edge a b :: Bridge.chain (b :: rest)).
  change (chain_pairs (a :: b :: rest))
    with ((a, b) :: chain_pairs (b :: rest)).
  by rewrite IH.
Qed.

Lemma first_and_chain_edges node_id first rest :
  Bridge.edge node_id first :: Bridge.chain (first :: rest)
    = map pair_edge (first_and_chain node_id (first :: rest)).
Proof. unfold first_and_chain. by rewrite chain_pairs_edges. Qed.

Lemma bridge_nodes_app base l1 l2 :
  bridge_nodes base (l1 ++ l2) =
    bridge_nodes base l1 ++ bridge_nodes (base + length l1) l2.
Proof.
  unfold bridge_nodes. rewrite imap_app. f_equal.
  apply imap_ext. intros i m _. simpl. by rewrite Nat.add_assoc.
Qed.

(** What [process_container] returns and adds to the state. *)
Definition bridge_step (container : nn_module) : Prop :=
  forall prefix st,
    let r := Bridge.process_container container prefix st in
    r.1 = top_ids (Bridge.node_count st) container /\
    Bridge.node_count r.2
      = Bridge.node_count st + length (visible container) /\
    map node_core (Bridge.nodes r.2)
      = map node_core (Bridge.nodes st)
        ++ bridge_nodes (Bridge.node_count st) (visible container) /\
    Bridge.connections r.2
      = Bridge.connections st
        ++ map pair_edge (container_edges (Bridge.node_count st) container).

(** The state after the loop body of [process_children] has handled a child
    that gets a node. *)
Definition child_state
    (process_container : nn_module -> string -> Bridge.state
                         -> list nat * Bridge.state)
    (prefix : string) (child : nn_module) (st : Bridge.state) : Bridge.state :=
  let full_name := Bridge.full_name_of prefix (m_name child) in
  let r := Bridge.add_node child full_name st in
  if has_children child then
    let r' := process_container child full_name r.2 in
    Bridge.append_connections
      (map pair_edge (first_and_chain r.1 r'.1)) r'.2
  else r.2.

Lemma append_no_connections st : Bridge.append_connections [] st = st.
Proof. destruct st. unfold Bridge.append_connections. simpl.
       by rewrite app_nil_r. Qed.

Lemma process_children_cons pc prefix child rest acc st :
  Bridge.process_children pc prefix (child :: rest) acc st =
    if transparent child then
      let r := pc child (Bridge.full_name_of prefix (m_name child)) st in
      Bridge.process_children pc prefix rest (acc ++ r.1) r.2
    else
      Bridge.process_children pc prefix rest (acc ++ [Bridge.node_count st])
                              (child_state pc prefix child st).
Proof.
  cbn [Bridge.process_children]. unfold transparent, child_state.
  destruct (isinstance child [Sequential; ModuleList; ModuleDict]); [done |].
  destruct (has_children child); [| done]. cbv zeta.
  destruct (pc child _ _).1 as [|first ids] eqn:Hids.
  - cbn [first_and_chain map]. by rewrite append_no_connections.
  - by rewrite <- first_and_chain_edges.
Qed.

Lemma childless_is_empty child :
  has_children child = false ->
  visible child = [] /\
  (forall base, top_ids base child = []) /\
  (forall base, container_edges_children container_edges (m_children child)
                                         base = []).
Proof.
  destruct child as [n c ps attrs hooks [|x l]]; [done | discriminate].
Qed.

Lemma not_transparent_not_sequential m :
  transparent m = false -> isinstance m [Sequential] = false.
Proof.
  unfold transparent, isinstance. simpl. intros H.
  apply orb_false_elim in H. destruct H as [-> _]. done.
Qed.

Lemma child_state_spec prefix child st :
  bridge_step child -> transparent child = false ->
  let st' := child_state Bridge.process_container prefix child st in
  Bridge.node_count st' = Bridge.node_count st + length (block child) /\
  map node_core (Bridge.nodes st')
    = map node_core (Bridge.nodes st)
      ++ bridge_nodes (Bridge.node_count st) (block child) /\
  Bridge.connections st'
    = Bridge.connections st
      ++ map pair_edge
           (container_edges (S (Bridge.node_count st)) child
            ++ first_and_chain (Bridge.node_count st)
                 (top_ids (S (Bridge.node_count st)) child)).
Proof.
  intros Hchild Htr. unfold child_state, block. rewrite Htr. cbv zeta.
  change (child :: visible child) with ([child] ++ visible child).
  rewrite bridge_nodes_app. simpl length.
  destruct (has_children child) eqn:Hch.
  - set (full := Bridge.full_name_of prefix (m_name child)).
    destruct (Hchild full (Bridge.add_node child full st).2)
      as (H1 & H2 & H3 & H4).
    cbn [Bridge.append_connections Bridge.node_count Bridge.nodes
         Bridge.connections].
    rewrite H1, H2, H3, H4. simpl.
    split; [lia |]. split.
    + rewrite map_app, <- app_assoc. simpl.
      unfold bridge_nodes at 2. simpl.
      by rewrite Nat.add_0_r, Nat.add_1_r.
    + by rewrite map_app, <- app_assoc.
  - destruct (childless_is_empty _ Hch) as (Hv & Ht & He).
    rewrite container_edges_unfold, He, Ht, Hv,
      (not_transparent_not_sequential _ Htr).
    simpl. rewrite !app_nil_r. split; [lia |]. split; [| done].
    rewrite map_app. simpl. unfold bridge_nodes. simpl.
    by rewrite Nat.add_0_r.
Qed.

Lemma bridge_children_spec cs :
  Forall bridge_step cs ->
  forall prefix acc st,
    let r := Bridge.process_children Bridge.process_container prefix cs acc st
    in
    r.1 = acc ++ top_ids_children top_ids cs (Bridge.node_count st) /\
    Bridge.node_count r.2
      = Bridge.node_count st + length (flat_map block cs) /\
    map node_core (Bridge.nodes r.2)
      = map node_core (Bridge.nodes st)
        ++ bridge_nodes (Bridge.node_count st) (flat_map block cs) /\
    Bridge.connections r.2
      = Bridge.connections st
        ++ map pair_edge
             (container_edges_children container_edges cs
                                       (Bridge.node_count st)).
Proof.
  induction 1 as [|child cs Hchild _ IH]; intros prefix acc st.
  - simpl. rewrite Nat.add_0_r, !app_nil_r. done.
  - cbv zeta. rewrite process_children_cons.
    cbn [top_ids_children container_edges_children flat_map].
    rewrite length_app, bridge_nodes_app, map_app.
    destruct (transparent child) eqn:Htr.
    + assert (block child = visible child) as ->
        by (unfold block; by rewrite Htr).
      set (full := Bridge.full_name_of prefix (m_name child)).
      destruct (Hchild full st) as (H1 & H2 & H3 & H4).
      set (r1 := Bridge.process_container child full st) in *.
      destruct (IH prefix (acc ++ r1.1) r1.2) as (K1 & K2 & K3 & K4).
      cbv zeta. rewrite K1, K2, K3, K4, H1, H2, H3, H4, <- !app_assoc.
      split; [done |]. split; [lia |]. done.
    + destruct (child_state_spec prefix child st Hchild Htr)
        as (H2 & H3 & H4).
      set (st1 := child_state Bridge.process_container prefix child st) in *.
      destruct (IH prefix (acc ++ [Bridge.node_count st]) st1)
        as (K1 & K2 & K3 & K4).
      rewrite K1, K2, K3, K4, H2, H3, H4, <- !app_assoc.
      split; [done |]. split; [lia |]. done.
Qed.

Lemma process_container_spec container : bridge_step container.
Proof.
  induction container as [container IH] using nn_module_forall_ind.
  intros prefix st. cbv zeta. rewrite process_container_unfold.
  destruct (bridge_children_spec _ IH prefix [] st) as (H1 & H2 & H3 & H4).
  rewrite visible_unfold, container_edges_unfold,
    (top_ids_unfold _ container).
  simpl in H1.
  destruct (isinstance container [Sequential]); cbv zeta;
    cbn [fst snd Bridge.append_connections Bridge.node_count Bridge.nodes
         Bridge.connections];
    rewrite ?H1, ?H2, ?H3, ?H4, ?chain_pairs_edges, ?map_app, ?app_nil_r,
      ?app_assoc; done.
Qed.

(** [analyze_model], seen from its result. *)
Lemma analyze_model_inv model :
  map node_core (Bridge.net_nodes (Bridge.analyze_model model))
    = bridge_nodes 0 (visible model) /\
  Bridge.net_connections (Bridge.analyze_model model)
    = map pair_edge (container_edges 0 model).
Proof.
  unfold Bridge.analyze_model.
  destruct (process_container_spec model "" (Bridge.mkState [] [] 0))
    as (_ & _ & H3 & H4).
  simpl in *. done.
Qed.

(** *** The shape of the lists the bridge builds *)

Lemma chain_pairs_elem l x y :
  (x, y) ∈ chain_pairs l -> x ∈ l /\ y ∈ l.
Proof.
  induction l as [|a l IH]; [by intros ?%elem_of_nil |].
  destruct l as [|b rest]; [by intros ?%elem_of_nil |].
  change (chain_pairs (a :: b :: rest))
    with ((a, b) :: chain_pairs (b :: rest)).
  intros [[= -> ->] | Hin]%elem_of_cons.
  - split; [by left | right; by left].
  - destruct (IH Hin). split; by right.
Qed.

Lemma sublist_seq_cases b n l :
  l `sublist_of` seq b (S n) ->
  l `sublist_of` seq (S b) n \/
  exists l', l = b :: l' /\ l' `sublist_of` seq (S b) n.
Proof.
  simpl. intros H. inversion H; subst; eauto.
Qed.

Lemma chain_pairs_within n :
  forall b l, l `sublist_of` seq b n -> edges_within b n (chain_pairs l).
Proof.
  induction n as [|n IH]; intros b l Hl.
  - apply sublist_nil_r in Hl. subst. by intros x y ?%elem_of_nil.
  - destruct (sublist_seq_cases _ _ _ Hl) as [Hs | (l' & -> & Hs)].
    + intros x y Hin. destruct (IH _ _ Hs x y Hin). lia.
    + destruct l' as [|c rest]; [by intros x y ?%elem_of_nil |].
      change (chain_pairs (b :: c :: rest))
        with ((b, c) :: chain_pairs (c :: rest)).
      intros x y [[= -> ->] | Hin]%elem_of_cons.
      * assert (c ∈ seq (S b) n) as Hc
          by (eapply elem_of_sublist; [by left | exact Hs]).
        apply elem_of_seq in Hc. lia.
      * destruct (IH _ _ Hs x y Hin). lia.
Qed.

Lemma chain_pairs_NoDup n :
  forall b l, l `sublist_of` seq b n -> NoDup (chain_pairs l).
Proof.
  induction n as [|n IH]; intros b l Hl.
  - apply sublist_nil_r in Hl. subst. constructor.
  - destruct (sublist_seq_cases _ _ _ Hl) as [Hs | (l' & -> & Hs)].
    + by apply (IH (S b)).
    + destruct l' as [|c rest]; [constructor |].
      change (chain_pairs (b :: c :: rest))
        with ((b, c) :: chain_pairs (c :: rest)).
      constructor; [| by apply (IH (S b))].
      intros Hin. destruct (chain_pairs_within _ _ _ Hs b c Hin). lia.
Qed.

Lemma edges_within_app b n E1 E2 :
  edges_within b n E1 -> edges_within b n E2 -> edges_within b n (E1 ++ E2).
Proof.
  intros H1 H2 x y [Hin | Hin]%elem_of_app; [by apply H1 | by apply H2].
Qed.

Lemma edges_within_mono b n b' n' E :
  edges_within b' n' E -> b <= b' -> b' + n' <= b + n -> edges_within b n E.
Proof. intros H Hb Hn x y Hin. destruct (H x y Hin). lia. Qed.

Lemma first_and_chain_within b n top :
  top `sublist_of` seq (S b) n ->
  edges_within b (S n) (first_and_chain b top).
Proof.
  intros Hs. destruct top as [|first rest]; [by intros x y ?%elem_of_nil |].
  unfold first_and_chain.
  intros x y [[= -> ->] | Hin]%elem_of_cons.
  - assert (first ∈ seq (S b) n) as Hc
      by (eapply elem_of_sublist; [by left | exact Hs]).
    apply elem_of_seq in Hc. lia.
  - destruct (chain_pairs_within _ _ _ Hs x y Hin). lia.
Qed.

(** The list a container returns is increasing, within the numbers of its
    nodes, and starts with the first of them; its connections lead forward
    within these numbers. *)
Definition bridge_shape (c : nn_module) : Prop :=
  forall b,
    top_ids b c `sublist_of` seq b (length (visible c)) /\
    edges_within b (length (visible c)) (container_edges b c) /\
    (visible c <> [] -> exists rest, top_ids b c = b :: rest).

Lemma bridge_shape_children cs :
  Forall bridge_shape cs ->
  forall b,
    top_ids_children top_ids cs b
      `sublist_of` seq b (length (flat_map block cs)) /\
    edges_within b (length (flat_map block cs))
                 (container_edges_children container_edges cs b) /\
    (flat_map block cs <> [] ->
     exists rest, top_ids_children top_ids cs b = b :: rest).
Proof.
  induction 1 as [|child cs Hchild _ IH]; intros b.
  - simpl. split; [constructor |]. split; [| done].
    by intros x y ?%elem_of_nil.
  - cbn [top_ids_children container_edges_children flat_map].
    rewrite length_app, seq_app.
    destruct (IH (b + length (block child))) as (IH1 & IH2 & IH3).
    destruct (transparent child) eqn:Htr.
    + assert (block child = visible child) as Hb
        by (unfold block; by rewrite Htr).
      rewrite Hb in *.
      destruct (Hchild b) as (H1 & H2 & H3).
      split; [by apply sublist_app |]. split.
      * apply edges_within_app; eapply edges_within_mono; eauto; lia.
      * intros Hne. destruct (visible child) as [|v vs] eqn:Hv.
        -- apply sublist_nil_r in H1. rewrite H1. simpl in *.
           rewrite Nat.add_0_r in *. by apply IH3.
        -- destruct H3 as [rest ->]; [done |]. eauto.
    + assert (block child = child :: visible child) as Hb
        by (unfold block; by rewrite Htr).
      rewrite Hb in *.
      destruct (Hchild (S b)) as (H1 & H2 & _).
      split; [| split].
      * apply sublist_app; [| done]. simpl. constructor. apply sublist_nil_l.
      * apply edges_within_app; [apply edges_within_app |].
        -- eapply edges_within_mono; [exact H2 | |]; simpl; lia.
        -- eapply edges_within_mono;
             [apply first_and_chain_within; exact H1 | |]; simpl; lia.
        -- eapply edges_within_mono; [exact IH2 | |]; simpl; lia.
      * intros _. simpl. eauto.
Qed.

Lemma bridge_shape_all c : bridge_shape c.
Proof.
  induction c as [c IH] using nn_module_forall_ind. intros b.
  rewrite visible_unfold, top_ids_unfold, container_edges_unfold.
  destruct (bridge_shape_children _ IH b) as (H1 & H2 & H3).
  split; [done |]. split; [| done].
  apply edges_within_app; [done |].
  destruct (isinstance c [Sequential]).
  - rewrite top_ids_unfold. by apply chain_pairs_within.
  - by intros x y ?%elem_of_nil.
Qed.

(** *** The connections of every node, and when they are distinct *)

(** What one child contributes to the list returned and to the
    connections. *)
Definition child_top (b : nat) (child : nn_module) : list nat :=
  if transparent child then top_ids b child else [b].

Definition child_edges (b : nat) (child : nn_module) : list (nat * nat) :=
  if transparent child then container_edges b child
  else container_edges (S b) child
       ++ first_and_chain b (top_ids (S b) child).

Lemma top_ids_children_cons child rest b :
  top_ids_children top_ids (child :: rest) b =
    child_top b child
    ++ top_ids_children top_ids rest (b + length (block child)).
Proof. reflexivity. Qed.

Lemma container_edges_children_cons child rest b :
  container_edges_children container_edges (child :: rest) b =
    child_edges b child
    ++ container_edges_children container_edges rest
         (b + length (block child)).
Proof. reflexivity. Qed.

Lemma child_shape child b :
  child_top b child `sublist_of` seq b (length (block child)) /\
  edges_within b (length (block child)) (child_edges b child).
Proof.
  assert (Forall bridge_shape [child]) as Hshape
    by (constructor; [apply bridge_shape_all | constructor]).
  destruct (bridge_shape_children [child] Hshape b) as (H1 & H2 & _).
  rewrite top_ids_children_cons in H1.
  rewrite container_edges_children_cons in H2.
  simpl in H1, H2. rewrite !app_nil_r in H1, H2. done.
Qed.

(** Every module that got the node number [b + i] has its connection to the
    first node below it, and the chain of the list its children returned,
    among the connections. *)
Definition bridge_links (c : nn_module) : Prop :=
  forall b i m e,
    visible c !! i = Some m ->
    e ∈ first_and_chain (b + i) (top_ids (S (b + i)) m) ->
    e ∈ container_edges b c.

Lemma bridge_links_children cs :
  Forall bridge_links cs ->
  forall b i m e,
    flat_map block cs !! i = Some m ->
    e ∈ first_and_chain (b + i) (top_ids (S (b + i)) m) ->
    e ∈ container_edges_children container_edges cs b.
Proof.
  induction 1 as [|child cs Hchild _ IH]; intros b i m e Hi He.
  - simpl in Hi. by rewrite lookup_nil in Hi.
  - rewrite container_edges_children_cons. apply elem_of_app.
    cbn [flat_map] in Hi. apply lookup_app_Some in Hi.
    destruct Hi as [Hi | [Hle Hi]].
    + left. unfold block in Hi. unfold child_edges.
      destruct (transparent child).
      * by apply (Hchild b i m).
      * apply elem_of_app. destruct i as [|i]; simpl in Hi.
        -- injection Hi as ->. rewrite Nat.add_0_r in He. by right.
        -- left. apply (Hchild (S b) i m); [done |].
           by replace (S b + i) with (b + S i) by lia.
    + right. apply (IH (b + length (block child))
                       (i - length (block child)) m); [done |].
      by replace (b + length (block child) + (i - length (block child)))
        with (b + i) by lia.
Qed.

Lemma bridge_links_all c : bridge_links c.
Proof.
  induction c as [c IH] using nn_module_forall_ind. intros b i m e Hi He.
  rewrite container_edges_unfold. apply elem_of_app. left.
  rewrite visible_unfold in Hi. by apply (bridge_links_children _ IH b i m).
Qed.

(** Without a Sequential container in the hierarchy, its connections are
    distinct and none leads into the list it returns. *)
Definition bridge_distinct (c : nn_module) : Prop :=
  sequential_free c = true ->
  forall b,
    NoDup (container_edges b c) /\
    forall x y, (x, y) ∈ container_edges b c -> y ∉ top_ids b c.

Lemma first_and_chain_NoDup b n top :
  top `sublist_of` seq (S b) n -> NoDup (first_and_chain b top).
Proof.
  intros Hs. destruct top as [|first rest]; [constructor |].
  unfold first_and_chain. constructor; [| by eapply chain_pairs_NoDup].
  intros Hin. destruct (chain_pairs_within _ _ _ Hs _ _ Hin). lia.
Qed.

Lemma first_and_chain_targets b top x y :
  (x, y) ∈ first_and_chain b top -> x = b \/ y ∈ top.
Proof.
  destruct top as [|first rest]; [by intros ?%elem_of_nil |].
  unfold first_and_chain. intros [[= -> ->] | Hin]%elem_of_cons.
  - by left.
  - right. by apply chain_pairs_elem in Hin as [_ ?].
Qed.

Lemma child_distinct child b :
  bridge_distinct child -> sequential_free child = true ->
  NoDup (child_edges b child) /\
  forall x y, (x, y) ∈ child_edges b child -> y ∉ child_top b child.
Proof.
  intros Hd Hsf. unfold child_edges, child_top.
  destruct (transparent child) eqn:Htr; [by apply Hd |].
  destruct (Hd Hsf (S b)) as [Hnd Htargets].
  destruct (bridge_shape_all child (S b)) as (Htop & Hin & _).
  split.
  - apply NoDup_app. split; [done |]. split.
    + intros [x y] Hxy Hfc. destruct (Hin x y Hxy) as (Hx & _).
      apply first_and_chain_targets in Hfc as [-> | Hy]; [lia |].
      by apply (Htargets x y).
    + by eapply first_and_chain_NoDup.
  - intros x y Hxy Hy. apply list_elem_of_singleton in Hy. subst y.
    apply elem_of_app in Hxy. destruct Hxy as [Hxy | Hxy].
    + destruct (Hin x b Hxy). lia.
    + destruct (first_and_chain_within _ _ _ Htop x b Hxy). lia.
Qed.

Lemma bridge_distinct_children cs :
  Forall bridge_distinct cs ->
  forallb sequential_free cs = true ->
  forall b,
    NoDup (container_edges_children container_edges cs b) /\
    forall x y,
      (x, y) ∈ container_edges_children container_edges cs b ->
      y ∉ top_ids_children top_ids cs b.
Proof.
  induction 1 as [|child cs Hchild Hcs IH]; intros Hsf b.
  - split; [constructor | by intros x y ?%elem_of_nil].
  - simpl in Hsf. apply andb_prop in Hsf. destruct Hsf as [Hsf1 Hsf2].
    rewrite container_edges_children_cons, top_ids_children_cons.
    destruct (child_distinct child b Hchild Hsf1) as [Hnd1 Ht1].
    destruct (IH Hsf2 (b + length (block child))) as [Hnd2 Ht2].
    destruct (child_shape child b) as [Htop1 Hin1].
    assert (Forall bridge_shape cs) as Hshape
      by (apply Forall_forall; intros; apply bridge_shape_all).
    destruct (bridge_shape_children cs Hshape (b + length (block child)))
      as (Htop2 & Hin2 & _).
    split.
    + apply NoDup_app. split; [done |]. split; [| done].
      intros [x y] H1 H2.
      destruct (Hin1 x y H1), (Hin2 x y H2). lia.
    + intros x y Hxy Hy. apply elem_of_app in Hxy, Hy.
      destruct Hxy as [Hxy | Hxy], Hy as [Hy | Hy].
      * by apply (Ht1 x y).
      * destruct (Hin1 x y Hxy) as (_ & _ & Hlt).
        apply (elem_of_sublist _ _ _ Hy) in Htop2.
        apply elem_of_seq in Htop2. lia.
      * destruct (Hin2 x y Hxy) as (Hge & Hlt & _).
        apply (elem_of_sublist _ _ _ Hy) in Htop1.
        apply elem_of_seq in Htop1. lia.
      * by apply (Ht2 x y).
Qed.

Lemma sequential_free_unfold c :
  sequential_free c =
    negb (isinstance c [Sequential]) && forallb sequential_free (m_children c).
Proof. by destruct c. Qed.

Lemma bridge_distinct_all c : bridge_distinct c.
Proof.
  induction c as [c IH] using nn_module_forall_ind. intros Hsf b.
  rewrite sequential_free_unfold in Hsf.
  apply andb_prop in Hsf. destruct Hsf as [Hseq Hsf].
  apply negb_true_iff in Hseq.
  rewrite container_edges_unfold, top_ids_unfold, Hseq, app_nil_r.
  by apply bridge_distinct_children.
Qed.

(** The connections of a container are distinct when no Sequential
    container occurs below it; the container itself may be one. *)
Lemma container_edges_NoDup c b :
  forallb sequential_free (m_children c) = true ->
  NoDup (container_edges b c).
Proof.
  intros Hsf. rewrite container_edges_unfold.
  assert (Forall bridge_distinct (m_children c)) as Hd
    by (apply Forall_forall; intros; apply bridge_distinct_all).
  destruct (bridge_distinct_children _ Hd Hsf b) as [Hnd Ht].
  destruct (bridge_shape_all c b) as (Htop & _ & _).
  apply NoDup_app. split; [done |]. split.
  - intros [x y] Hxy Hch. destruct (isinstance c [Sequential]).
    + apply chain_pairs_elem in Hch as [_ Hy].
      rewrite top_ids_unfold in Hy. by apply (Ht x y).
    + by apply elem_of_nil in Hch.
  - destruct (isinstance c [Sequential]); [| constructor].
    by eapply chain_pairs_NoDup.
Qed.

(** ** Node ids and the endpoints of connections *)

Lemma layer_id_of_inj : Inj (=) (=) layer_id_of.
Proof.
  intros i j H. unfold layer_id_of in H.
  apply String.app_inj in H. by apply pretty_nat_inj in H.
Qed.

Lemma well_formed_from_pairs (fmt : nat -> string) n E ids edges :
  Inj (=) (=) fmt ->
  ids = map fmt (seq 0 n) ->
  edges = map (fun e : nat * nat => (fmt e.1, fmt e.2)) E ->
  (forall x y, (x, y) ∈ E -> x < n /\ y < n) ->
  well_formed_ids fmt ids edges.
Proof.
  intros Hinj -> -> Hbound. unfold well_formed_ids.
  rewrite length_map, length_seq. split; [done |]. split.
  - apply (NoDup_fmap_2 fmt). apply NoDup_seq.
  - intros s t Hin. apply list_elem_of_fmap in Hin.
    destruct Hin as ([x y] & [= -> ->] & Hin). simpl.
    destruct (Hbound x y Hin).
    split; apply list_elem_of_fmap; eexists; (split; [done |]);
      apply elem_of_seq; lia.
Qed.

Lemma bridge_nodes_ids base ms :
  map (fun c : string * string * gmap string value => c.1.1)
      (bridge_nodes base ms)
    = map pretty (seq base (length ms)).
Proof.
  revert base. induction ms as [|m ms IH]; intros base; [done |].
  change (m :: ms) with ([m] ++ ms). rewrite bridge_nodes_app, map_app.
  simpl length. rewrite IH. unfold bridge_nodes. simpl.
  by rewrite Nat.add_0_r, Nat.add_1_r.
Qed.

(** C6. In the network of every conversion the i-th node has the id that
    numbers it ("layer_i"; the bridge uses the decimal "i"), so the ids are
    strings, increase with the order of assignment and occur once, and the
    source and the target of every connection are ids of nodes of the
    network. *)
Theorem node_ids_and_endpoints
    (entries : list layer_info) (weights : gmap string tensor)
    (model : nn_module) :
  (forall net,
     PyConverter.convert_pytorch_model
       (PyConverter.mkModelData (mkStructure entries) weights) = Ok net \/
     ServiceMain.import_pytorch_model (mkStructure entries) weights = Ok net \/
     (ServiceConverter.convert_pytorch_model model).2 = Ok net ->
     well_formed_ids layer_id_of (map node_id (net_nodes net))
                     (map endpoints (net_connections net))) /\
  well_formed_ids pretty
    (map Bridge.id (Bridge.net_nodes (Bridge.analyze_model model)))
    (map Bridge.endpoints (Bridge.net_connections (Bridge.analyze_model model))).
Proof.
  split.
  - intros net [H | [H | H]].
    + destruct (descriptor_shape _ _ _ (or_introl H)) as (Hids & _ & Hends).
      apply (well_formed_from_pairs _ (length entries)
               (map (fun i => (i, S i)) (seq 0 (length entries - 1))));
        [apply layer_id_of_inj | done | by rewrite map_map |].
      intros x y Hin. apply list_elem_of_fmap in Hin.
      destruct Hin as (i & [= -> ->] & Hi). apply elem_of_seq in Hi. lia.
    + destruct (descriptor_shape _ _ _ (or_intror H)) as (Hids & _ & Hends).
      apply (well_formed_from_pairs _ (length entries)
               (map (fun i => (i, S i)) (seq 0 (length entries - 1))));
        [apply layer_id_of_inj | done | by rewrite map_map |].
      intros x y Hin. apply list_elem_of_fmap in Hin.
      destruct Hin as (i & [= -> ->] & Hi). apply elem_of_seq in Hi. lia.
    + apply live_convert_inv in H. destruct H as (_ & Hnodes & Hedges).
      apply (well_formed_from_pairs _ (length (modules model))
               (live_edges 0 None model));
        [apply layer_id_of_inj | by rewrite Hnodes, live_nodes_ids | done |].
      intros x y Hin. apply live_edges_bounds in Hin.
      destruct Hin as [[Hp | Hx] Hy]; [done | lia].
  - destruct (analyze_model_inv model) as [Hnodes Hedges].
    apply (well_formed_from_pairs _ (length (visible model))
             (container_edges 0 model)).
    + apply pretty_nat_inj.
    + rewrite <- bridge_nodes_ids, <- Hnodes, map_map. done.
    + rewrite Hedges, map_map. done.
    + intros x y Hin.
      destruct (bridge_shape_all model 0) as (_ & Hwithin & _).
      destruct (Hwithin x y Hin). lia.
Qed.

(** ** The structure of the two live traversals *)



Lemma first_edge_of_node i m :
  visible m <> [] ->
  (i, S i) ∈ first_and_chain i (top_ids (S i) m).
Proof.
  intros Hne. destruct (bridge_shape_all m (S i)) as (_ & _ & Hfirst).
  destruct (Hfirst Hne) as [rest ->]. by left.
Qed.




(** ** Sequential containers *)

Lemma top_ids_children_plain cs :
  Forall (fun child => transparent child = false) cs ->
  forall b i child,
    cs !! i = Some child ->
    top_ids_children top_ids cs b !! i
      = Some (b + length (flat_map block (take i cs))).
Proof.
  induction 1 as [|c cs Hc _ IH]; intros b i child Hi; [done |].
  rewrite top_ids_children_cons. unfold child_top. rewrite Hc.
  destruct i as [|i]; simpl in *.
  - by rewrite Nat.add_0_r.
  - rewrite (IH _ _ _ Hi), length_app. f_equal. lia.
Qed.

Lemma top_ids_children_length cs :
  Forall (fun child => transparent child = false) cs ->
  forall b, length (top_ids_children top_ids cs b) = length cs.
Proof.
  induction 1 as [|c cs Hc _ IH]; intros b; [done |].
  rewrite top_ids_children_cons. unfold child_top. rewrite Hc.
  simpl. by rewrite IH.
Qed.

Lemma visible_child_lookup cs i child :
  transparent child = false ->
  cs !! i = Some child ->
  flat_map block cs !! length (flat_map block (take i cs)) = Some child.
Proof.
  intros Htr Hi.
  assert (flat_map block cs
          = flat_map block (take i cs ++ child :: drop (S i) cs)) as ->
    by (by rewrite (take_drop_middle cs i child Hi)).
  rewrite flat_map_app. cbn [flat_map].
  rewrite lookup_app_r by lia. rewrite Nat.sub_diag.
  unfold block at 1. by rewrite Htr.
Qed.

Lemma pair_edge_endpoints E :
  map Bridge.endpoints (map pair_edge E)
    = map (fun e : nat * nat => (pretty e.1, pretty e.2)) E.
Proof. by rewrite map_map. Qed.

Lemma pretty_pair_inj :
  Inj (=) (=) (fun e : nat * nat => (pretty e.1 : string, pretty e.2 : string)).
Proof.
  intros [a b] [c d] [= H1 H2].
  apply pretty_nat_inj in H1, H2. by subst.
Qed.

(** C2, as the code has it. When [process_container] handles a Sequential
    container whose children all get a node (none of them is a Sequential,
    ModuleList or ModuleDict), it returns the numbers of the nodes of the
    children, in order, and the connections it adds contain the chain of
    these nodes and, for every child with a node below it, the connection
    from the child to the node after it. When no Sequential occurs below
    the container, no two of the added connections have the same source and
    target. *)
Theorem sequential_container_chaining
    (container : nn_module) (prefix : string) (st : Bridge.state) :
  isinstance container [Sequential] = true ->
  Forall (fun child => transparent child = false) (m_children container) ->
  let r := Bridge.process_container container prefix st in
  exists new,
    Bridge.connections r.2 = Bridge.connections st ++ new /\
    length r.1 = length (m_children container) /\
    (forall i child,
       m_children container !! i = Some child ->
       exists node_id,
         r.1 !! i = Some node_id /\
         node_id = Bridge.node_count st
                   + length (flat_map block (take i (m_children container))) /\
         (visible child <> [] -> Bridge.edge node_id (S node_id) ∈ new)) /\
    (forall a b, (a, b) ∈ chain_pairs r.1 -> Bridge.edge a b ∈ new) /\
    (forallb sequential_free (m_children container) = true ->
     NoDup (map Bridge.endpoints new)).
Proof.
  intros Hseq Hplain r.
  destruct (process_container_spec container prefix st) as (H1 & _ & _ & H4).
  fold r in H1, H4.
  set (base := Bridge.node_count st) in *.
  exists (map pair_edge (container_edges base container)).
  split; [done |]. rewrite H1, top_ids_unfold.
  split; [by apply top_ids_children_length |].
  split; [| split].
  - intros i child Hi. eexists. split; [| split; [reflexivity |]].
    + by apply (top_ids_children_plain _ Hplain _ _ child).
    + intros Hne.
      set (k := length (flat_map block (take i (m_children container)))).
      apply (list_elem_of_fmap_2 pair_edge _ (base + k, S (base + k))).
      apply (bridge_links_all container base k child).
      * rewrite visible_unfold. apply visible_child_lookup; [| done].
        by eapply Forall_lookup_1 in Hplain.
      * by apply first_edge_of_node.
  - intros a b Hab. apply (list_elem_of_fmap_2 pair_edge _ (a, b)).
    rewrite container_edges_unfold, Hseq, top_ids_unfold.
    apply elem_of_app. by right.
  - intros Hfree. rewrite pair_edge_endpoints.
    apply (NoDup_fmap_2 _ (Inj0 := pretty_pair_inj)).
    by apply container_edges_NoDup.
Qed.

Lemma sequential_container_chaining_witness :
  let r := Bridge.process_container sequential_of_blocks ""
             (Bridge.mkState [] [] 0) in
  exists new,
    Bridge.connections r.2 = [] ++ new /\
    length r.1 = length (m_children sequential_of_blocks) /\
    (forall i child,
       m_children sequential_of_blocks !! i = Some child ->
       exists node_id,
         r.1 !! i = Some node_id /\
         node_id = 0 + length (flat_map block
                                 (take i (m_children sequential_of_blocks))) /\
         (visible child <> [] -> Bridge.edge node_id (S node_id) ∈ new)) /\
    (forall a b, (a, b) ∈ chain_pairs r.1 -> Bridge.edge a b ∈ new) /\
    (forallb sequential_free (m_children sequential_of_blocks) = true ->
     NoDup (map Bridge.endpoints new)).
Proof.
  apply (sequential_container_chaining sequential_of_blocks ""
           (Bridge.mkState [] [] 0)).
  - reflexivity.
  - repeat constructor.
Defined.

(** C2 as stated fails. In [sequential_of_sequential] the child of the
    Sequential container is a Sequential itself: it gets no node, so there
    is no connection from it to its first child, and its two layers are
    chained twice. In [sequential_nested] the child is a block that gets a
    node and holds a Sequential: that one chains its two layers, and the
    block that holds it chains them again. *)
Lemma sequential_container_counterexample :
  (isinstance sequential_of_sequential [Sequential] = true /\
   Forall (fun child => has_children child = true)
          (m_children sequential_of_sequential) /\
   map Bridge.type
       (Bridge.net_nodes (Bridge.analyze_model sequential_of_sequential))
     = ["Linear"; "ReLU"] /\
   map Bridge.endpoints
       (Bridge.net_connections (Bridge.analyze_model sequential_of_sequential))
     = [("0", "1"); ("0", "1")]) /\
  (isinstance sequential_nested [Sequential] = true /\
   Forall (fun child => has_children child = true)
          (m_children sequential_nested) /\
   map Bridge.type (Bridge.net_nodes (Bridge.analyze_model sequential_nested))
     = ["Block"; "Linear"; "ReLU"] /\
   map Bridge.endpoints
       (Bridge.net_connections (Bridge.analyze_model sequential_nested))
     = [("1", "2"); ("0", "1"); ("1", "2")] /\
   ~ NoDup (map Bridge.endpoints
              (Bridge.net_connections
                 (Bridge.analyze_model sequential_nested)))).
Proof.
  split.
  - split; [reflexivity |]. split; [repeat constructor |].
    split; vm_compute; reflexivity.
  - split; [reflexivity |]. split; [repeat constructor |].
    split; [vm_compute; reflexivity |].
    assert (map Bridge.endpoints
              (Bridge.net_connections (Bridge.analyze_model sequential_nested))
            = [("1", "2"); ("0", "1"); ("1", "2")]) as ->
      by (vm_compute; reflexivity).
    split; [done |]. intros Hnd.
    apply NoDup_cons in Hnd. destruct Hnd as [Hnotin _].
    apply Hnotin. right. by left.
Qed.

(** * Further properties of the descriptor-driven conversions *)

(** X1. python_service/main.py returns a network only for a descriptor in
    which every entry has a type and every entry after the first has a
    name: an entry without the key 'type', or (after the first) without the
    key 'name', makes the whole conversion raise. *)
Theorem main_conversion_requires
    (entries : list layer_info) (weights : gmap string tensor)
    (net : NeuroscopeNetwork) :
  ServiceMain.import_pytorch_model (mkStructure entries) weights = Ok net ->
  main_well_formed entries = true.
Proof.
  unfold ServiceMain.import_pytorch_model, main_well_formed. simpl.
  intros H. apply rbind_Ok in H. destruct H as (r & Hr & _).
  pose proof (main_process_layers_is_ok weights entries 0 None [] []) as Hok.
  rewrite Hr in Hok. destruct Hok as [-> ->]. done.
Qed.

Lemma main_conversion_requires_witness :
  main_well_formed test_entries = true.
Proof.
  apply (main_conversion_requires test_entries test_weights test_network_main).
  vm_compute. reflexivity.
Defined.

(** The nodes a descriptor loop adds, one per entry: [new_node i li n] says
    what the node [n] of the entry [li] with the number [i] is. *)
Definition adds_nodes (new_node : nat -> layer_info -> NetworkNode -> Prop)
    (i : nat) (entries : list layer_info)
    (nodes nodes' : list NetworkNode) : Prop :=
  exists new, nodes' = nodes ++ new /\ length new = length entries /\
    forall k li, entries !! k = Some li ->
      exists n, new !! k = Some n /\ new_node (i + k) li n.

Lemma adds_nodes_nil new_node i nodes : adds_nodes new_node i [] nodes nodes.
Proof.
  exists []. split; [by rewrite app_nil_r |]. split; [done |].
  intros k li Hk. by rewrite lookup_nil in Hk.
Qed.

Lemma adds_nodes_cons new_node i li rest nodes n nodes' :
  new_node i li n ->
  adds_nodes new_node (S i) rest (nodes ++ [n]) nodes' ->
  adds_nodes new_node i (li :: rest) nodes nodes'.
Proof.
  intros Hn (new & -> & Hlen & Hnew).
  exists (n :: new). split; [by rewrite <- app_assoc |].
  split; [simpl; by rewrite Hlen |].
  intros [|k] li' Hk; simpl in Hk.
  - injection Hk as <-. exists n. by rewrite Nat.add_0_r.
  - destruct (Hnew k li' Hk) as (n' & Hn' & Hp).
    exists n'. by replace (i + S k) with (S i + k) by lia.
Qed.

Definition main_node (i : nat) (li : layer_info) (n : NetworkNode) : Prop :=
  exists ty, li_type li = Some ty /\ n = mkNode (layer_id_of i) ty (li_dict li).

Definition py_node (i : nat) (li : layer_info) (n : NetworkNode) : Prop :=
  exists ty layer,
    li_type li = Some ty /\
    PyConverter.create_layer_from_info li = Ok layer /\
    PyConverter.get_layer_properties layer li = Ok (node_properties n) /\
    node_id n = layer_id_of i /\ node_type n = ty.

Lemma main_process_layers_nodes w entries :
  forall i prev nodes conns nodes' conns',
    ServiceMain.process_layers w i entries prev nodes conns
      = Ok (nodes', conns') ->
    adds_nodes main_node i entries nodes nodes'.
Proof.
  induction entries as [|li rest IH]; intros i prev nodes conns nodes' conns' H.
  - simpl in H. injection H as <- <-. apply adds_nodes_nil.
  - simpl in H. apply rbind_Ok in H. destruct H as (ty & Hty & H).
    apply rbind_Ok in H. destruct H as (conns1 & _ & H).
    apply IH in H. eapply adds_nodes_cons; [| exact H].
    exists ty. split; [| done].
    unfold li_type_item in Hty. by destruct (li_type li) as [?|]; simplify_eq.
Qed.

Lemma py_process_layers_nodes sd entries :
  forall i prev nodes conns nodes' conns',
    PyConverter.process_layers sd i entries prev nodes conns
      = Ok (nodes', conns') ->
    adds_nodes py_node i entries nodes nodes'.
Proof.
  induction entries as [|li rest IH]; intros i prev nodes conns nodes' conns' H.
  - simpl in H. injection H as <- <-. apply adds_nodes_nil.
  - simpl in H. apply rbind_Ok in H. destruct H as (layer & Hlayer & H).
    apply rbind_Ok in H. destruct H as (props & Hprops & H).
    apply rbind_Ok in H. destruct H as (ty & Hty & H).
    apply rbind_Ok in H. destruct H as (conns1 & _ & H).
    apply IH in H. eapply adds_nodes_cons; [| exact H].
    exists ty, layer. simpl. repeat split; try done.
    unfold li_type_item in Hty. by destruct (li_type li) as [?|]; simplify_eq.
Qed.

Lemma main_convert_nodes entries w net :
  ServiceMain.import_pytorch_model (mkStructure entries) w = Ok net ->
  adds_nodes main_node 0 entries [] (net_nodes net).
Proof.
  unfold ServiceMain.import_pytorch_model. simpl. intros H.
  apply rbind_Ok in H. destruct H as ([nodes' conns'] & Hloop & H).
  injection H as <-. simpl. by apply main_process_layers_nodes in Hloop.
Qed.

Lemma py_convert_nodes entries sd net :
  PyConverter.convert_pytorch_model
    (PyConverter.mkModelData (mkStructure entries) sd) = Ok net ->
  adds_nodes py_node 0 entries [] (net_nodes net).
Proof.
  unfold PyConverter.convert_pytorch_model. simpl. intros H.
  apply rbind_Ok in H. destruct H as ([nodes' conns'] & Hloop & H).
  injection H as <-. simpl. by apply py_process_layers_nodes in Hloop.
Qed.

Lemma li_dict_field li k :
  k <> "type" -> k <> "name" -> li_dict li !! k = li_fields li !! k.
Proof.
  intros Ht Hn. unfold li_dict.
  destruct (li_type li), (li_name li);
    by rewrite ?lookup_insert_ne by done.
Qed.

(** X2. python_service/main.py hands the descriptor through: the node of the
    entry number i has the id layer_i, the type of the entry, and the entry
    itself as its properties: its type, its name, and every other field
    with the value the descriptor gave it. *)
Theorem main_node_is_descriptor_entry
    (entries : list layer_info) (weights : gmap string tensor)
    (net : NeuroscopeNetwork) (i : nat) (li : layer_info) :
  ServiceMain.import_pytorch_model (mkStructure entries) weights = Ok net ->
  entries !! i = Some li ->
  exists ty n,
    li_type li = Some ty /\
    net_nodes net !! i = Some n /\
    node_id n = layer_id_of i /\ node_type n = ty /\
    node_properties n !! "type" = Some (VStr ty) /\
    (forall name, li_name li = Some name ->
                  node_properties n !! "name" = Some (VStr name)) /\
    forall k, k <> "type" -> k <> "name" ->
              node_properties n !! k = li_fields li !! k.
Proof.
  intros H Hi. apply main_convert_nodes in H.
  destruct H as (new & Hnew & _ & Hall). simpl in Hnew. subst new.
  destruct (Hall i li Hi) as (n & Hn & ty & Hty & ->).
  exists ty, (mkNode (layer_id_of i) ty (li_dict li)). simpl.
  repeat split; try done.
  - unfold li_dict. rewrite Hty. apply lookup_insert_eq.
  - intros name Hname. unfold li_dict. rewrite Hty, Hname.
    rewrite lookup_insert_ne by discriminate. apply lookup_insert_eq.
  - apply li_dict_field.
Qed.

Lemma main_node_is_descriptor_entry_witness :
  exists ty n,
    li_type linear_entry = Some ty /\
    net_nodes (unwrap (ServiceMain.import_pytorch_model
                         (mkStructure [linear_entry]) ∅)) !! 0 = Some n /\
    node_id n = layer_id_of 0 /\ node_type n = ty /\
    node_properties n !! "type" = Some (VStr ty) /\
    (forall name, li_name linear_entry = Some name ->
                  node_properties n !! "name" = Some (VStr name)) /\
    forall k, k <> "type" -> k <> "name" ->
              node_properties n !! k = li_fields linear_entry !! k.
Proof.
  apply (main_node_is_descriptor_entry [linear_entry] ∅
           (unwrap (ServiceMain.import_pytorch_model
                      (mkStructure [linear_entry]) ∅)) 0 linear_entry).
  - vm_compute. reflexivity.
  - reflexivity.
Defined.

Lemma create_layer_supported li layer :
  PyConverter.create_layer_from_info li = Ok layer ->
  exists ty, li_type li = Some ty /\ PyConverter.supported ty = true.
Proof.
  intros H. destruct (li_type li) as [ty|] eqn:Hty.
  - exists ty. split; [done |].
    destruct (PyConverter.supported ty) eqn:Hs; [done |].
    by rewrite (create_layer_unsupported li ty Hty Hs) in H.
  - unfold PyConverter.create_layer_from_info, li_type_item in H.
    by rewrite Hty in H.
Qed.

(** X3. src/python/pytorch_converter.py returns a network only for a
    descriptor in which every entry has a type of the catalogue and every
    entry after the first has a name: an entry without a type, with a type
    outside the catalogue, or (after the first) without a name makes the
    whole conversion raise. *)
Theorem py_conversion_requires
    (entries : list layer_info) (weights : gmap string tensor)
    (net : NeuroscopeNetwork) :
  PyConverter.convert_pytorch_model
    (PyConverter.mkModelData (mkStructure entries) weights) = Ok net ->
  Forall (fun li => exists ty, li_type li = Some ty /\
                               PyConverter.supported ty = true) entries /\
  Forall (fun li => has_name li = true) (tail entries).
Proof.
  intros H. split.
  - apply py_convert_nodes in H. destruct H as (new & _ & _ & Hall).
    apply Forall_lookup. intros k li Hk.
    destruct (Hall k li Hk) as (n & _ & ty & layer & _ & Hc & _).
    by apply create_layer_supported in Hc.
  - apply py_convert_inv in H. destruct H as [_ H].
    destruct entries as [|li0 rest]; [constructor |].
    destruct H as (n & _ & _ & new & _ & _ & Hall). simpl.
    apply Forall_lookup. intros k li Hk.
    destruct (Hall k li Hk) as (c & _ & _ & _ & _ & name & Hname & _).
    unfold has_name. by rewrite Hname.
Qed.

Lemma py_conversion_requires_witness :
  Forall (fun li => exists ty, li_type li = Some ty /\
                               PyConverter.supported ty = true)
         test_entries /\
  Forall (fun li => has_name li = true) (tail test_entries).
Proof.
  apply (py_conversion_requires test_entries test_weights test_network_py).
  vm_compute. reflexivity.
Defined.

Lemma LayerProperties_dict_inv raw props :
  PyConverter.LayerProperties_dict raw = Ok props ->
  props = PyConverter.exclude_none raw.
Proof.
  unfold PyConverter.LayerProperties_dict.
  destruct (PyConverter.first_invalid _ _); [done |]. by intros [= <-].
Qed.

Lemma exclude_none_lookup raw k v :
  PyConverter.exclude_none raw !! k = Some v <->
  raw !! k = Some v /\ v <> VNone.
Proof.
  unfold PyConverter.exclude_none. rewrite map_lookup_filter_Some. simpl.
  split; intros [? Hv]; (split; [done |]); by destruct v.
Qed.

(** The properties before validation always hold the type of the entry and
    the parameter count of the layer. *)
Lemma get_layer_properties_inv layer li props :
  PyConverter.get_layer_properties layer li = Ok props ->
  exists ty raw,
    li_type li = Some ty /\
    props = PyConverter.exclude_none raw /\
    raw !! "type" = Some (VStr ty) /\
    raw !! "trainable_parameters"
      = Some (VInt (PyConverter.l_trainable layer)).
Proof.
  unfold PyConverter.get_layer_properties. intros H.
  apply rbind_Ok in H. destruct H as (ty & Hty & H).
  apply rbind_Ok in H. destruct H as (raw & Hraw & H).
  apply LayerProperties_dict_inv in H. exists ty, raw.
  split.
  { unfold li_type_item in Hty. by destruct (li_type li); simplify_eq. }
  split; [done |].
  set (base := PyConverter.update
                 [("type", VStr ty);
                  ("trainable_parameters",
                     VInt (PyConverter.l_trainable layer))] ∅) in *.
  assert (base !! "type" = Some (VStr ty) /\
          base !! "trainable_parameters"
            = Some (VInt (PyConverter.l_trainable layer))) as [Hb1 Hb2].
  { subst base. unfold PyConverter.update. simpl. split.
    - rewrite lookup_insert_ne by done. apply lookup_insert_eq.
    - apply lookup_insert_eq. }
  clearbody base.
  destruct (PyConverter.l_class layer); simpl in Hraw;
    repeat (apply rbind_Ok in Hraw;
            let a := fresh "a" in let Ha := fresh "Ha" in
            destruct Hraw as (a & Ha & Hraw));
    injection Hraw as <-;
    unfold PyConverter.update; simpl;
    rewrite ?lookup_insert_ne by done; done.
Qed.

(** X4. Every node of src/python/pytorch_converter.py carries its own type
    and an integer trainable_parameters among its properties, and no
    property of a node is None. *)
Theorem py_node_properties
    (entries : list layer_info) (weights : gmap string tensor)
    (net : NeuroscopeNetwork) (n : NetworkNode) :
  PyConverter.convert_pytorch_model
    (PyConverter.mkModelData (mkStructure entries) weights) = Ok net ->
  n ∈ net_nodes net ->
  node_properties n !! "type" = Some (VStr (node_type n)) /\
  (exists count, node_properties n !! "trainable_parameters"
                   = Some (VInt count)) /\
  forall k v, node_properties n !! k = Some v -> v <> VNone.
Proof.
  intros H Hn. apply py_convert_nodes in H.
  destruct H as (new & Hnew & Hlen & Hall). simpl in Hnew. subst new.
  apply list_elem_of_lookup in Hn. destruct Hn as [k Hk].
  assert (is_Some (entries !! k)) as [li Hli].
  { apply lookup_lt_is_Some. rewrite <- Hlen. by eapply lookup_lt_Some. }
  destruct (Hall k li Hli) as (n' & Hn' & ty & layer & Hty & _ & Hp & _ & Ht).
  rewrite Hk in Hn'. injection Hn' as <-.
  destruct (get_layer_properties_inv _ _ _ Hp)
    as (ty' & raw & Hty' & -> & Hraw1 & Hraw2).
  rewrite Hty in Hty'. injection Hty' as <-. rewrite Ht.
  split; [by apply exclude_none_lookup |].
  split; [eexists; by apply exclude_none_lookup |].
  intros key v Hv. by apply exclude_none_lookup in Hv as [_ ?].
Qed.

Lemma py_node_properties_witness :
  exists n,
    net_nodes test_network_py !! 0 = Some n /\
    node_properties n !! "type" = Some (VStr (node_type n)) /\
    (exists count, node_properties n !! "trainable_parameters"
                     = Some (VInt count)) /\
    forall k v, node_properties n !! k = Some v -> v <> VNone.
Proof.
  destruct (net_nodes test_network_py !! 0) as [n|] eqn:Hn;
    [| vm_compute in Hn; discriminate Hn].
  exists n. split; [reflexivity |].
  apply (py_node_properties test_entries test_weights test_network_py n).
  - vm_compute. reflexivity.
  - apply list_elem_of_lookup. exists 0. exact Hn.
Defined.

(** X5. For a descriptor entry of type "Linear" with the widths i and o,
    whenever src/python/pytorch_converter.py builds the temporary layer, the
    properties of the node are exactly its type, in_features i,
    out_features o, has_bias true and the o*i + o parameters of such a
    layer. *)
Theorem py_linear_entry_properties
    (li : layer_info) (i o : Z) (layer : PyConverter.layer) :
  li_type li = Some "Linear" ->
  li_fields li !! "in_features" = Some (VInt i) ->
  li_fields li !! "out_features" = Some (VInt o) ->
  PyConverter.create_layer_from_info li = Ok layer ->
  PyConverter.get_layer_properties layer li
    = Ok (list_to_map
            [("type", VStr "Linear");
             ("trainable_parameters", VInt (o * i + o));
             ("in_features", VInt i); ("out_features", VInt o);
             ("has_bias", VBool true)]).
Proof.
  intros Hty Hin Hout Hcreate.
  assert (layer = PyConverter.plain_layer Linear (o * i + o) true) as ->.
  { unfold PyConverter.create_layer_from_info, li_type_item, li_item
      in Hcreate.
    rewrite Hty in Hcreate. cbn [rbind] in Hcreate.
    change (String.eqb "Linear" "Conv2d") with false in Hcreate.
    change (String.eqb "Linear" "Conv1d") with false in Hcreate.
    change (String.eqb "Linear" "Linear") with true in Hcreate.
    cbv iota in Hcreate. rewrite Hin, Hout in Hcreate.
    cbn [rbind] in Hcreate. unfold PyConverter.nn_Linear in Hcreate.
    apply rbind_Ok in Hcreate. destruct Hcreate as (i' & Hi & Hcreate).
    apply rbind_Ok in Hcreate. destruct Hcreate as (o' & Ho & Hcreate).
    injection Hcreate as <-.
    unfold PyConverter.as_size in Hi, Ho.
    destruct (i <? 0)%Z; [done |]. destruct (o <? 0)%Z; [done |].
    injection Hi as <-. injection Ho as <-. done. }
  unfold PyConverter.get_layer_properties, li_type_item, li_item.
  rewrite Hty. simpl. rewrite Hin, Hout. simpl.
  unfold PyConverter.LayerProperties_dict.
  generalize (o * i + o)%Z as count. intros count.
  vm_compute. reflexivity.
Qed.

Lemma py_linear_entry_properties_witness :
  PyConverter.get_layer_properties
      (PyConverter.plain_layer Linear (10 * 128 + 10) true) linear_entry
    = Ok (list_to_map
            [("type", VStr "Linear");
             ("trainable_parameters", VInt (10 * 128 + 10));
             ("in_features", VInt 128); ("out_features", VInt 10);
             ("has_bias", VBool true)]).
Proof.
  apply (py_linear_entry_properties linear_entry 128 10);
    [reflexivity | vm_compute; reflexivity | vm_compute; reflexivity
    | vm_compute; reflexivity].
Defined.

Lemma conv2d_entry_layer li i o layer :
  li_type li = Some "Conv2d" ->
  li_fields li !! "in_channels" = Some (VInt i) ->
  li_fields li !! "out_channels" = Some (VInt o) ->
  PyConverter.create_layer_from_info li = Ok layer ->
  PyConverter.l_class layer = Conv2d /\
  PyConverter.l_trainable layer = (o * i * 3 * 3 + o)%Z.
Proof.
  intros Hty Hin Hout Hcreate.
  unfold PyConverter.create_layer_from_info, li_type_item, li_item in Hcreate.
  rewrite Hty in Hcreate. cbn [rbind] in Hcreate.
  change (String.eqb "Conv2d" "Conv2d") with true in Hcreate.
  cbv iota in Hcreate. rewrite Hin, Hout in Hcreate.
  cbn [rbind] in Hcreate. unfold PyConverter.nn_Conv2d in Hcreate.
  apply rbind_Ok in Hcreate. destruct Hcreate as (i' & Hi & Hcreate).
  apply rbind_Ok in Hcreate. destruct Hcreate as (o' & Ho & Hcreate).
  injection Hcreate as <-.
  unfold PyConverter.as_size in Hi, Ho.
  destruct (i <? 0)%Z; [done |]. destruct (o <? 0)%Z; [done |].
  injection Hi as <-. injection Ho as <-. done.
Qed.

(** The kernel size a convolution node reports is the one the entry declares
    (3 when it declares none). *)
Lemma conv_kernel_size_property layer li props v :
  PyConverter.l_class layer = Conv1d \/ PyConverter.l_class layer = Conv2d ->
  li_get li "kernel_size" (VInt 3) = v -> v <> VNone ->
  PyConverter.get_layer_properties layer li = Ok props ->
  props !! "kernel_size" = Some v.
Proof.
  intros Hclass Hv Hnone H. unfold PyConverter.get_layer_properties in H.
  apply rbind_Ok in H. destruct H as (ty & _ & H).
  apply rbind_Ok in H. destruct H as (raw & Hraw & H).
  apply LayerProperties_dict_inv in H. subst props.
  apply exclude_none_lookup. split; [| done].
  set (base := PyConverter.update _ ∅) in Hraw. clearbody base.
  assert (exists i o,
            raw = PyConverter.update
                    [("in_channels", i); ("out_channels", o);
                     ("kernel_size", li_get li "kernel_size" (VInt 3));
                     ("stride", li_get li "stride" (VInt 1));
                     ("padding", li_get li "padding" (VInt 0));
                     ("has_bias", VBool (PyConverter.l_bias layer))] base)
    as (i & o & ->).
  { destruct Hclass as [Hc | Hc]; rewrite Hc in Hraw;
      apply rbind_Ok in Hraw; destruct Hraw as (i & _ & Hraw);
      apply rbind_Ok in Hraw; destruct Hraw as (o & _ & Hraw);
      injection Hraw as <-; by exists i, o. }
  unfold PyConverter.update. cbn [fold_left fst snd].
  rewrite !lookup_insert_ne by discriminate. rewrite Hv.
  apply lookup_insert_eq.
Qed.


(** X6. For a descriptor entry of type "Conv2d",
    src/python/pytorch_converter.py builds the temporary layer with a 3x3
    kernel whatever the entry declares: the node reports the declared
    kernel_size, and as trainable_parameters the out*in*3*3 + out
    parameters of a 3x3 convolution. *)
Theorem py_conv2d_ignores_declared_kernel
    (li : layer_info) (i o k : Z) (layer : PyConverter.layer)
    (props : gmap string value) :
  li_type li = Some "Conv2d" ->
  li_fields li !! "in_channels" = Some (VInt i) ->
  li_fields li !! "out_channels" = Some (VInt o) ->
  li_fields li !! "kernel_size" = Some (VInt k) ->
  PyConverter.create_layer_from_info li = Ok layer ->
  PyConverter.get_layer_properties layer li = Ok props ->
  props !! "kernel_size" = Some (VInt k) /\
  props !! "trainable_parameters" = Some (VInt (o * i * 3 * 3 + o)).
Proof.
  intros Hty Hin Hout Hk Hcreate Hprops.
  destruct (conv2d_entry_layer li i o layer Hty Hin Hout Hcreate)
    as [Hclass Htrain].
  destruct (get_layer_properties_inv _ _ _ Hprops)
    as (ty & raw & _ & -> & _ & Hraw).
  split.
  - apply (conv_kernel_size_property layer li);
      [by right | unfold li_get; by rewrite Hk | done | done].
  - apply exclude_none_lookup. by rewrite Hraw, Htrain.
Qed.

Lemma py_conv2d_ignores_declared_kernel_witness :
  exists props : gmap string value,
    props !! "kernel_size" = Some (VInt 5) /\
    props !! "trainable_parameters" = Some (VInt (16 * 3 * 3 * 3 + 16)).
Proof.
  destruct (PyConverter.create_layer_from_info conv_entry)
    as [layer|] eqn:Hlayer; [| vm_compute in Hlayer; discriminate Hlayer].
  destruct (PyConverter.get_layer_properties layer conv_entry)
    as [props|] eqn:Hprops.
  - exists props.
    apply (py_conv2d_ignores_declared_kernel conv_entry 3 16 5 layer props);
      [reflexivity | vm_compute; reflexivity | vm_compute; reflexivity
      | vm_compute; reflexivity | exact Hlayer | exact Hprops].
  - vm_compute in Hlayer. injection Hlayer as <-.
    vm_compute in Hprops. discriminate Hprops.
Defined.

(** ** Weight tensors without elements *)

(** X8. src/python/pytorch_converter.py returns a network only when every
    weight tensor it reads (the tensor under "<name>.weight" of an entry
    after the first) has at least one element: on a tensor without elements
    the reduction raises, and with it the whole conversion. *)
Theorem py_conversion_needs_nonempty_weights
    (entries : list layer_info) (weights : gmap string tensor)
    (net : NeuroscopeNetwork) (k : nat) (li : layer_info)
    (name : string) (t : tensor) :
  PyConverter.convert_pytorch_model
    (PyConverter.mkModelData (mkStructure entries) weights) = Ok net ->
  entries !! S k = Some li ->
  li_name li = Some name ->
  weights !! (name +:+ ".weight") = Some t ->
  t_data t <> [].
Proof.
  intros H Hk Hname Ht. destruct entries as [|li0 rest]; [done |].
  simpl in Hk. apply py_convert_inv in H.
  destruct H as (_ & n & _ & _ & new & _ & _ & Hall).
  destruct (Hall k li Hk) as (c & _ & _ & _ & _ & name' & Hname' & Hp).
  rewrite Hname in Hname'. injection Hname' as <-. rewrite Ht in Hp.
  apply weight_props_inv in Hp. destruct Hp as (mx & mn & Hmx & _).
  intros Hempty. rewrite Hempty in Hmx. discriminate Hmx.
Qed.

Lemma py_conversion_needs_nonempty_weights_witness :
  t_data (mkTensor [2; 4]%Z [1; -2; 3; -4; 5; -6; 7; -8]%Q) <> [].
Proof.
  apply (py_conversion_needs_nonempty_weights test_entries test_weights
           test_network_py 1
           (entry "Linear" "fc3"
              [("in_features", VInt 4); ("out_features", VInt 2)])
           "fc3");
    [vm_compute; reflexivity | reflexivity | reflexivity
    | vm_compute; reflexivity].
Defined.

(** * Further properties of the live traversal of python_service *)

Lemma visit_outcome_given m id :
  String.eqb id "" = false ->
  visit_outcome m (Some id) = weight_usable m.
Proof.
  intros Hid. unfold visit_outcome, weight_usable. simpl. rewrite Hid.
  destruct (hasattr m "weight"); [| done].
  destruct (ServiceConverter.weight_matrix_of m) as [t|]; [| done].
  unfold np_max, np_abs. by destruct (t_data t).
Qed.

Lemma process_layer_is_ok m :
  forall p st,
    is_ok (ServiceConverter.process_layer m p st)
      = visit_outcome m p && forallb weight_usable (modules_below m).
Proof.
  induction m as [m IH] using nn_module_forall_ind. intros p st.
  rewrite process_layer_unfold, is_ok_rbind.
  pose proof (visit_layer_is_ok m p st) as Hvisit.
  destruct (ServiceConverter.visit_layer m p st) as [[id st1]|] eqn:E;
    simpl in Hvisit; rewrite <- Hvisit; [| done].
  apply visit_layer_id in E. subst id. simpl. unfold modules_below.
  revert st1. clear Hvisit.
  induction IH as [|child cs Hchild _ IHcs]; intros s; [done |].
  simpl. rewrite is_ok_rbind, forallb_app.
  specialize (Hchild (Some (layer_id_of (ServiceConverter.node_id_counter st)))
                     s).
  rewrite visit_outcome_given in Hchild by apply layer_id_of_nonempty.
  rewrite modules_unfold. simpl.
  destruct (ServiceConverter.process_layer child _ s) as [s1|];
    simpl in Hchild; unfold modules_below in Hchild; rewrite <- Hchild;
    [apply IHcs | done].
Qed.

Lemma hook_registered_usable m m' :
  hook_registered m m' -> weight_usable m' = weight_usable m.
Proof.
  intros (_ & _ & Hp & Ha & _).
  unfold weight_usable, ServiceConverter.weight_matrix_of, hasattr, getattr.
  by rewrite Hp, Ha.
Qed.

Lemma forallb_registered ms ms' :
  Forall2 hook_registered ms ms' ->
  forallb weight_usable ms' = forallb weight_usable ms.
Proof.
  induction 1 as [|m m' ms ms' Hm _ IH]; [done |].
  simpl. by rewrite (hook_registered_usable _ _ Hm), IH.
Qed.

(** X11. The live conversion of python_service returns a network only when
    every module below the root either has no attribute "weight" or has a
    weight tensor with at least one element: a module below the root whose
    weight is [None] (a normalisation layer without affine parameters) or
    has no elements makes the whole conversion raise, whatever its class. *)
Theorem live_conversion_requires
    (model : nn_module) (net : NeuroscopeNetwork) :
  (ServiceConverter.convert_pytorch_model model).2 = Ok net ->
  forallb weight_usable (modules_below model) = true.
Proof.
  unfold ServiceConverter.convert_pytorch_model. simpl. intros Hnet.
  apply rbind_Ok in Hnet. destruct Hnet as (st & Hst & _).
  pose proof (process_layer_is_ok
                (ServiceConverter.register_activation_hooks model) None
                (ServiceConverter.mkState [] [] 0)) as H.
  rewrite Hst in H. simpl in H. unfold modules_below in *.
  pose proof (register_modules model) as Hreg.
  rewrite (modules_unfold model), (modules_unfold (_ model)) in Hreg.
  apply Forall2_cons_1 in Hreg. destruct Hreg as [_ Hreg].
  by rewrite <- (forallb_registered _ _ Hreg).
Qed.

Lemma live_conversion_requires_witness :
  forallb weight_usable (modules_below small_net) = true.
Proof.
  apply (live_conversion_requires small_net
           (unwrap (ServiceConverter.convert_pytorch_model small_net).2)).
  vm_compute. reflexivity.
Defined.






Lemma visit_layer_registered m m' p st :
  hook_registered m m' ->
  ServiceConverter.visit_layer m' p st = ServiceConverter.visit_layer m p st.
Proof.
  intros Hreg.
  destruct (hook_registered_properties _ _ Hreg) as (Hc & Hprops & Hw).
  destruct Hreg as (_ & _ & Hp & Ha & _).
  unfold ServiceConverter.visit_layer, ServiceConverter.weight_matrix_of.
  rewrite Hc, Hprops, Hw. unfold getattr. by rewrite Hp, Ha.
Qed.

Lemma process_layer_registered m :
  forall p st,
    ServiceConverter.process_layer
      (ServiceConverter.register_activation_hooks m) p st
    = ServiceConverter.process_layer m p st.
Proof.
  induction m as [m IH] using nn_module_forall_ind. intros p st.
  rewrite !process_layer_unfold.
  pose proof (register_modules m) as Hreg.
  rewrite (modules_unfold m), (modules_unfold (_ m)) in Hreg.
  apply Forall2_cons_1 in Hreg. destruct Hreg as [Hm _].
  rewrite (visit_layer_registered _ _ p st Hm), register_children.
  destruct (ServiceConverter.visit_layer m p st) as [[id st1]|]; [| done].
  simpl. clear Hm. revert st1.
  induction IH as [|child cs Hchild _ IHcs]; intros s; [done |].
  simpl. rewrite Hchild.
  destruct (ServiceConverter.process_layer child (Some id) s); [| done].
  simpl. apply IHcs.
Qed.

(** X13. Converting a model again gives the same result, network or error,
    as the first conversion, and leaves one more activation hook on every
    leaf: the hooks of the earlier conversions are never removed. *)
Theorem repeated_conversion_accumulates_hooks (model : nn_module) :
  let once := ServiceConverter.convert_pytorch_model model in
  let twice := ServiceConverter.convert_pytorch_model once.1 in
  twice.2 = once.2 /\
  forall i m,
    modules model !! i = Some m -> has_children m = false ->
    exists m2,
      modules twice.1 !! i = Some m2 /\
      m_forward_hooks m2
        = m_forward_hooks m ++ [activation_hook; activation_hook].
Proof.
  unfold ServiceConverter.convert_pytorch_model. simpl. split.
  - by rewrite !process_layer_registered.
  - intros i m Hi Hleaf.
    destruct (Forall2_lookup_l _ _ _ _ _ (register_modules model) Hi)
      as (m1 & Hi1 & _ & _ & _ & _ & _ & Hch1 & Hhooks1).
    destruct (Forall2_lookup_l _ _ _ _ _
                (register_modules
                   (ServiceConverter.register_activation_hooks model)) Hi1)
      as (m2 & Hi2 & _ & _ & _ & _ & _ & _ & Hhooks2).
    exists m2. split; [done |].
    rewrite Hhooks2, Hch1, Hleaf, Hhooks1, Hleaf, <- app_assoc. done.
Qed.

Lemma with_attrs_lookup_other m names d k :
  forallb (fun name => negb (String.eqb k name)) names = true ->
  with_attrs m names d !! k = d !! k.
Proof.
  unfold with_attrs. revert d.
  induction names as [|name names IH]; intros d Hk; [done |].
  simpl in Hk. apply andb_prop in Hk. destruct Hk as [Hk Hrest].
  simpl. rewrite (IH _ Hrest). apply lookup_insert_ne.
  intros ->. by rewrite String.eqb_refl in Hk.
Qed.

(** The common fields are in the properties of every layer, whatever its
    class. *)
Lemma live_common_fields layer k :
  k = "type" \/ k = "trainable_parameters" \/ k = "has_bias" ->
  ServiceConverter.get_layer_properties layer !! k
    = common_fields layer !! k.
Proof.
  intros Hk. unfold ServiceConverter.get_layer_properties.
  set (base := <["has_bias" := _]> _).
  assert (base !! k = common_fields layer !! k) as <-.
  { subst base. unfold common_fields. simpl.
    destruct Hk as [-> | [-> | ->]];
      rewrite ?lookup_insert_ne by discriminate;
      by rewrite !lookup_insert_eq. }
  clearbody base.
  repeat match goal with
         | |- context [if isinstance layer ?cs then _ else _] =>
             destruct (isinstance layer cs)
         end;
    rewrite ?with_attrs_lookup_other; try done;
    destruct Hk as [-> | [-> | ->]]; reflexivity.
Qed.

(** X14. Every node of a live conversion of python_service carries the
    common fields among its properties, whatever the class of its layer:
    its own type, the number of trainable parameters as an integer, and
    has_bias as a boolean. *)
Theorem live_nodes_carry_common_fields
    (model : nn_module) (net : NeuroscopeNetwork) (n : NetworkNode) :
  (ServiceConverter.convert_pytorch_model model).2 = Ok net ->
  n ∈ net_nodes net ->
  node_properties n !! "type" = Some (VStr (node_type n)) /\
  (exists count, node_properties n !! "trainable_parameters"
                   = Some (VInt count)) /\
  (exists bias, node_properties n !! "has_bias" = Some (VBool bias)).
Proof.
  intros H Hn. apply live_convert_inv in H. destruct H as (_ & Hnodes & _).
  rewrite Hnodes in Hn. apply list_elem_of_lookup in Hn.
  destruct Hn as [i Hi]. unfold live_nodes in Hi.
  rewrite list_lookup_imap in Hi.
  destruct (modules model !! i) as [m|]; [| done].
  simpl in Hi. injection Hi as <-. simpl.
  rewrite !live_common_fields by auto. unfold common_fields. simpl.
  split; [by rewrite lookup_insert_eq |].
  split; eexists; rewrite ?lookup_insert_ne by discriminate;
    by rewrite lookup_insert_eq.
Qed.

Lemma live_nodes_carry_common_fields_witness :
  exists n,
    net_nodes (unwrap (ServiceConverter.convert_pytorch_model small_net).2)
      !! 1 = Some n /\
    node_properties n !! "type" = Some (VStr (node_type n)) /\
    (exists count, node_properties n !! "trainable_parameters"
                     = Some (VInt count)) /\
    (exists bias, node_properties n !! "has_bias" = Some (VBool bias)).
Proof.
  destruct (net_nodes (unwrap (ServiceConverter.convert_pytorch_model
                                 small_net).2) !! 1) as [n|] eqn:Hn;
    [| vm_compute in Hn; discriminate Hn].
  exists n. split; [reflexivity |].
  apply (live_nodes_carry_common_fields small_net
           (unwrap (ServiceConverter.convert_pytorch_model small_net).2) n).
  - vm_compute. reflexivity.
  - apply list_elem_of_lookup. exists 1. exact Hn.
Defined.

(** ** The connections of the two live traversals *)

(** A pair of [live_edges] is the connection from the parent into the root
    of the hierarchy, or leads from a module of the hierarchy into one of
    its children. *)
Definition live_parented (m : nn_module) : Prop :=
  forall base parent a b,
    (a, b) ∈ live_edges base parent m ->
    (parent = Some a /\ b = base) \/
    (base <= a /\ a < b /\
     exists pa mb,
       modules m !! (a - base) = Some pa /\
       modules m !! (b - base) = Some mb /\ mb ∈ m_children pa).

Lemma live_edges_children_parented cs base :
  Forall live_parented cs ->
  forall c a b,
    base < c ->
    (a, b) ∈ live_edges_children (fun b p c => live_edges b (Some p) c)
                                 base cs c ->
    (a = base /\ c <= b /\
     exists mb, mb ∈ cs /\ flat_map modules cs !! (b - c) = Some mb) \/
    (c <= a /\ a < b /\
     exists pa mb,
       flat_map modules cs !! (a - c) = Some pa /\
       flat_map modules cs !! (b - c) = Some mb /\ mb ∈ m_children pa).
Proof.
  induction 1 as [|child cs Hchild _ IH]; intros c a b Hc Hin; simpl in Hin.
  - by apply elem_of_nil in Hin.
  - apply elem_of_app in Hin. destruct Hin as [Hin | Hin].
    + destruct (Hchild _ _ _ _ Hin)
        as [[[= <-] ->] | (Ha & Hab & pa & mb & Hpa & Hmb & Hchildof)].
      * left. split; [done |]. split; [done |]. exists child.
        split; [by left |]. rewrite Nat.sub_diag. simpl.
        by rewrite modules_unfold.
      * right. split; [done |]. split; [done |]. exists pa, mb.
        simpl. rewrite !lookup_app_l by (by eapply lookup_lt_Some). done.
    + pose proof (length_zero_iff_nil (modules child)) as Hlen.
      rewrite modules_unfold in Hlen at 2.
      destruct (IH (c + length (modules child)) a b) as
        [(-> & Hb & mb & Hmb & Hlook) | (Ha & Hab & pa & mb & Hpa & Hmb & Hof)];
        [lia | done | |].
      * left. split; [done |]. split; [lia |]. exists mb.
        split; [by right |]. simpl. rewrite lookup_app_r by lia.
        rewrite <- Hlook. f_equal. lia.
      * right. split; [lia |]. split; [done |]. exists pa, mb. simpl.
        rewrite !lookup_app_r by lia. split; [| split; [| done]].
        -- rewrite <- Hpa. f_equal. lia.
        -- rewrite <- Hmb. f_equal. lia.
Qed.

Lemma live_edges_parented m : live_parented m.
Proof.
  induction m as [m IH] using nn_module_forall_ind.
  intros base parent a b Hin. rewrite live_edges_unfold in Hin.
  apply elem_of_app in Hin. destruct Hin as [Hin | Hin].
  - destruct parent as [p|]; [| by apply elem_of_nil in Hin].
    destruct (hasattr m "weight"); [| by apply elem_of_nil in Hin].
    apply list_elem_of_singleton in Hin. injection Hin as -> ->. by left.
  - right. rewrite modules_unfold.
    destruct (live_edges_children_parented _ base IH (S base) a b) as
      [(-> & Hb & mb & Hmb & Hlook) | (Ha & Hab & pa & mb & Hpa & Hmb & Hof)];
      [lia | done | |].
    + split; [done |]. split; [lia |]. exists m, mb.
      rewrite Nat.sub_diag. split; [done |]. split; [| done].
      replace (b - base) with (S (b - S base)) by lia. done.
    + split; [lia |]. split; [done |]. exists pa, mb.
      replace (a - base) with (S (a - S base)) by lia.
      replace (b - base) with (S (b - S base)) by lia. done.
Qed.

(** The targets of [live_edges] are increasing. *)
Lemma live_edges_targets_sublist m :
  forall base parent,
    map snd (live_edges base parent m)
      `sublist_of` seq base (length (modules m)).
Proof.
  induction m as [m IH] using nn_module_forall_ind. intros base parent.
  rewrite live_edges_unfold, modules_unfold, map_app. simpl length.
  change (seq base (S (length (flat_map modules (m_children m)))))
    with ([base] ++ seq (S base) (length (flat_map modules (m_children m)))).
  apply sublist_app.
  - destruct parent as [p|]; [| apply sublist_nil_l].
    destruct (hasattr m "weight"); [done | apply sublist_nil_l].
  - generalize (S base) as c.
    induction IH as [|child cs Hchild _ IHcs]; intros c; [done |].
    simpl. rewrite map_app, length_app, seq_app.
    apply sublist_app; [apply Hchild | apply IHcs].
Qed.

(** X15. In the network of a live conversion of python_service every
    connection leads from the node of a module to the node of one of its
    direct children, made later, and no node is the target of two
    connections: the connections form a forest along the module
    hierarchy. *)
Theorem live_connections_follow_hierarchy
    (model : nn_module) (net : NeuroscopeNetwork) :
  (ServiceConverter.convert_pytorch_model model).2 = Ok net ->
  (forall c, c ∈ net_connections net ->
     exists a b parent child,
       conn_source c = layer_id_of a /\ conn_target c = layer_id_of b /\
       a < b /\
       modules model !! a = Some parent /\ modules model !! b = Some child /\
       child ∈ m_children parent) /\
  NoDup (map conn_target (net_connections net)).
Proof.
  intros H. apply live_convert_inv in H. destruct H as (_ & _ & Hedges).
  split.
  - intros c Hc.
    assert (endpoints c ∈ map layer_pair (live_edges 0 None model)) as Hc'
      by (rewrite <- Hedges; by apply (list_elem_of_fmap_2 endpoints)).
    apply list_elem_of_fmap in Hc'.
    destruct Hc' as ([a b] & Hab & Hin). injection Hab as Hs Ht.
    destruct (live_edges_parented model 0 None a b Hin)
      as [[? _] | (_ & Hlt & pa & mb & Hpa & Hmb & Hof)]; [done |].
    rewrite Nat.sub_0_r in Hpa, Hmb. by exists a, b, pa, mb.
  - assert (map conn_target (net_connections net)
            = map layer_id_of (map snd (live_edges 0 None model))) as ->.
    { transitivity (map snd (map endpoints (net_connections net)));
        [by rewrite map_map |].
      rewrite Hedges, !map_map. done. }
    apply (NoDup_fmap_2 _ (Inj0 := layer_id_of_inj)).
    eapply sublist_NoDup; [| apply live_edges_targets_sublist].
    apply NoDup_seq.
Qed.

Lemma live_connections_follow_hierarchy_witness :
  (forall c,
     c ∈ net_connections
           (unwrap (ServiceConverter.convert_pytorch_model small_net).2) ->
     exists a b parent child,
       conn_source c = layer_id_of a /\ conn_target c = layer_id_of b /\
       a < b /\
       modules small_net !! a = Some parent /\
       modules small_net !! b = Some child /\
       child ∈ m_children parent) /\
  NoDup (map conn_target
           (net_connections
              (unwrap (ServiceConverter.convert_pytorch_model small_net).2))).
Proof.
  apply (live_connections_follow_hierarchy small_net).
  vm_compute. reflexivity.
Defined.

(** X16. In the network of the bridge every connection leads from a node
    to a node made later (so there is no self-loop and no cycle), both among
    the nodes of the network, and its weight is the constant 1.0: the bridge
    never reads a weight tensor. *)
Theorem bridge_connections_lead_forward (model : nn_module) :
  let net := Bridge.analyze_model model in
  Forall (fun c =>
            exists a b,
              a < b < length (Bridge.net_nodes net) /\
              Bridge.source c = pretty a /\ Bridge.target c = pretty b /\
              Bridge.weight c = FRat 1)
         (Bridge.net_connections net).
Proof.
  cbv zeta. destruct (analyze_model_inv model) as [Hnodes Hedges].
  rewrite Hedges. apply Forall_forall. intros c Hc.
  apply list_elem_of_fmap in Hc. destruct Hc as ([a b] & -> & Hin).
  destruct (bridge_shape_all model 0) as (_ & Hwithin & _).
  destruct (Hwithin a b Hin) as (_ & Hab & Hb).
  exists a, b. split; [| done].
  rewrite <- (length_map node_core), Hnodes. unfold bridge_nodes.
  rewrite length_imap. lia.
Qed.

(** *** Models whose layers are the direct children of the root *)

Definition leaf_node (base : nat) (prefix : string) (i : nat)
    (child : nn_module) : Bridge.node :=
  Bridge.mkNode (pretty (base + i)) (class_name (m_class child))
                (Bridge.full_name_of prefix (m_name child))
                (Bridge.extract_layer_info child).

Lemma process_children_leaves pc prefix cs :
  forallb plain_leaf cs = true ->
  forall acc st,
    Bridge.process_children pc prefix cs acc st =
      (acc ++ seq (Bridge.node_count st) (length cs),
       Bridge.mkState
         (Bridge.nodes st ++ imap (leaf_node (Bridge.node_count st) prefix) cs)
         (Bridge.connections st)
         (Bridge.node_count st + length cs)).
Proof.
  induction cs as [|child cs IH]; intros Hcs acc st.
  - destruct st. simpl. by rewrite !app_nil_r, Nat.add_0_r.
  - simpl in Hcs. apply andb_prop in Hcs. destruct Hcs as [Hchild Hcs].
    unfold plain_leaf in Hchild. apply andb_prop in Hchild.
    destruct Hchild as [Htr Hch].
    apply negb_true_iff in Htr, Hch.
    rewrite process_children_cons, Htr. unfold child_state. rewrite Hch.
    rewrite (IH Hcs). unfold Bridge.add_node. cbn [fst snd Bridge.nodes
      Bridge.connections Bridge.node_count length seq imap].
    rewrite <- !app_assoc. f_equal. f_equal.
    + f_equal. unfold leaf_node at 2. rewrite Nat.add_0_r. simpl. f_equal.
      apply imap_ext. intros i m _. unfold leaf_node, compose. f_equal.
      f_equal. lia.
    + lia.
Qed.

Lemma chain_seq n :
  forall b, Bridge.chain (seq b n)
            = map (fun i => Bridge.edge i (S i)) (seq b (n - 1)).
Proof.
  induction n as [|n IH]; intros b; [done |].
  destruct n as [|n]; [done |].
  change (Bridge.chain (seq b (S (S n))))
    with (Bridge.edge b (S b) :: Bridge.chain (seq (S b) (S n))).
  rewrite IH. simpl. by rewrite Nat.sub_0_r.
Qed.

(** X17. When every child of the root is a layer without children (and not
    a Sequential, ModuleList or ModuleDict), the bridge makes one node per
    child, in order, numbered from 0 and named as the child is registered.
    A Sequential root chains them, node i to node i + 1; any other root, such
    as a user-defined module, gives a network without connections. *)
Theorem bridge_flat_model (model : nn_module) :
  forallb plain_leaf (m_children model) = true ->
  let net := Bridge.analyze_model model in
  Bridge.net_nodes net
    = imap (fun i child =>
              Bridge.mkNode (pretty i) (class_name (m_class child))
                            (m_name child) (Bridge.extract_layer_info child))
           (m_children model) /\
  Bridge.net_connections net
    = if isinstance model [Sequential]
      then map (fun i => Bridge.edge i (S i))
               (seq 0 (length (m_children model) - 1))
      else [].
Proof.
  intros Hleaves. cbv zeta. unfold Bridge.analyze_model.
  rewrite process_container_unfold. cbv zeta.
  rewrite (process_children_leaves _ _ _ Hleaves).
  destruct (isinstance model [Sequential]);
    cbn [fst snd Bridge.append_connections Bridge.net_nodes
         Bridge.net_connections Bridge.nodes Bridge.connections
         Bridge.node_count app];
    rewrite ?chain_seq; done.
Qed.

Lemma bridge_flat_model_witness :
  let net := Bridge.analyze_model flat_sequential in
  Bridge.net_nodes net
    = imap (fun i child =>
              Bridge.mkNode (pretty i) (class_name (m_class child))
                            (m_name child) (Bridge.extract_layer_info child))
           (m_children flat_sequential) /\
  Bridge.net_connections net
    = if isinstance flat_sequential [Sequential]
      then map (fun i => Bridge.edge i (S i))
               (seq 0 (length (m_children flat_sequential) - 1))
      else [].
Proof.
  apply (bridge_flat_model flat_sequential). reflexivity.
Defined.



(** ** The keys a descriptor entry has to declare *)

Lemma li_item_Some li k v : li_item li k = Ok v -> li_fields li !! k = Some v.
Proof.
  unfold li_item. by destruct (li_fields li !! k) as [w|]; intros [= ->].
Qed.

Lemma create_layer_required li ty layer k :
  li_type li = Some ty ->
  PyConverter.create_layer_from_info li = Ok layer ->
  k ∈ required_fields ty ->
  is_Some (li_fields li !! k).
Proof.
  intros Hty H Hk.
  unfold PyConverter.create_layer_from_info, li_type_item in H.
  rewrite Hty in H. cbn [rbind] in H.
  repeat match type of H with
         | (if String.eqb ty ?s then _ else _) = _ =>
             let E := fresh "E" in
             destruct (String.eqb ty s) eqn:E;
               [apply String.eqb_eq in E; subst ty |]
         end;
    try discriminate H;
    try (match type of Hk with
         | k ∈ required_fields ?t =>
             let r := eval vm_compute in (required_fields t) in
             change (required_fields t) with r in Hk
         end);
    try (by apply elem_of_nil in Hk);
    apply rbind_Ok in H; destruct H as (a & Ha & H);
    try (apply rbind_Ok in H; destruct H as (b & Hb & H));
    apply li_item_Some in Ha; try apply li_item_Some in Hb;
    repeat (apply elem_of_cons in Hk; destruct Hk as [-> | Hk]; [by eexists |]);
    by apply elem_of_nil in Hk.
Qed.

(** X19. src/python/pytorch_converter.py returns a network only when every
    entry of the descriptor declares the sizes its type needs (the channels
    of a convolution, the features of a linear or batch-norm layer, the
    input and hidden size of an LSTM or GRU): an entry that lacks one of
    these keys makes the whole conversion raise. *)
Theorem py_conversion_needs_declared_sizes
    (entries : list layer_info) (weights : gmap string tensor)
    (net : NeuroscopeNetwork) :
  PyConverter.convert_pytorch_model
    (PyConverter.mkModelData (mkStructure entries) weights) = Ok net ->
  Forall (fun li =>
            forall ty k,
              li_type li = Some ty -> k ∈ required_fields ty ->
              is_Some (li_fields li !! k))
         entries.
Proof.
  intros H. apply py_convert_nodes in H. destruct H as (new & _ & _ & Hall).
  apply Forall_lookup. intros i li Hi ty k Hty Hk.
  destruct (Hall i li Hi) as (n & _ & ty' & layer & Hty' & Hc & _).
  by apply (create_layer_required li ty layer k).
Qed.

Lemma py_conversion_needs_declared_sizes_witness :
  Forall (fun li =>
            forall ty k,
              li_type li = Some ty -> k ∈ required_fields ty ->
              is_Some (li_fields li !! k))
         test_entries.
Proof.
  apply (py_conversion_needs_declared_sizes test_entries test_weights
           test_network_py).
  vm_compute. reflexivity.
Defined.
